(** * nPM13xx charger driver: unit converters, ADC decoder, register sequencing

    Shallow embedding of [drivers/sensor/nordic/npm13xx_charger/npm13xx_charger.c].
    C integers are carried as [Z]; every conversion to a fixed-width type is
    written out ([to_int32], [to_uint32], [to_uint16], [to_uint8]).  Signed
    arithmetic wraps (Zephyr is built with -fno-strict-overflow). *)

From Stdlib Require Import ZArith List Bool Lia.
Import ListNotations.
Local Open Scope Z_scope.

(** ** Fixed-width integers *)

Module CInt.

Definition to_uint8 (x : Z) : Z := x mod 2 ^ 8.
Definition to_uint16 (x : Z) : Z := x mod 2 ^ 16.
Definition to_uint32 (x : Z) : Z := x mod 2 ^ 32.

(** Two's complement reading of the low 32 bits. *)
Definition to_int32 (x : Z) : Z := (x + 2 ^ 31) mod 2 ^ 32 - 2 ^ 31.

Definition INT32_MAX : Z := 2147483647.
Definition INT32_MIN : Z := -2147483648.
Definition UINT8_MAX : Z := 255.

Definition is_uint8 (x : Z) : Prop := 0 <= x <= 255.
Definition is_uint16 (x : Z) : Prop := 0 <= x <= 65535.
Definition is_int32 (x : Z) : Prop := INT32_MIN <= x <= INT32_MAX.

(** int32 operators: the exact result, then the wrap.  [/] of C truncates
    towards zero, which is [Z.quot]. *)
Definition neg32 (a : Z) : Z := to_int32 (- a).
Definition add32 (a b : Z) : Z := to_int32 (a + b).
Definition sub32 (a b : Z) : Z := to_int32 (a - b).
Definition mul32 (a b : Z) : Z := to_int32 (a * b).
Definition div32 (a b : Z) : Z := to_int32 (Z.quot a b).

End CInt.
Import CInt.

(** ** Configuration and live sample state *)

(** [struct linear_range] of <zephyr/sys/linear_range.h>. *)
Record linear_range := LINEAR_RANGE_INIT {
  lr_min : Z;       (* int32_t  min     *)
  lr_step : Z;      (* uint32_t step    *)
  lr_min_idx : Z;   (* uint16_t min_idx *)
  lr_max_idx : Z    (* uint16_t max_idx *)
}.

(** [struct npm13xx_charger_config].  Its first field, the parent device
    [mfd], is the transport; the driver functions below take it as a
    separate argument. *)
Record npm13xx_charger_config := {
  term_microvolt : Z;
  term_warm_microvolt : Z;
  term_volt_ranges : list linear_range;          (* [2U] *)
  current_microamp : Z;
  current_range : linear_range;
  full_scale_discharge_factors : Z * Z;          (* [2U] *)
  dischg_limit_microamp : Z;
  dischg_limit_idx : Z;
  vbus_limit_microamp : Z;
  temp_thresholds : list Z;                      (* [4U] *)
  dietemp_thresholds : list Z;                   (* [2U] *)
  thermistor_ohms : Z;
  thermistor_beta : Z;
  thermistor_idx : Z;
  trickle_sel : Z;
  iterm_sel : Z;
  charging_enable : bool;
  vbatlow_charge_enable : bool;
  disable_recharge : bool
}.

(** [struct npm13xx_charger_data], the live sample state. *)
Record npm13xx_charger_data := {
  voltage : Z;     (* uint16_t *)
  current : Z;     (* uint16_t *)
  temp : Z;        (* uint16_t *)
  dietemp : Z;     (* uint16_t *)
  status : Z;      (* uint8_t  *)
  error : Z;       (* uint8_t  *)
  ibat_stat : Z;   (* uint8_t  *)
  vbus_stat : Z    (* uint8_t  *)
}.

(** A freshly constructed driver instance: static storage, all zero. *)
Definition charger_data_zero : npm13xx_charger_data :=
  {| voltage := 0; current := 0; temp := 0; dietemp := 0;
     status := 0; error := 0; ibat_stat := 0; vbus_stat := 0 |}.

(** ** Register map and constants *)

Definition CHGR_BASE : Z := 0x03.
Definition ADC_BASE : Z := 0x05.
Definition VBUS_BASE : Z := 0x02.

Definition CHGR_OFFSET_ERR_CLR : Z := 0x00.
Definition CHGR_OFFSET_EN_SET : Z := 0x04.
Definition CHGR_OFFSET_EN_CLR : Z := 0x05.
Definition CHGR_OFFSET_DIS_SET : Z := 0x06.
Definition CHGR_OFFSET_ISET : Z := 0x08.
Definition CHGR_OFFSET_ISET_DISCHG : Z := 0x0A.
Definition CHGR_OFFSET_VTERM : Z := 0x0C.
Definition CHGR_OFFSET_VTERM_R : Z := 0x0D.
Definition CHGR_OFFSET_TRICKLE_SEL : Z := 0x0E.
Definition CHGR_OFFSET_ITERM_SEL : Z := 0x0F.
Definition CHGR_OFFSET_NTC_TEMPS : Z := 0x10.
Definition CHGR_OFFSET_DIE_TEMPS : Z := 0x18.
Definition CHGR_OFFSET_CHG_STAT : Z := 0x34.
Definition CHGR_OFFSET_ERR_REASON : Z := 0x36.
Definition CHGR_OFFSET_VBATLOW_EN : Z := 0x50.

Definition ADC_OFFSET_TASK_VBAT : Z := 0x00.
Definition ADC_OFFSET_TASK_TEMP : Z := 0x01.
Definition ADC_OFFSET_TASK_DIE : Z := 0x02.
Definition ADC_OFFSET_CONFIG : Z := 0x09.
Definition ADC_OFFSET_NTCR_SEL : Z := 0x0A.
Definition ADC_OFFSET_TASK_AUTO : Z := 0x0C.
Definition ADC_OFFSET_RESULTS : Z := 0x10.
Definition ADC_OFFSET_IBAT_EN : Z := 0x24.

Definition VBUS_OFFSET_ILIMUPDATE : Z := 0x00.
Definition VBUS_OFFSET_ILIM : Z := 0x01.
Definition VBUS_OFFSET_ILIMSTARTUP : Z := 0x02.
Definition VBUS_OFFSET_DETECT : Z := 0x05.
Definition VBUS_OFFSET_STATUS : Z := 0x07.

Definition IBAT_STAT_DISCHARGE : Z := 0x04.
Definition IBAT_STAT_CHARGE_TRICKLE : Z := 0x0C.
Definition IBAT_STAT_CHARGE_COOL : Z := 0x0D.
Definition IBAT_STAT_CHARGE_NORMAL : Z := 0x0F.

Definition ADC_MSB_SHIFT : Z := 2.
Definition ADC_LSB_MASK : Z := 0x03.
Definition ADC_LSB_VBAT_SHIFT : Z := 0.
Definition ADC_LSB_NTC_SHIFT : Z := 2.
Definition ADC_LSB_DIE_SHIFT : Z := 4.
Definition ADC_LSB_IBAT_SHIFT : Z := 4.

Definition NTCTEMP_MSB_SHIFT : Z := 2.
Definition NTCTEMP_LSB_MASK : Z := 0x03.
Definition DIETEMP_MSB_SHIFT : Z := 2.
Definition DIETEMP_LSB_MASK : Z := 0x03.

Definition DIETEMP_OFFSET_MDEGC : Z := 394670.
Definition DIETEMP_FACTOR_MUL : Z := 3963000.
Definition DIETEMP_FACTOR_DIV : Z := 5000.

Definition NPM1300_CHARGER_VOLT_RANGES : list linear_range :=
  [LINEAR_RANGE_INIT 3500000 50000 0 3; LINEAR_RANGE_INIT 4000000 50000 4 13].
Definition NPM1304_CHARGER_VOLT_RANGES : list linear_range :=
  [LINEAR_RANGE_INIT 3600000 50000 0 1; LINEAR_RANGE_INIT 4000000 50000 2 15].

Definition NPM1300_CHARGER_CURRENT_RANGE : linear_range :=
  LINEAR_RANGE_INIT 32000 2000 16 400.
Definition NPM1304_CHARGER_CURRENT_RANGE : linear_range :=
  LINEAR_RANGE_INIT 4000 500 8 200.

Definition NPM1300_FULL_SCALE_DISCHARGE_FACTORS : Z * Z := (112, 100).
Definition NPM1304_FULL_SCALE_DISCHARGE_FACTORS : Z * Z := (415, 400).
Definition full_scale_charge_factors : Z * Z := (125, 100).

Definition npm1300_discharge_limits : list Z := [84; 415].

Definition vbus_current_range : linear_range :=
  LINEAR_RANGE_INIT 100000 100000 1 15.

(** errno values of Zephyr's libc. *)
Definition EINVAL : Z := 22.
Definition ENODEV : Z := 19.
Definition ENOTSUP : Z := 134.

(** ** Unit converters *)

(** [adc_get_res]: [msb] and [lsb] are [uint8_t], [lsb_shift] is [uint16_t];
    the expression is evaluated in [int] and returned as [uint16_t]. *)
Definition adc_get_res (msb lsb lsb_shift : Z) : Z :=
  to_uint16 (Z.lor (Z.shiftl (to_uint16 msb) ADC_MSB_SHIFT)
                   (Z.land (Z.shiftr lsb lsb_shift) ADC_LSB_MASK)).

(** [calc_dietemp]: the millidegree value handed to [sensor_value_from_milli].
    The product is an [int32_t] product. *)
Definition calc_dietemp (code : Z) : Z :=
  sub32 DIETEMP_OFFSET_MDEGC
        (div32 (mul32 code DIETEMP_FACTOR_MUL) DIETEMP_FACTOR_DIV).

(** Modelled from the spec: [DIV_ROUND_CLOSEST] of <zephyr/sys/util.h> is not
    part of the driver file.  The spec asks for round-to-nearest; for two
    signed operands the macro subtracts half the divisor when the signs of
    [n] and [d] differ and adds it otherwise, then divides truncating. *)
Definition DIV_ROUND_CLOSEST (n d : Z) : Z :=
  if xorb (n <? 0) (d <? 0)
  then div32 (sub32 n (div32 d 2)) d
  else div32 (add32 n (div32 d 2)) d.

(** The register code that [set_dietemp_thresholds] derives from one
    threshold (the body of its loop up to the register write). *)
Definition dietemp_code_from_threshold (threshold : Z) : Z :=
  let numerator :=
    mul32 (sub32 DIETEMP_OFFSET_MDEGC threshold) DIETEMP_FACTOR_DIV in
  to_uint16 (DIV_ROUND_CLOSEST numerator DIETEMP_FACTOR_MUL).

(** The same two conversions over the integers, as the specification
    states them: no machine width. *)
Definition die_temperature_exact (code : Z) : Z :=
  DIETEMP_OFFSET_MDEGC - Z.quot (code * DIETEMP_FACTOR_MUL) DIETEMP_FACTOR_DIV.

Definition dietemp_code_exact (threshold : Z) : Z :=
  let n := (DIETEMP_OFFSET_MDEGC - threshold) * DIETEMP_FACTOR_DIV in
  if n <? 0
  then Z.quot (n - Z.quot DIETEMP_FACTOR_MUL 2) DIETEMP_FACTOR_MUL
  else Z.quot (n + Z.quot DIETEMP_FACTOR_MUL 2) DIETEMP_FACTOR_MUL.

(** [calc_current], first half: the [switch] on [data->ibat_stat]. *)
Definition calc_full_scale_ua (config : npm13xx_charger_config)
    (data : npm13xx_charger_data) : Z :=
  let st := ibat_stat data in
  if st =? IBAT_STAT_DISCHARGE then
    div32 (mul32 (neg32 (dischg_limit_microamp config))
                 (fst (full_scale_discharge_factors config)))
          (snd (full_scale_discharge_factors config))
  else if (st =? IBAT_STAT_CHARGE_TRICKLE) || (st =? IBAT_STAT_CHARGE_COOL)
          || (st =? IBAT_STAT_CHARGE_NORMAL) then
    div32 (mul32 (current_microamp config) (fst full_scale_charge_factors))
          (snd full_scale_charge_factors)
  else 0.

(** The three [__ASSERT_NO_MSG] lines of [calc_current]. *)
Definition calc_current_asserts (config : npm13xx_charger_config)
    (data : npm13xx_charger_data) : bool :=
  (current data <=? 1023)
  && (calc_full_scale_ua config data <=? 1000000)
  && (calc_full_scale_ua config data >=? -1120000).

(** [calc_current] with the assertions compiled out: the microamp value
    handed to [sensor_value_from_micro]. *)
Definition calc_current_ua (config : npm13xx_charger_config)
    (data : npm13xx_charger_data) : Z :=
  div32 (mul32 (current data) (calc_full_scale_ua config data)) 1023.

(** [calc_current] in a build with assertions: [None] is a failed
    assertion. *)
Definition calc_current (config : npm13xx_charger_config)
    (data : npm13xx_charger_data) : option Z :=
  if calc_current_asserts config data
  then Some (calc_current_ua config data)
  else None.

(** The full-scale current and the scaled current as the specification
    states them, over the integers. *)
Definition full_scale_exact (config : npm13xx_charger_config) (st : Z) : Z :=
  if st =? 0x04 then
    Z.quot (- dischg_limit_microamp config
            * fst (full_scale_discharge_factors config))
           (snd (full_scale_discharge_factors config))
  else if (st =? 0x0C) || (st =? 0x0D) || (st =? 0x0F) then
    Z.quot (current_microamp config * 125) 100
  else 0.

Definition battery_current_exact (config : npm13xx_charger_config)
    (data : npm13xx_charger_data) : Z :=
  Z.quot (current data * full_scale_exact config (ibat_stat data)) 1023.

(** ** Register transport *)

(** One call into the multi-function-device parent, as a mock transport
    records it. *)
Inductive bus_op : Type :=
| OpRead (base offset : Z)
| OpReadBurst (base offset : Z) (len : nat)
| OpWrite (base offset data : Z)
| OpWrite2 (base offset data1 data2 : Z).

(** Modelled from the spec: the register transport ([mfd_npm13xx_reg_read],
    [mfd_npm13xx_reg_read_burst], [mfd_npm13xx_reg_write],
    [mfd_npm13xx_reg_write2], [device_is_ready]) lives in the parent driver.
    It is an opaque synchronous call with a state [B] of its own:
    [read(base, offset) -> (byte, error)], [write(base, offset, byte) -> error],
    [write2(base, offset, msb, lsb) -> error],
    [read_burst(base, offset, length) -> (bytes, error)].  The error is the
    [int] return value, 0 for success; a failed read delivers nothing, so the
    destination keeps its content. *)
Record mfd_npm13xx (B : Type) := {
  device_is_ready : B -> bool;
  reg_read : Z -> Z -> B -> (Z * Z) * B;
  reg_read_burst : Z -> Z -> nat -> B -> (Z * list Z) * B;
  reg_write : Z -> Z -> Z -> B -> Z * B;
  reg_write2 : Z -> Z -> Z -> Z -> B -> Z * B
}.
Arguments device_is_ready {B}.
Arguments reg_read {B}.
Arguments reg_read_burst {B}.
Arguments reg_write {B}.
Arguments reg_write2 {B}.

(** The world a driver call runs in: the transport's state and the trace of
    transport calls made so far, oldest first. *)
Record world (B : Type) := World {
  bus : B;
  trace : list bus_op
}.
Arguments World {B}.
Arguments bus {B}.
Arguments trace {B}.

(** State monad over the world. *)
Definition M (B A : Type) : Type := world B -> A * world B.

Definition ret {B A : Type} (a : A) : M B A := fun w => (a, w).

Definition bind {B A C : Type} (m : M B A) (k : A -> M B C) : M B C :=
  fun w => let (a, w') := m w in k a w'.

Declare Scope drv_scope.
Delimit Scope drv_scope with drv.
Notation "x <- m ;; k" := (bind m (fun x => k))
  (at level 61, m at next level, right associativity) : drv_scope.
Notation "' p <- m ;; k" := (bind m (fun x => match x with p => k end))
  (at level 61, p pattern, m at next level, right associativity) : drv_scope.

Section Transport.
Context {B : Type} (mfd : mfd_npm13xx B).

(** The data arguments are [uint8_t] parameters: the caller's value is
    converted.  Base and offset are compile-time constants below 256. *)
Definition mfd_npm13xx_reg_read (base offset : Z) : M B (Z * Z) :=
  fun w =>
    let '(ret_val, data, b') := reg_read mfd base offset (bus w) in
    ((ret_val, to_uint8 data), World b' (trace w ++ [OpRead base offset])).

Definition mfd_npm13xx_reg_read_burst (base offset : Z) (len : nat)
  : M B (Z * list Z) :=
  fun w =>
    let '(ret_val, data, b') := reg_read_burst mfd base offset len (bus w) in
    ((ret_val, map to_uint8 data),
     World b' (trace w ++ [OpReadBurst base offset len])).

Definition mfd_npm13xx_reg_write (base offset data : Z) : M B Z :=
  fun w =>
    let '(ret_val, b') := reg_write mfd base offset (to_uint8 data) (bus w) in
    (ret_val, World b' (trace w ++ [OpWrite base offset (to_uint8 data)])).

Definition mfd_npm13xx_reg_write2 (base offset data1 data2 : Z) : M B Z :=
  fun w =>
    let '(ret_val, b') :=
      reg_write2 mfd base offset (to_uint8 data1) (to_uint8 data2) (bus w) in
    (ret_val,
     World b' (trace w ++ [OpWrite2 base offset (to_uint8 data1) (to_uint8 data2)])).

End Transport.

(** ** ADC burst layout *)

(** [struct adc_results_t], packed: eleven bytes in this order. *)
Record adc_results_t := {
  r_ibat_stat : Z;
  msb_vbat : Z;
  msb_ntc : Z;
  msb_die : Z;
  msb_vsys : Z;
  lsb_a : Z;
  reserved1 : Z;
  reserved2 : Z;
  msb_ibat : Z;
  msb_vbus : Z;
  lsb_b : Z
}.

(** The burst read fills the struct byte by byte. *)
Definition adc_results_of_bytes (bs : list Z) : adc_results_t :=
  {| r_ibat_stat := nth 0 bs 0;
     msb_vbat := nth 1 bs 0;
     msb_ntc := nth 2 bs 0;
     msb_die := nth 3 bs 0;
     msb_vsys := nth 4 bs 0;
     lsb_a := nth 5 bs 0;
     reserved1 := nth 6 bs 0;
     reserved2 := nth 7 bs 0;
     msb_ibat := nth 8 bs 0;
     msb_vbus := nth 9 bs 0;
     lsb_b := nth 10 bs 0 |}.

Definition sizeof_adc_results_t : nat := 11.

(** Field updates of the live sample state. *)
Definition set_status (d : npm13xx_charger_data) (v : Z) :=
  {| voltage := voltage d; current := current d; temp := temp d;
     dietemp := dietemp d; status := v; error := error d;
     ibat_stat := ibat_stat d; vbus_stat := vbus_stat d |}.

Definition set_error (d : npm13xx_charger_data) (v : Z) :=
  {| voltage := voltage d; current := current d; temp := temp d;
     dietemp := dietemp d; status := status d; error := v;
     ibat_stat := ibat_stat d; vbus_stat := vbus_stat d |}.

Definition set_vbus_stat (d : npm13xx_charger_data) (v : Z) :=
  {| voltage := voltage d; current := current d; temp := temp d;
     dietemp := dietemp d; status := status d; error := error d;
     ibat_stat := ibat_stat d; vbus_stat := v |}.

(** The five assignments that follow the burst read in
    [npm13xx_charger_sample_fetch]. *)
Definition store_adc_results (d : npm13xx_charger_data) (results : adc_results_t) :=
  {| voltage := adc_get_res (msb_vbat results) (lsb_a results) ADC_LSB_VBAT_SHIFT;
     current := adc_get_res (msb_ibat results) (lsb_b results) ADC_LSB_IBAT_SHIFT;
     temp := adc_get_res (msb_ntc results) (lsb_a results) ADC_LSB_NTC_SHIFT;
     dietemp := adc_get_res (msb_die results) (lsb_a results) ADC_LSB_DIE_SHIFT;
     status := status d; error := error d;
     ibat_stat := r_ibat_stat results;
     vbus_stat := vbus_stat d |}.

(** ** Telemetry: [npm13xx_charger_sample_fetch] *)

Section Fetch.
Context {B : Type} (mfd : mfd_npm13xx B).
Local Open Scope drv_scope.

(** Returns the [int] result and the content of [dev->data] at return.  Each
    read has a field of [dev->data] as its destination. *)
Definition npm13xx_charger_sample_fetch (data : npm13xx_charger_data)
  : M B (Z * npm13xx_charger_data) :=
  '(r, v) <- mfd_npm13xx_reg_read mfd CHGR_BASE CHGR_OFFSET_CHG_STAT ;;
  if negb (r =? 0) then ret (r, data) else
  let data := set_status data v in
  '(r, v) <- mfd_npm13xx_reg_read mfd CHGR_BASE CHGR_OFFSET_ERR_REASON ;;
  if negb (r =? 0) then ret (r, data) else
  let data := set_error data v in
  '(r, bs) <- mfd_npm13xx_reg_read_burst mfd ADC_BASE ADC_OFFSET_RESULTS
                sizeof_adc_results_t ;;
  if negb (r =? 0) then ret (r, data) else
  let data := store_adc_results data (adc_results_of_bytes bs) in
  r <- mfd_npm13xx_reg_write2 mfd ADC_BASE ADC_OFFSET_TASK_TEMP 1 1 ;;
  if negb (r =? 0) then ret (r, data) else
  r <- mfd_npm13xx_reg_write mfd ADC_BASE ADC_OFFSET_TASK_VBAT 1 ;;
  if negb (r =? 0) then ret (r, data) else
  '(r, v) <- mfd_npm13xx_reg_read mfd VBUS_BASE VBUS_OFFSET_STATUS ;;
  ret (r, if r =? 0 then set_vbus_stat data v else data).

End Fetch.

(** ** Attributes: [npm13xx_charger_attr_set] *)

(** The channels and attributes the driver distinguishes; everything else of
    [enum sensor_channel] and [enum sensor_attribute] is [.._OTHER]. *)
Inductive sensor_channel : Type :=
| SENSOR_CHAN_GAUGE_VOLTAGE
| SENSOR_CHAN_GAUGE_TEMP
| SENSOR_CHAN_GAUGE_AVG_CURRENT
| SENSOR_CHAN_NPM13XX_CHARGER_STATUS
| SENSOR_CHAN_NPM13XX_CHARGER_ERROR
| SENSOR_CHAN_GAUGE_DESIRED_CHARGING_CURRENT
| SENSOR_CHAN_GAUGE_MAX_LOAD_CURRENT
| SENSOR_CHAN_DIE_TEMP
| SENSOR_CHAN_NPM13XX_CHARGER_VBUS_STATUS
| SENSOR_CHAN_CURRENT
| SENSOR_CHAN_OTHER (n : Z).

Inductive sensor_attribute : Type :=
| SENSOR_ATTR_CONFIGURATION
| SENSOR_ATTR_UPPER_THRESH
| SENSOR_ATTR_OTHER (n : Z).

Definition is_configuration (attr : sensor_attribute) : bool :=
  match attr with SENSOR_ATTR_CONFIGURATION => true | _ => false end.

(** [struct sensor_value]: integer part and millionths. *)
Record sensor_value := { val1 : Z; val2 : Z }.

(** ** Range resolution *)

(** The value a range represents at index [i]. *)
Definition linear_range_value (r : linear_range) (i : Z) : Z :=
  lr_min r + lr_step r * (i - lr_min_idx r).

(** The indices of a range, lowest first. *)
Definition linear_range_indices (r : linear_range) : list Z :=
  map (fun k => lr_min_idx r + Z.of_nat k)
      (seq 0 (Z.to_nat (lr_max_idx r - lr_min_idx r + 1))).

(** Modelled from the spec: [linear_range_get_win_index] of
    <zephyr/sys/linear_range.h> is not part of the driver file.  The spec has
    [exact_index(range, low, high) -> index | invalid_argument]: it finds the
    step of the range that lies in the window [low, high] and fails with
    invalid-argument if no step matches.  The result is the [int] return
    value and the index stored through [idx], if any. *)
Definition linear_range_get_win_index (r : linear_range) (val_min val_max : Z)
  : Z * option Z :=
  match find (fun i => (val_min <=? linear_range_value r i)
                       && (linear_range_value r i <=? val_max))
             (linear_range_indices r) with
  | Some i => (0, Some i)
  | None => (- EINVAL, None)
  end.

(** Modelled from the spec: [linear_range_group_get_win_index], the same
    across a small ordered set of ranges: the first range with a matching
    step decides. *)
Fixpoint linear_range_group_get_win_index (rs : list linear_range)
    (val_min val_max : Z) : Z * option Z :=
  match rs with
  | [] => (- EINVAL, None)
  | r :: rs' =>
      match linear_range_get_win_index r val_min val_max with
      | (_, Some i) => (0, Some i)
      | (_, None) => linear_range_group_get_win_index rs' val_min val_max
      end
  end.

(** [idx] is a [uint16_t] local; the model reads 0 where C would read it
    uninitialised (only after an ignored failure, which the spec's lookup
    does not have). *)
Definition idx_of (o : option Z) : Z :=
  match o with Some i => to_uint16 i | None => 0 end.

Section Attr.
Context {B : Type} (mfd : mfd_npm13xx B).
Local Open Scope drv_scope.

Definition npm13xx_charger_attr_set (chan : sensor_channel)
    (attr : sensor_attribute) (val : sensor_value) : M B Z :=
  let current := add32 (mul32 (val1 val) 1000000) (val2 val) in
  if negb (is_configuration attr) then ret (- ENOTSUP) else
  match chan with
  | SENSOR_CHAN_GAUGE_DESIRED_CHARGING_CURRENT =>
      if val1 val =? 0 then
        mfd_npm13xx_reg_write mfd CHGR_BASE CHGR_OFFSET_EN_CLR 1
      else
        r <- mfd_npm13xx_reg_write mfd CHGR_BASE CHGR_OFFSET_ERR_CLR 1 ;;
        if negb (r =? 0) then ret r else
        mfd_npm13xx_reg_write mfd CHGR_BASE CHGR_OFFSET_EN_SET 1
  | SENSOR_CHAN_CURRENT =>
      let '(r, idx) :=
        linear_range_get_win_index vbus_current_range current current in
      if r =? - EINVAL then ret r else
      r <- mfd_npm13xx_reg_write mfd VBUS_BASE VBUS_OFFSET_ILIM (idx_of idx) ;;
      if negb (r =? 0) then ret r else
      mfd_npm13xx_reg_write mfd VBUS_BASE VBUS_OFFSET_ILIMUPDATE 1
  | _ => ret (- ENOTSUP)
  end.

End Attr.

(** ** Configurator: thresholds and [npm13xx_charger_init] *)

Section Init.
Context {B : Type} (mfd : mfd_npm13xx B).

(** [calc_ntc_res] evaluates the Beta model in floating point ([exp]); it is
    kept abstract.  Its result is a [uint32_t]. *)
Variable calc_ntc_res : npm13xx_charger_config -> Z -> Z.

Local Open Scope drv_scope.

(** The NTC code of one threshold: [uint32_t] arithmetic, stored in a
    [uint16_t]. *)
Definition ntc_code (config : npm13xx_charger_config) (threshold : Z) : Z :=
  let res := to_uint32 (calc_ntc_res config threshold) in
  to_uint16 (to_uint32 (1024 * res) / to_uint32 (res + thermistor_ohms config)).

(** The body of the [for] loop of [set_ntc_thresholds], over the indices
    still to visit. *)
Fixpoint set_ntc_thresholds_from (config : npm13xx_charger_config)
    (idxs : list Z) : M B Z :=
  match idxs with
  | [] => ret 0
  | idx :: rest =>
      let threshold := nth (Z.to_nat idx) (temp_thresholds config) 0 in
      if threshold <? INT32_MAX then
        let code := ntc_code config threshold in
        r <- mfd_npm13xx_reg_write2 mfd CHGR_BASE
               (CHGR_OFFSET_NTC_TEMPS + idx * 2)
               (Z.shiftr code NTCTEMP_MSB_SHIFT) (Z.land code NTCTEMP_LSB_MASK) ;;
        if negb (r =? 0) then ret r else set_ntc_thresholds_from config rest
      else set_ntc_thresholds_from config rest
  end.

Definition set_ntc_thresholds (config : npm13xx_charger_config) : M B Z :=
  set_ntc_thresholds_from config [0; 1; 2; 3].

Fixpoint set_dietemp_thresholds_from (config : npm13xx_charger_config)
    (idxs : list Z) : M B Z :=
  match idxs with
  | [] => ret 0
  | idx :: rest =>
      let threshold := nth (Z.to_nat idx) (dietemp_thresholds config) 0 in
      if threshold <? INT32_MAX then
        let code := dietemp_code_from_threshold threshold in
        r <- mfd_npm13xx_reg_write2 mfd CHGR_BASE
               (CHGR_OFFSET_DIE_TEMPS + idx * 2)
               (Z.shiftr code DIETEMP_MSB_SHIFT) (Z.land code DIETEMP_LSB_MASK) ;;
        if negb (r =? 0) then ret r else set_dietemp_thresholds_from config rest
      else set_dietemp_thresholds_from config rest
  end.

Definition set_dietemp_thresholds (config : npm13xx_charger_config) : M B Z :=
  set_dietemp_thresholds_from config [0; 1].

(** "Set current, allow rounding down to closest value": the lookup of
    [npm13xx_charger_init].  [current_microamp - step + 1] is computed in
    [uint32_t] ([step] is unsigned) and passed as [int32_t]. *)
Definition charge_current_lookup (config : npm13xx_charger_config)
  : Z * option Z :=
  linear_range_get_win_index (current_range config)
    (to_int32 (to_uint32 (current_microamp config
                          - lr_step (current_range config) + 1)))
    (current_microamp config).

(** The [if (config->dischg_limit_idx == UINT8_MAX) .. else ..] statement of
    [npm13xx_charger_init]; its value is [ret] after the statement.  The
    table has two entries and the build asserts the index is below that. *)
Definition init_set_current (config : npm13xx_charger_config) (idx : Z)
  : M B Z :=
  if dischg_limit_idx config =? UINT8_MAX then
    mfd_npm13xx_reg_write mfd CHGR_BASE CHGR_OFFSET_ISET idx
  else
    r <- mfd_npm13xx_reg_write2 mfd CHGR_BASE CHGR_OFFSET_ISET
           (idx / 2) (Z.land idx 1) ;;
    if negb (r =? 0) then ret r else
    let limit :=
      nth (Z.to_nat (dischg_limit_idx config)) npm1300_discharge_limits 0 in
    mfd_npm13xx_reg_write2 mfd CHGR_BASE CHGR_OFFSET_ISET_DISCHG
      (limit / 2) (Z.land limit 1).

(** [WRITE_BIT(byte, 0, ..)] and [WRITE_BIT(byte, 1, ..)] on [byte = 0]. *)
Definition init_disable_byte (config : npm13xx_charger_config) : Z :=
  Z.lor (if disable_recharge config then 1 else 0)
        (if thermistor_idx config =? 0 then 2 else 0).

(** [npm13xx_charger_init] from "Configure termination voltages" to its
    end. *)
Definition init_charge_parameters (config : npm13xx_charger_config) : M B Z :=
  let '(r, idx) := linear_range_group_get_win_index (term_volt_ranges config)
                     (term_microvolt config) (term_microvolt config) in
  if r =? - EINVAL then ret r else
  r <- mfd_npm13xx_reg_write mfd CHGR_BASE CHGR_OFFSET_VTERM (idx_of idx) ;;
  if negb (r =? 0) then ret r else
  let '(r, idx) := linear_range_group_get_win_index (term_volt_ranges config)
                     (term_warm_microvolt config) (term_warm_microvolt config) in
  if r =? - EINVAL then ret r else
  r <- mfd_npm13xx_reg_write mfd CHGR_BASE CHGR_OFFSET_VTERM_R (idx_of idx) ;;
  if negb (r =? 0) then ret r else
  let '(r, idx) := charge_current_lookup config in
  if r =? - EINVAL then ret r else
  r <- init_set_current config (idx_of idx) ;;
  if negb (r =? 0) then ret r else
  let '(r, idx) := linear_range_get_win_index vbus_current_range
                     (vbus_limit_microamp config) (vbus_limit_microamp config) in
  if r =? - EINVAL then ret r else
  r <- mfd_npm13xx_reg_write mfd VBUS_BASE VBUS_OFFSET_ILIMSTARTUP (idx_of idx) ;;
  if negb (r =? 0) then ret r else
  r <- mfd_npm13xx_reg_write mfd CHGR_BASE CHGR_OFFSET_TRICKLE_SEL
         (trickle_sel config) ;;
  if negb (r =? 0) then ret r else
  r <- mfd_npm13xx_reg_write mfd CHGR_BASE CHGR_OFFSET_ITERM_SEL
         (iterm_sel config) ;;
  if negb (r =? 0) then ret r else
  r <- mfd_npm13xx_reg_write mfd ADC_BASE ADC_OFFSET_IBAT_EN 1 ;;
  if negb (r =? 0) then ret r else
  r <- mfd_npm13xx_reg_write mfd ADC_BASE ADC_OFFSET_TASK_VBAT 1 ;;
  if negb (r =? 0) then ret r else
  r <- mfd_npm13xx_reg_write2 mfd ADC_BASE ADC_OFFSET_TASK_TEMP 1 1 ;;
  if negb (r =? 0) then ret r else
  r <- mfd_npm13xx_reg_write mfd ADC_BASE ADC_OFFSET_TASK_AUTO 1 ;;
  if negb (r =? 0) then ret r else
  r <- (if vbatlow_charge_enable config
        then mfd_npm13xx_reg_write mfd CHGR_BASE CHGR_OFFSET_VBATLOW_EN 1
        else ret 0) ;;
  if negb (r =? 0) then ret r else
  r <- mfd_npm13xx_reg_write mfd CHGR_BASE CHGR_OFFSET_DIS_SET
         (init_disable_byte config) ;;
  if negb (r =? 0) then ret r else
  r <- (if charging_enable config
        then mfd_npm13xx_reg_write mfd CHGR_BASE CHGR_OFFSET_EN_SET 1
        else ret 0) ;;
  if negb (r =? 0) then ret r else
  ret 0.

Definition npm13xx_charger_init (config : npm13xx_charger_config) : M B Z :=
  fun w =>
  if negb (device_is_ready mfd (bus w)) then (- ENODEV, w) else
  (r <- mfd_npm13xx_reg_write mfd ADC_BASE ADC_OFFSET_NTCR_SEL
         (thermistor_idx config) ;;
   if negb (r =? 0) then ret r else
   r <- set_ntc_thresholds config ;;
   if negb (r =? 0) then ret r else
   r <- set_dietemp_thresholds config ;;
   if negb (r =? 0) then ret r else
   init_charge_parameters config) w.

End Init.

(** ** A mock transport *)

Definition EIO : Z := 5.

(** A scripted transport for concrete runs.  Its state counts the calls made
    so far; call number [n] fails with -EIO when [fails n] holds.  Reads
    deliver [regs base offset], burst reads deliver [burst]. *)
Definition mock_mfd (fails : nat -> bool) (regs : Z -> Z -> Z) (burst : list Z)
  : mfd_npm13xx nat :=
  {| device_is_ready := fun _ => true;
     reg_read := fun base offset n =>
       ((if fails n then - EIO else 0, regs base offset), S n);
     reg_read_burst := fun base offset len n =>
       ((if fails n then - EIO else 0, burst), S n);
     reg_write := fun base offset data n =>
       (if fails n then - EIO else 0, S n);
     reg_write2 := fun base offset data1 data2 n =>
       (if fails n then - EIO else 0, S n) |}.

Definition never_fails : nat -> bool := fun _ => false.
Definition fails_at (k : nat) : nat -> bool := fun n => Nat.eqb n k.

(** Every register reads [0x08]. *)
Definition mock_regs : Z -> Z -> Z := fun _ _ => 0x08.

(** A burst payload: ibat_stat = 0x04, msb_vbat = 0xC8, msb_ntc = 0x80,
    msb_die = 0x7F, msb_vsys = 0, lsb_a = 0b00_01_11_10, reserved, reserved,
    msb_ibat = 0xFF, msb_vbus = 0, lsb_b = 0b00_11_00_00. *)
Definition mock_burst : list Z :=
  [0x04; 0xC8; 0x80; 0x7F; 0x00; 0x1E; 0x00; 0x00; 0xFF; 0x00; 0x30].

Definition world0 : world nat := World 0%nat [].

(** An nPM1300 instance: 1 A discharge limit, 150 mA charge current. *)
Definition npm1300_config : npm13xx_charger_config :=
  {| term_microvolt := 4150000;
     term_warm_microvolt := 4000000;
     term_volt_ranges := NPM1300_CHARGER_VOLT_RANGES;
     current_microamp := 150000;
     current_range := NPM1300_CHARGER_CURRENT_RANGE;
     full_scale_discharge_factors := NPM1300_FULL_SCALE_DISCHARGE_FACTORS;
     dischg_limit_microamp := 1000000;
     dischg_limit_idx := 1;
     vbus_limit_microamp := 500000;
     temp_thresholds := [INT32_MAX; INT32_MAX; 45000; INT32_MAX];
     dietemp_thresholds := [INT32_MAX; 90000];
     thermistor_ohms := 10000;
     thermistor_beta := 3380;
     thermistor_idx := 1;
     trickle_sel := 0;
     iterm_sel := 0;
     charging_enable := true;
     vbatlow_charge_enable := false;
     disable_recharge := false |}.

(** A sample with a full-scale current code while discharging. *)
Definition discharge_sample : npm13xx_charger_data :=
  {| voltage := 0; current := 1023; temp := 0; dietemp := 0;
     status := 0; error := 0; ibat_stat := IBAT_STAT_DISCHARGE; vbus_stat := 0 |}.

(** A configuration record whose discharge limit is far beyond the part:
    38.347923 A. *)
Definition overrange_config : npm13xx_charger_config :=
  {| term_microvolt := 4150000;
     term_warm_microvolt := 4000000;
     term_volt_ranges := NPM1300_CHARGER_VOLT_RANGES;
     current_microamp := 150000;
     current_range := NPM1300_CHARGER_CURRENT_RANGE;
     full_scale_discharge_factors := NPM1300_FULL_SCALE_DISCHARGE_FACTORS;
     dischg_limit_microamp := 38347923;
     dischg_limit_idx := 1;
     vbus_limit_microamp := 500000;
     temp_thresholds := [INT32_MAX; INT32_MAX; INT32_MAX; INT32_MAX];
     dietemp_thresholds := [INT32_MAX; INT32_MAX];
     thermistor_ohms := 10000;
     thermistor_beta := 3380;
     thermistor_idx := 1;
     trickle_sel := 0;
     iterm_sel := 0;
     charging_enable := true;
     vbatlow_charge_enable := false;
     disable_recharge := false |}.

(** ** Vocabulary of the properties *)

(** The three charging states of the ibat status byte. *)
Definition is_charging (st : Z) : bool :=
  (st =? 0x0C) || (st =? 0x0D) || (st =? 0x0F).

(** The sample state built from hardware values alone: status byte, error
    byte, burst payload and VBUS status byte. *)
Definition fetched_state (st er : Z) (results : adc_results_t) (vb : Z)
  : npm13xx_charger_data :=
  {| voltage := adc_get_res (msb_vbat results) (lsb_a results) ADC_LSB_VBAT_SHIFT;
     current := adc_get_res (msb_ibat results) (lsb_b results) ADC_LSB_IBAT_SHIFT;
     temp := adc_get_res (msb_ntc results) (lsb_a results) ADC_LSB_NTC_SHIFT;
     dietemp := adc_get_res (msb_die results) (lsb_a results) ADC_LSB_DIE_SHIFT;
     status := st; error := er;
     ibat_stat := r_ibat_stat results;
     vbus_stat := vb |}.

(** The operations of a trace that are the clear-error or the enable
    write. *)
Definition is_enable_path (op : bus_op) : bool :=
  match op with
  | OpWrite base offset _ =>
      (base =? CHGR_BASE)
      && ((offset =? CHGR_OFFSET_ERR_CLR) || (offset =? CHGR_OFFSET_EN_SET))
  | _ => false
  end.

(** An index the range has. *)
Definition valid_index (r : linear_range) (i : Z) : Prop :=
  lr_min_idx r <= i <= lr_max_idx r.

(** What the driver relies on in a current range: a positive [uint32_t] step,
    and a lowest step from which one step less one can be subtracted in
    [int32_t]. *)
Definition range_ok (r : linear_range) : Prop :=
  0 < lr_step r < 2 ^ 32 /\ INT32_MIN <= lr_min r - lr_step r + 1.

(** A write that reaches one of the two registers of the threshold slot at
    [offset] of the charger bank.  A pair write at [o] writes [o] and
    [o + 1]. *)
Definition touches_slot (offset : Z) (op : bus_op) : bool :=
  match op with
  | OpWrite base o _ =>
      (base =? CHGR_BASE) && ((o =? offset) || (o =? offset + 1))
  | OpWrite2 base o _ _ =>
      (base =? CHGR_BASE)
      && ((o =? offset - 1) || (o =? offset) || (o =? offset + 1))
  | _ => false
  end.

(** No write to any of the twelve threshold registers 0x10 .. 0x1B. *)
Definition outside_thresholds (op : bus_op) : bool :=
  negb (existsb (fun offset => touches_slot offset op)
                [0x10; 0x12; 0x14; 0x16; 0x18; 0x1A]).

(** A computation only appends operations that satisfy [P] to the trace. *)
Definition grows {B A : Type} (P : bus_op -> bool) (m : M B A) : Prop :=
  forall w, exists added,
    trace (snd (m w)) = trace w ++ added /\ forallb P added = true.

(** The six threshold slots of the charger bank. *)
Definition threshold_offsets : list Z := [0x10; 0x12; 0x14; 0x16; 0x18; 0x1A].

Section ThresholdWrites.
Variable calc_ntc_res : npm13xx_charger_config -> Z -> Z.

(** The pair write of NTC slot [idx], if its threshold is set. *)
Definition ntc_threshold_write (config : npm13xx_charger_config) (idx : Z)
  : list bus_op :=
  let threshold := nth (Z.to_nat idx) (temp_thresholds config) 0 in
  let code := ntc_code calc_ntc_res config threshold in
  if threshold <? INT32_MAX
  then [OpWrite2 CHGR_BASE (CHGR_OFFSET_NTC_TEMPS + idx * 2)
          (to_uint8 (Z.shiftr code NTCTEMP_MSB_SHIFT))
          (to_uint8 (Z.land code NTCTEMP_LSB_MASK))]
  else [].

(** The pair write of die-temperature slot [idx], if its threshold is set. *)
Definition dietemp_threshold_write (config : npm13xx_charger_config) (idx : Z)
  : list bus_op :=
  let threshold := nth (Z.to_nat idx) (dietemp_thresholds config) 0 in
  let code := dietemp_code_from_threshold threshold in
  if threshold <? INT32_MAX
  then [OpWrite2 CHGR_BASE (CHGR_OFFSET_DIE_TEMPS + idx * 2)
          (to_uint8 (Z.shiftr code DIETEMP_MSB_SHIFT))
          (to_uint8 (Z.land code DIETEMP_LSB_MASK))]
  else [].

End ThresholdWrites.

(** ** Channel read-out: [npm13xx_charger_channel_get] *)

Section ChannelGet.

(** [sensor_value_from_milli] and [sensor_value_from_micro] are inline
    helpers of <zephyr/drivers/sensor.h>, and [calc_temp] evaluates the Beta
    model in floating point ([logf]); the three are kept abstract.  The
    driver discards the helpers' return values. *)
Variable sensor_value_from_milli : Z -> sensor_value.
Variable sensor_value_from_micro : Z -> sensor_value.
Variable calc_temp : npm13xx_charger_config -> Z -> sensor_value.

(** The [int] result and the content of [*valp] at return; [None] is a
    failed assertion of [calc_current]. *)
Definition npm13xx_charger_channel_get (config : npm13xx_charger_config)
    (data : npm13xx_charger_data) (chan : sensor_channel) (valp : sensor_value)
  : option (Z * sensor_value) :=
  match chan with
  | SENSOR_CHAN_GAUGE_VOLTAGE =>
      Some (0, sensor_value_from_milli (div32 (mul32 (voltage data) 5000) 1024))
  | SENSOR_CHAN_GAUGE_TEMP =>
      if thermistor_idx config =? 0 then Some (- ENOTSUP, valp)
      else Some (0, calc_temp config (temp data))
  | SENSOR_CHAN_GAUGE_AVG_CURRENT =>
      match calc_current config data with
      | Some current_ua => Some (0, sensor_value_from_micro current_ua)
      | None => None
      end
  | SENSOR_CHAN_NPM13XX_CHARGER_STATUS =>
      Some (0, {| val1 := status data; val2 := 0 |})
  | SENSOR_CHAN_NPM13XX_CHARGER_ERROR =>
      Some (0, {| val1 := error data; val2 := 0 |})
  | SENSOR_CHAN_GAUGE_DESIRED_CHARGING_CURRENT =>
      Some (0, sensor_value_from_micro (current_microamp config))
  | SENSOR_CHAN_GAUGE_MAX_LOAD_CURRENT =>
      Some (0, sensor_value_from_micro (dischg_limit_microamp config))
  | SENSOR_CHAN_DIE_TEMP =>
      Some (0, sensor_value_from_milli (calc_dietemp (dietemp data)))
  | SENSOR_CHAN_NPM13XX_CHARGER_VBUS_STATUS =>
      Some (0, {| val1 := vbus_stat data; val2 := 0 |})
  | _ => Some (- ENOTSUP, valp)
  end.

End ChannelGet.

(** ** Attributes: [npm13xx_charger_attr_get] *)

Definition DETECT_HI_MASK : Z := 0x0A.
Definition DETECT_HI_CURRENT : Z := 1500000.
Definition DETECT_LO_CURRENT : Z := 500000.

Definition STATUS_PRESENT_MASK : Z := 0x01.
Definition STATUS_CUR_LIMIT_MASK : Z := 0x02.
Definition STATUS_OVERVLT_PROT_MASK : Z := 0x04.
Definition STATUS_UNDERVLT_MASK : Z := 0x08.
Definition STATUS_SUSPENDED_MASK : Z := 0x10.
Definition STATUS_BUSOUT_MASK : Z := 0x20.

(** [enum sensor_attribute_npm13xx_charger] of
    <zephyr/drivers/sensor/npm13xx_charger.h>. *)
Inductive sensor_attribute_npm13xx_charger : Type :=
| SENSOR_ATTR_NPM13XX_CHARGER_VBUS_PRESENT
| SENSOR_ATTR_NPM13XX_CHARGER_VBUS_CUR_LIMIT
| SENSOR_ATTR_NPM13XX_CHARGER_VBUS_OVERVLT_PROT
| SENSOR_ATTR_NPM13XX_CHARGER_VBUS_UNDERVLT
| SENSOR_ATTR_NPM13XX_CHARGER_VBUS_SUSPENDED
| SENSOR_ATTR_NPM13XX_CHARGER_VBUS_BUSOUT.

(** The mask each case of the inner [switch] tests. *)
Definition vbus_status_mask (a : sensor_attribute_npm13xx_charger) : Z :=
  match a with
  | SENSOR_ATTR_NPM13XX_CHARGER_VBUS_PRESENT => STATUS_PRESENT_MASK
  | SENSOR_ATTR_NPM13XX_CHARGER_VBUS_CUR_LIMIT => STATUS_CUR_LIMIT_MASK
  | SENSOR_ATTR_NPM13XX_CHARGER_VBUS_OVERVLT_PROT => STATUS_OVERVLT_PROT_MASK
  | SENSOR_ATTR_NPM13XX_CHARGER_VBUS_UNDERVLT => STATUS_UNDERVLT_MASK
  | SENSOR_ATTR_NPM13XX_CHARGER_VBUS_SUSPENDED => STATUS_SUSPENDED_MASK
  | SENSOR_ATTR_NPM13XX_CHARGER_VBUS_BUSOUT => STATUS_BUSOUT_MASK
  end.

Definition is_upper_thresh (attr : sensor_attribute) : bool :=
  match attr with SENSOR_ATTR_UPPER_THRESH => true | _ => false end.

(** The bit each VBUS status attribute reports. *)
Definition vbus_status_bit (a : sensor_attribute_npm13xx_charger) : Z :=
  match a with
  | SENSOR_ATTR_NPM13XX_CHARGER_VBUS_PRESENT => 0
  | SENSOR_ATTR_NPM13XX_CHARGER_VBUS_CUR_LIMIT => 1
  | SENSOR_ATTR_NPM13XX_CHARGER_VBUS_OVERVLT_PROT => 2
  | SENSOR_ATTR_NPM13XX_CHARGER_VBUS_UNDERVLT => 3
  | SENSOR_ATTR_NPM13XX_CHARGER_VBUS_SUSPENDED => 4
  | SENSOR_ATTR_NPM13XX_CHARGER_VBUS_BUSOUT => 5
  end.

Section AttrGet.
Context {B : Type} (mfd : mfd_npm13xx B).

Variable sensor_value_from_micro : Z -> sensor_value.

(** The cast [(enum sensor_attribute_npm13xx_charger)attr]: which of the six
    driver attributes the value is, if any.  Their numbers come from the
    header and are kept abstract. *)
Variable charger_attribute :
  sensor_attribute -> option sensor_attribute_npm13xx_charger.

Local Open Scope drv_scope.

(** The [int] result and the content of [*val] at return.  The register
    byte lands in the local [data]. *)
Definition npm13xx_charger_attr_get (chan : sensor_channel)
    (attr : sensor_attribute) (val : sensor_value) : M B (Z * sensor_value) :=
  match chan with
  | SENSOR_CHAN_GAUGE_DESIRED_CHARGING_CURRENT =>
      if negb (is_configuration attr) then ret (- ENOTSUP, val) else
      '(r, data) <- mfd_npm13xx_reg_read mfd CHGR_BASE CHGR_OFFSET_EN_SET ;;
      ret (r, if r =? 0 then {| val1 := data; val2 := 0 |} else val)
  | SENSOR_CHAN_CURRENT =>
      if negb (is_upper_thresh attr) then ret (- ENOTSUP, val) else
      '(r, data) <- mfd_npm13xx_reg_read mfd VBUS_BASE VBUS_OFFSET_DETECT ;;
      if r <? 0 then ret (r, val) else
      if data =? 0 then ret (0, sensor_value_from_micro 0)
      else if negb (Z.land data DETECT_HI_MASK =? 0)
      then ret (0, sensor_value_from_micro DETECT_HI_CURRENT)
      else ret (0, sensor_value_from_micro DETECT_LO_CURRENT)
  | SENSOR_CHAN_NPM13XX_CHARGER_VBUS_STATUS =>
      '(r, data) <- mfd_npm13xx_reg_read mfd VBUS_BASE VBUS_OFFSET_STATUS ;;
      if r <? 0 then ret (r, val) else
      match charger_attribute attr with
      | Some a =>
          ret (0, {| val1 := if negb (Z.land data (vbus_status_mask a) =? 0)
                             then 1 else 0;
                     val2 := 0 |})
      | None => ret (- ENOTSUP, val)
      end
  | _ => ret (- ENOTSUP, val)
  end.

End AttrGet.

(** ** Stand-ins for the abstract helpers, for concrete runs *)

(** Whole units and millionths of a milli value. *)
Definition mock_from_milli (milli : Z) : sensor_value :=
  {| val1 := Z.quot milli 1000; val2 := Z.rem milli 1000 * 1000 |}.

(** Whole units and millionths of a micro value. *)
Definition mock_from_micro (micro : Z) : sensor_value :=
  {| val1 := Z.quot micro 1000000; val2 := Z.rem micro 1000000 |}.

(** A temperature conversion that always reads 25 degrees. *)
Definition mock_calc_temp (config : npm13xx_charger_config) (code : Z)
  : sensor_value := {| val1 := 25; val2 := 0 |}.

(** The six driver attributes placed at 64 .. 69. *)
Definition mock_charger_attribute (attr : sensor_attribute)
  : option sensor_attribute_npm13xx_charger :=
  match attr with
  | SENSOR_ATTR_OTHER 64 => Some SENSOR_ATTR_NPM13XX_CHARGER_VBUS_PRESENT
  | SENSOR_ATTR_OTHER 65 => Some SENSOR_ATTR_NPM13XX_CHARGER_VBUS_CUR_LIMIT
  | SENSOR_ATTR_OTHER 66 => Some SENSOR_ATTR_NPM13XX_CHARGER_VBUS_OVERVLT_PROT
  | SENSOR_ATTR_OTHER 67 => Some SENSOR_ATTR_NPM13XX_CHARGER_VBUS_UNDERVLT
  | SENSOR_ATTR_OTHER 68 => Some SENSOR_ATTR_NPM13XX_CHARGER_VBUS_SUSPENDED
  | SENSOR_ATTR_OTHER 69 => Some SENSOR_ATTR_NPM13XX_CHARGER_VBUS_BUSOUT
  | _ => None
  end.

(** A sample with battery-voltage code 802. *)
Definition voltage_sample : npm13xx_charger_data :=
  {| voltage := 802; current := 0; temp := 0; dietemp := 0;
     status := 0; error := 0; ibat_stat := 0; vbus_stat := 0 |}.

(** ** Further instances and transport conditions *)

(** The nPM1300 instance asked for 1 A of charge current, beyond the 800 mA
    of its highest step. *)
Definition overcurrent_config : npm13xx_charger_config :=
  {| term_microvolt := 4150000;
     term_warm_microvolt := 4000000;
     term_volt_ranges := NPM1300_CHARGER_VOLT_RANGES;
     current_microamp := 1000000;
     current_range := NPM1300_CHARGER_CURRENT_RANGE;
     full_scale_discharge_factors := NPM1300_FULL_SCALE_DISCHARGE_FACTORS;
     dischg_limit_microamp := 1000000;
     dischg_limit_idx := 1;
     vbus_limit_microamp := 500000;
     temp_thresholds := [INT32_MAX; INT32_MAX; 45000; INT32_MAX];
     dietemp_thresholds := [INT32_MAX; 90000];
     thermistor_ohms := 10000;
     thermistor_beta := 3380;
     thermistor_idx := 1;
     trickle_sel := 0;
     iterm_sel := 0;
     charging_enable := true;
     vbatlow_charge_enable := false;
     disable_recharge := false |}.

(** A transport on which every register write and pair write returns 0. *)
Definition transport_writes_succeed {B : Type} (mfd : mfd_npm13xx B) : Prop :=
  (forall base offset data b, fst (reg_write mfd base offset data b) = 0)
  /\ (forall base offset data1 data2 b,
        fst (reg_write2 mfd base offset data1 data2 b) = 0).

(** ** Vocabulary of the sequencing properties *)

(** The transport calls of one complete sample fetch, in order. *)
Definition sample_fetch_calls : list bus_op :=
  [OpRead CHGR_BASE CHGR_OFFSET_CHG_STAT;
   OpRead CHGR_BASE CHGR_OFFSET_ERR_REASON;
   OpReadBurst ADC_BASE ADC_OFFSET_RESULTS 11;
   OpWrite2 ADC_BASE ADC_OFFSET_TASK_TEMP 1 1;
   OpWrite ADC_BASE ADC_OFFSET_TASK_VBAT 1;
   OpRead VBUS_BASE VBUS_OFFSET_STATUS].

(** Every field of the live sample state within what its source can
    deliver: 10-bit codes, register bytes. *)
Definition sample_in_range (d : npm13xx_charger_data) : Prop :=
  0 <= voltage d <= 1023 /\ 0 <= current d <= 1023
  /\ 0 <= temp d <= 1023 /\ 0 <= dietemp d <= 1023
  /\ is_uint8 (status d) /\ is_uint8 (error d)
  /\ is_uint8 (ibat_stat d) /\ is_uint8 (vbus_stat d).

(** A computation appends a prefix of [calls], and all of [calls] when it
    returns 0. *)
Definition runs_prefix_of {B : Type} (calls : list bus_op) (m : M B Z) : Prop :=
  forall w, exists added rest,
    trace (snd (m w)) = trace w ++ added
    /\ calls = added ++ rest
    /\ (fst (m w) = 0 -> rest = []).

(** A write to the charging-enable register. *)
Definition is_enable_write (op : bus_op) : bool :=
  match op with
  | OpWrite base offset _ => (base =? CHGR_BASE) && (offset =? CHGR_OFFSET_EN_SET)
  | _ => false
  end.

(** The writes of the charge-current statement of init, for a resolved
    index. *)
Definition init_set_current_calls (config : npm13xx_charger_config) (idx : Z)
  : list bus_op :=
  if dischg_limit_idx config =? UINT8_MAX then
    [OpWrite CHGR_BASE CHGR_OFFSET_ISET (to_uint8 idx)]
  else
    let limit :=
      nth (Z.to_nat (dischg_limit_idx config)) npm1300_discharge_limits 0 in
    [OpWrite2 CHGR_BASE CHGR_OFFSET_ISET
       (to_uint8 (idx / 2)) (to_uint8 (Z.land idx 1));
     OpWrite2 CHGR_BASE CHGR_OFFSET_ISET_DISCHG
       (to_uint8 (limit / 2)) (to_uint8 (Z.land limit 1))].

(** The writes of init from the termination voltages up to and including
    the disable mask: everything but the final charging enable. *)
Definition init_parameter_calls (config : npm13xx_charger_config) : list bus_op :=
  [OpWrite CHGR_BASE CHGR_OFFSET_VTERM
     (to_uint8 (idx_of (snd (linear_range_group_get_win_index
        (term_volt_ranges config) (term_microvolt config)
        (term_microvolt config)))));
   OpWrite CHGR_BASE CHGR_OFFSET_VTERM_R
     (to_uint8 (idx_of (snd (linear_range_group_get_win_index
        (term_volt_ranges config) (term_warm_microvolt config)
        (term_warm_microvolt config)))))]
  ++ init_set_current_calls config (idx_of (snd (charge_current_lookup config)))
  ++ [OpWrite VBUS_BASE VBUS_OFFSET_ILIMSTARTUP
        (to_uint8 (idx_of (snd (linear_range_get_win_index vbus_current_range
           (vbus_limit_microamp config) (vbus_limit_microamp config)))));
      OpWrite CHGR_BASE CHGR_OFFSET_TRICKLE_SEL (to_uint8 (trickle_sel config));
      OpWrite CHGR_BASE CHGR_OFFSET_ITERM_SEL (to_uint8 (iterm_sel config));
      OpWrite ADC_BASE ADC_OFFSET_IBAT_EN 1;
      OpWrite ADC_BASE ADC_OFFSET_TASK_VBAT 1;
      OpWrite2 ADC_BASE ADC_OFFSET_TASK_TEMP 1 1;
      OpWrite ADC_BASE ADC_OFFSET_TASK_AUTO 1]
  ++ (if vbatlow_charge_enable config
      then [OpWrite CHGR_BASE CHGR_OFFSET_VBATLOW_EN 1] else [])
  ++ [OpWrite CHGR_BASE CHGR_OFFSET_DIS_SET (to_uint8 (init_disable_byte config))].

(** The final write of init, if charging is to be enabled. *)
Definition init_enable_calls (config : npm13xx_charger_config) : list bus_op :=
  if charging_enable config then [OpWrite CHGR_BASE CHGR_OFFSET_EN_SET 1] else [].

Section InitCalls.
Variable calc_ntc_res : npm13xx_charger_config -> Z -> Z.

(** Every write of init before the charging enable. *)
Definition init_setup_calls (config : npm13xx_charger_config) : list bus_op :=
  [OpWrite ADC_BASE ADC_OFFSET_NTCR_SEL (to_uint8 (thermistor_idx config))]
  ++ flat_map (ntc_threshold_write calc_ntc_res config) [0; 1; 2; 3]
  ++ flat_map (dietemp_threshold_write config) [0; 1]
  ++ init_parameter_calls config.

(** The writes of one complete initialization, in order. *)
Definition init_calls (config : npm13xx_charger_config) : list bus_op :=
  init_setup_calls config ++ init_enable_calls config.

End InitCalls.

(** * Properties *)

(** ** Arithmetic helpers *)

Lemma to_int32_id (x : Z) : is_int32 x -> to_int32 x = x.
Proof.
  unfold is_int32, to_int32, INT32_MIN, INT32_MAX. intros H.
  rewrite Z.mod_small; lia.
Qed.

Lemma to_uint8_id (x : Z) : is_uint8 x -> to_uint8 x = x.
Proof. unfold is_uint8, to_uint8. intros H. apply Z.mod_small. lia. Qed.

Lemma to_uint16_id (x : Z) : is_uint16 x -> to_uint16 x = x.
Proof. unfold is_uint16, to_uint16. intros H. apply Z.mod_small. lia. Qed.

Lemma lor_below_pow2 (n a b : Z) :
  0 <= n -> 0 <= a < 2 ^ n -> 0 <= b < 2 ^ n -> 0 <= Z.lor a b < 2 ^ n.
Proof.
  intros Hn Ha Hb. split.
  - apply Z.lor_nonneg. lia.
  - destruct (Z.eq_dec (Z.lor a b) 0) as [E | E].
    + rewrite E. lia.
    + assert (Hpos : 0 < Z.lor a b).
      { assert (0 <= Z.lor a b) by (apply Z.lor_nonneg; lia). lia. }
      assert (Hn' : 0 < n).
      { destruct (Z.eq_dec n 0) as [-> | ]; [| lia].
        change (2 ^ 0) with 1 in Ha, Hb.
        assert (a = 0) by lia. assert (b = 0) by lia. subst.
        simpl in E. congruence. }
      apply Z.log2_lt_pow2; [exact Hpos |].
      rewrite Z.log2_lor by lia.
      apply Z.max_lub_lt.
      * destruct (Z.eq_dec a 0) as [-> | Na]; [simpl; lia |].
        apply Z.log2_lt_pow2; lia.
      * destruct (Z.eq_dec b 0) as [-> | Nb]; [simpl; lia |].
        apply Z.log2_lt_pow2; lia.
Qed.

Lemma land_mask3_range (x : Z) : 0 <= Z.land x 3 <= 3.
Proof.
  assert (E : Z.land x 3 = x mod 4).
  { change 3 with (Z.ones 2). now rewrite Z.land_ones by lia. }
  rewrite E. pose proof (Z.mod_pos_bound x 4). lia.
Qed.

(** On bytes the decoder is the plain bit expression; nothing is lost in
    the [uint16_t] result. *)
Lemma adc_get_res_bytes (msb lsb lsb_shift : Z) :
  is_uint8 msb -> is_uint8 lsb -> 0 <= lsb_shift ->
  adc_get_res msb lsb lsb_shift
  = Z.lor (Z.shiftl msb 2) (Z.land (Z.shiftr lsb lsb_shift) 3)
  /\ 0 <= adc_get_res msb lsb lsb_shift <= 1023.
Proof.
  unfold is_uint8, adc_get_res, ADC_MSB_SHIFT, ADC_LSB_MASK. intros Hm Hl Hs.
  rewrite (to_uint16_id msb) by (unfold is_uint16; lia).
  assert (Hb : 0 <= Z.lor (Z.shiftl msb 2) (Z.land (Z.shiftr lsb lsb_shift) 3)
               < 2 ^ 10).
  { apply lor_below_pow2; [lia | |].
    - rewrite Z.shiftl_mul_pow2 by lia.
      change (2 ^ 2) with 4; change (2 ^ 10) with 1024; lia.
    - pose proof (land_mask3_range (Z.shiftr lsb lsb_shift)).
      change (2 ^ 10) with 1024; lia. }
  change (2 ^ 10) with 1024 in Hb.
  rewrite to_uint16_id by (unfold is_uint16; lia).
  split; [reflexivity | lia].
Qed.

Lemma to_uint8_is_uint8 (x : Z) : is_uint8 (to_uint8 x).
Proof.
  unfold is_uint8, to_uint8. change (2 ^ 8) with 256.
  pose proof (Z.mod_pos_bound x 256). lia.
Qed.

Lemma nth_map_to_uint8 (bs : list Z) (n : nat) :
  is_uint8 (nth n (map to_uint8 bs) 0).
Proof.
  change 0 with (to_uint8 0) at 1. rewrite map_nth. apply to_uint8_is_uint8.
Qed.

Lemma map_to_uint8_id (bs : list Z) :
  Forall is_uint8 bs -> map to_uint8 bs = bs.
Proof.
  induction 1 as [| b bs Hb _ IH]; simpl; [reflexivity |].
  now rewrite IH, to_uint8_id.
Qed.

(** ** ADC result decoder *)

Lemma nth_is_uint8 (bs : list Z) (n : nat) :
  Forall is_uint8 bs -> is_uint8 (nth n bs 0).
Proof.
  intros H. rewrite <- (map_to_uint8_id bs H). apply nth_map_to_uint8.
Qed.

(** The four codes and the status byte that [store_adc_results] leaves, in
    terms of the payload bytes. *)
Lemma store_adc_results_bytes (d : npm13xx_charger_data) (bs : list Z) :
  Forall is_uint8 bs ->
  let d' := store_adc_results d (adc_results_of_bytes bs) in
  voltage d' = Z.lor (Z.shiftl (nth 1 bs 0) 2) (Z.land (Z.shiftr (nth 5 bs 0) 0) 3)
  /\ temp d' = Z.lor (Z.shiftl (nth 2 bs 0) 2) (Z.land (Z.shiftr (nth 5 bs 0) 2) 3)
  /\ dietemp d' = Z.lor (Z.shiftl (nth 3 bs 0) 2) (Z.land (Z.shiftr (nth 5 bs 0) 4) 3)
  /\ current d' = Z.lor (Z.shiftl (nth 8 bs 0) 2) (Z.land (Z.shiftr (nth 10 bs 0) 4) 3)
  /\ ibat_stat d' = nth 0 bs 0.
Proof.
  intros H. cbn [store_adc_results adc_results_of_bytes voltage temp dietemp
                 current ibat_stat msb_vbat msb_ntc msb_die msb_ibat lsb_a lsb_b
                 r_ibat_stat].
  unfold ADC_LSB_VBAT_SHIFT, ADC_LSB_NTC_SHIFT, ADC_LSB_DIE_SHIFT, ADC_LSB_IBAT_SHIFT.
  repeat split;
    try (apply adc_get_res_bytes; [apply nth_is_uint8 | apply nth_is_uint8 | lia];
         exact H).
Qed.

(** C2.  For every 11-byte burst payload that the transport delivers, the
    fetch stores each 10-bit code as [(msb << 2) | ((lsb >> shift) & 0b11)]:
    battery voltage from byte 1 with shift 0 in byte 5 (lsb_a), NTC from
    byte 2 with shift 2 in lsb_a, die temperature from byte 3 with shift 4 in
    lsb_a, battery current from byte 8 with shift 4 in byte 10 (lsb_b); the
    ibat status is byte 0 of the burst, verbatim. *)
Theorem sample_fetch_decodes_burst
    (B : Type) (mfd : mfd_npm13xx B) (data : npm13xx_charger_data) (w : world B)
    (st er : Z) (bs : list Z) (b1 b2 b3 : B) :
  reg_read mfd CHGR_BASE CHGR_OFFSET_CHG_STAT (bus w) = ((0, st), b1) ->
  reg_read mfd CHGR_BASE CHGR_OFFSET_ERR_REASON b1 = ((0, er), b2) ->
  reg_read_burst mfd ADC_BASE ADC_OFFSET_RESULTS 11 b2 = ((0, bs), b3) ->
  length bs = 11%nat ->
  Forall is_uint8 bs ->
  let data' := snd (fst (npm13xx_charger_sample_fetch mfd data w)) in
  voltage data'
    = Z.lor (Z.shiftl (nth 1 bs 0) 2) (Z.land (Z.shiftr (nth 5 bs 0) 0) 3)
  /\ temp data'
    = Z.lor (Z.shiftl (nth 2 bs 0) 2) (Z.land (Z.shiftr (nth 5 bs 0) 2) 3)
  /\ dietemp data'
    = Z.lor (Z.shiftl (nth 3 bs 0) 2) (Z.land (Z.shiftr (nth 5 bs 0) 4) 3)
  /\ current data'
    = Z.lor (Z.shiftl (nth 8 bs 0) 2) (Z.land (Z.shiftr (nth 10 bs 0) 4) 3)
  /\ ibat_stat data' = nth 0 bs 0.
Proof.
  intros H1 H2 H3 _ Hbs.
  pose proof (store_adc_results_bytes
                (set_error (set_status data (to_uint8 st)) (to_uint8 er)) bs Hbs)
    as Hd.
  unfold npm13xx_charger_sample_fetch, bind, ret, mfd_npm13xx_reg_read,
    mfd_npm13xx_reg_read_burst, mfd_npm13xx_reg_write, mfd_npm13xx_reg_write2,
    sizeof_adc_results_t.
  cbn [bus trace]. rewrite H1. cbn [bus trace Z.eqb negb]. rewrite H2.
  cbn [bus trace Z.eqb negb]. rewrite H3. cbn [bus trace Z.eqb negb].
  rewrite (map_to_uint8_id bs Hbs).
  destruct (reg_write2 mfd ADC_BASE ADC_OFFSET_TASK_TEMP (to_uint8 1) (to_uint8 1) b3)
    as [r4 b4].
  destruct (r4 =? 0); cbn [negb bus trace fst snd]; [| exact Hd].
  destruct (reg_write mfd ADC_BASE ADC_OFFSET_TASK_VBAT (to_uint8 1) b4) as [r5 b5].
  destruct (r5 =? 0); cbn [negb bus trace fst snd]; [| exact Hd].
  destruct (reg_read mfd VBUS_BASE VBUS_OFFSET_STATUS b5) as [[r6 v6] b6].
  destruct (r6 =? 0); cbn [negb bus trace fst snd]; exact Hd.
Qed.

(** Witness for C2 on the mock transport and its payload. *)
Lemma sample_fetch_decodes_burst_witness :
  let data' := snd (fst (npm13xx_charger_sample_fetch
                           (mock_mfd never_fails mock_regs mock_burst)
                           charger_data_zero world0)) in
  voltage data' = Z.lor (Z.shiftl (nth 1 mock_burst 0) 2)
                        (Z.land (Z.shiftr (nth 5 mock_burst 0) 0) 3)
  /\ temp data' = Z.lor (Z.shiftl (nth 2 mock_burst 0) 2)
                        (Z.land (Z.shiftr (nth 5 mock_burst 0) 2) 3)
  /\ dietemp data' = Z.lor (Z.shiftl (nth 3 mock_burst 0) 2)
                           (Z.land (Z.shiftr (nth 5 mock_burst 0) 4) 3)
  /\ current data' = Z.lor (Z.shiftl (nth 8 mock_burst 0) 2)
                           (Z.land (Z.shiftr (nth 10 mock_burst 0) 4) 3)
  /\ ibat_stat data' = nth 0 mock_burst 0.
Proof.
  apply (sample_fetch_decodes_burst nat (mock_mfd never_fails mock_regs mock_burst)
           charger_data_zero world0 0x08 0x08 mock_burst 1%nat 2%nat 3%nat).
  - reflexivity.
  - reflexivity.
  - reflexivity.
  - reflexivity.
  - unfold mock_burst, is_uint8. repeat constructor; lia.
Defined.

(** Unfolds one fetch down to the transport calls. *)
Ltac unfold_fetch :=
  unfold npm13xx_charger_sample_fetch, bind, ret, mfd_npm13xx_reg_read,
    mfd_npm13xx_reg_read_burst, mfd_npm13xx_reg_write, mfd_npm13xx_reg_write2,
    sizeof_adc_results_t; cbn [bus trace].

(** Splits on the outcome of the next transport call in the goal. *)
Ltac next_call :=
  match goal with
  | |- context [reg_read ?m ?b ?o ?s] =>
      let r := fresh "r" in let v := fresh "v" in let s' := fresh "s" in
      destruct (reg_read m b o s) as [[r v] s'];
      destruct (Z.eqb_spec r 0); cbn [negb bus trace fst snd]
  | |- context [reg_read_burst ?m ?b ?o ?n ?s] =>
      let r := fresh "r" in let v := fresh "bs" in let s' := fresh "s" in
      destruct (reg_read_burst m b o n s) as [[r v] s'];
      destruct (Z.eqb_spec r 0); cbn [negb bus trace fst snd]
  | |- context [reg_write2 ?m ?b ?o ?d1 ?d2 ?s] =>
      let r := fresh "r" in let s' := fresh "s" in
      destruct (reg_write2 m b o d1 d2 s) as [r s'];
      destruct (Z.eqb_spec r 0); cbn [negb bus trace fst snd]
  | |- context [reg_write ?m ?b ?o ?d ?s] =>
      let r := fresh "r" in let s' := fresh "s" in
      destruct (reg_write m b o d s) as [r s'];
      destruct (Z.eqb_spec r 0); cbn [negb bus trace fst snd]
  end.

(** The current code after a fetch is the old one or a decoded one. *)
Lemma sample_fetch_current (B : Type) (mfd : mfd_npm13xx B)
    (data : npm13xx_charger_data) (w : world B) :
  let '(r, data') := fst (npm13xx_charger_sample_fetch mfd data w) in
  (current data' = current data /\ r <> 0)
  \/ exists msb lsb, is_uint8 msb /\ is_uint8 lsb
       /\ current data' = adc_get_res msb lsb ADC_LSB_IBAT_SHIFT.
Proof.
  unfold_fetch.
  next_call; [| left; split; [reflexivity | assumption]].
  next_call; [| left; split; [reflexivity | assumption]].
  next_call; [| left; split; [reflexivity | assumption]].
  assert (Hdec : exists msb lsb, is_uint8 msb /\ is_uint8 lsb
            /\ adc_get_res (nth 8 (map to_uint8 bs) 0) (nth 10 (map to_uint8 bs) 0)
                 ADC_LSB_IBAT_SHIFT
               = adc_get_res msb lsb ADC_LSB_IBAT_SHIFT).
  { exists (nth 8 (map to_uint8 bs) 0), (nth 10 (map to_uint8 bs) 0).
    repeat split; apply nth_map_to_uint8. }
  next_call; [| right; exact Hdec].
  next_call; [| right; exact Hdec].
  next_call; right; exact Hdec.
Qed.

(** C9.  On bytes, the decoder never exceeds 1023 whatever the shift, so the
    battery-current code that a fetch leaves in the sample state is at most
    1023 whenever the fetch succeeds, and stays at most 1023 across any
    fetch: the first assertion of [calc_current] holds on it. *)
Theorem adc_code_at_most_1023
    (msb lsb lsb_shift : Z) (B : Type) (mfd : mfd_npm13xx B)
    (data : npm13xx_charger_data) (w : world B) :
  is_uint8 msb -> is_uint8 lsb -> is_uint16 lsb_shift ->
  adc_get_res msb lsb lsb_shift
    = Z.lor (Z.shiftl msb 2) (Z.land (Z.shiftr lsb lsb_shift) 3)
  /\ adc_get_res msb lsb lsb_shift <= 1023
  /\ (fst (fst (npm13xx_charger_sample_fetch mfd data w)) = 0 ->
      current (snd (fst (npm13xx_charger_sample_fetch mfd data w))) <= 1023)
  /\ (current data <= 1023 ->
      current (snd (fst (npm13xx_charger_sample_fetch mfd data w))) <= 1023).
Proof.
  intros Hm Hl Hs.
  destruct (adc_get_res_bytes msb lsb lsb_shift Hm Hl) as [E Hb];
    [unfold is_uint16 in Hs; lia |].
  split; [exact E |]. split; [lia |].
  pose proof (sample_fetch_current B mfd data w) as H.
  destruct (fst (npm13xx_charger_sample_fetch mfd data w)) as [r data'].
  cbn [fst snd].
  split; intros Hpre.
  - destruct H as [[_ Hr] | (m & l & Hm' & Hl' & ->)]; [congruence |].
    apply adc_get_res_bytes; [assumption | assumption |]. unfold ADC_LSB_IBAT_SHIFT; lia.
  - destruct H as [[-> _] | (m & l & Hm' & Hl' & ->)]; [exact Hpre |].
    apply adc_get_res_bytes; [assumption | assumption |]. unfold ADC_LSB_IBAT_SHIFT; lia.
Qed.

(** Witness for C9: all-ones bytes, and a fetch on the mock transport. *)
Lemma adc_code_at_most_1023_witness :
  adc_get_res 255 255 4 = Z.lor (Z.shiftl 255 2) (Z.land (Z.shiftr 255 4) 3)
  /\ adc_get_res 255 255 4 <= 1023
  /\ current (snd (fst (npm13xx_charger_sample_fetch
                          (mock_mfd never_fails mock_regs mock_burst)
                          charger_data_zero world0))) <= 1023.
Proof.
  destruct (adc_code_at_most_1023 255 255 4 nat
              (mock_mfd never_fails mock_regs mock_burst) charger_data_zero world0)
    as (E & Hb & Hok & _).
  - unfold is_uint8; lia.
  - unfold is_uint8; lia.
  - unfold is_uint16; lia.
  - split; [exact E |]. split; [exact Hb |]. apply Hok. reflexivity.
Defined.

(** ** Battery current *)

Lemma div32_exact (a b : Z) : is_int32 (Z.quot a b) -> div32 a b = Z.quot a b.
Proof. intros H. unfold div32. now apply to_int32_id. Qed.

Lemma mul32_exact (a b : Z) : is_int32 (a * b) -> mul32 a b = a * b.
Proof. intros H. unfold mul32. now apply to_int32_id. Qed.

(** Scaling a full-scale value in the asserted range by a 10-bit code stays
    inside [int32_t]. *)
Lemma scale_by_code_exact (code fs : Z) :
  0 <= code <= 1023 -> -1120000 <= fs <= 1000000 ->
  div32 (mul32 code fs) 1023 = Z.quot (code * fs) 1023.
Proof.
  intros Hc Hf.
  assert (Hp : is_int32 (code * fs)).
  { unfold is_int32, INT32_MIN, INT32_MAX. nia. }
  rewrite (mul32_exact _ _ Hp). apply div32_exact.
  unfold is_int32, INT32_MIN, INT32_MAX in *.
  pose proof (Z.quot_rem' (code * fs) 1023) as Hq.
  pose proof (Z.rem_bound_abs (code * fs) 1023 ltac:(lia)) as Hr.
  lia.
Qed.

(** The [switch] computes the exact full-scale value when the selected
    branch stays inside [int32_t]. *)
Lemma calc_full_scale_ua_exact (config : npm13xx_charger_config)
    (data : npm13xx_charger_data) :
  (ibat_stat data = 0x04 ->
     is_int32 (- dischg_limit_microamp config)
     /\ is_int32 (- dischg_limit_microamp config
                  * fst (full_scale_discharge_factors config))
     /\ snd (full_scale_discharge_factors config) <> 0) ->
  (is_charging (ibat_stat data) = true ->
     is_int32 (current_microamp config * 125)) ->
  is_int32 (full_scale_exact config (ibat_stat data)) ->
  calc_full_scale_ua config data = full_scale_exact config (ibat_stat data).
Proof.
  unfold calc_full_scale_ua, full_scale_exact, is_charging,
    IBAT_STAT_DISCHARGE, IBAT_STAT_CHARGE_TRICKLE, IBAT_STAT_CHARGE_COOL,
    IBAT_STAT_CHARGE_NORMAL, full_scale_charge_factors.
  intros Hd Hc Hfs. cbn [fst snd].
  destruct (Z.eqb_spec (ibat_stat data) 4) as [E | _].
  - destruct (Hd E) as (Hn & Hp & _).
    unfold neg32. rewrite (to_int32_id _ Hn), (mul32_exact _ _ Hp).
    now apply div32_exact.
  - destruct ((ibat_stat data =? 12) || (ibat_stat data =? 13)
              || (ibat_stat data =? 15)) eqn:Ec; [| reflexivity].
    rewrite (mul32_exact _ _ (Hc eq_refl)). now apply div32_exact.
Qed.

(** C1 (amended).  For every configuration and sample state with code at
    most 1023 whose selected full-scale computation stays inside int32 (the
    negated discharge limit and its product with discharge_factor[0], with
    discharge_factor[1] nonzero, when discharging; current_microamp * 125
    when charging) and whose full-scale value lies in the asserted range
    [-1120000, 1000000]: the ibat status selects the full scale (0x04:
    -dischg_limit * factor[0] / factor[1]; 0x0C, 0x0D, 0x0F:
    current_microamp * 125 / 100; anything else: 0), the assertions hold and
    the conversion yields code * full_scale / 1023, truncating.  With the
    discharge status, a 1 A limit, factors {112, 100} and code 1023 that is
    exactly -1120000 microamps. *)
Theorem calc_current_in_range (config : npm13xx_charger_config)
    (data : npm13xx_charger_data) :
  0 <= current data <= 1023 ->
  (ibat_stat data = 0x04 ->
     is_int32 (- dischg_limit_microamp config)
     /\ is_int32 (- dischg_limit_microamp config
                  * fst (full_scale_discharge_factors config))
     /\ snd (full_scale_discharge_factors config) <> 0) ->
  (is_charging (ibat_stat data) = true ->
     is_int32 (current_microamp config * 125)) ->
  -1120000 <= full_scale_exact config (ibat_stat data) <= 1000000 ->
  calc_full_scale_ua config data = full_scale_exact config (ibat_stat data)
  /\ calc_current config data
     = Some (Z.quot (current data * full_scale_exact config (ibat_stat data)) 1023)
  /\ calc_current_ua config data
     = Z.quot (current data * full_scale_exact config (ibat_stat data)) 1023
  /\ calc_current npm1300_config discharge_sample = Some (-1120000).
Proof.
  intros Hcode Hd Hc Hfs.
  assert (E : calc_full_scale_ua config data
              = full_scale_exact config (ibat_stat data)).
  { apply calc_full_scale_ua_exact; try assumption.
    unfold is_int32, INT32_MIN, INT32_MAX. lia. }
  assert (Eua : calc_current_ua config data
           = Z.quot (current data * full_scale_exact config (ibat_stat data)) 1023).
  { unfold calc_current_ua. rewrite E. now apply scale_by_code_exact. }
  split; [exact E |]. split; [| split; [exact Eua | reflexivity]].
  unfold calc_current, calc_current_asserts. rewrite E, Eua.
  replace (current data <=? 1023) with true by (symmetry; apply Z.leb_le; lia).
  replace (full_scale_exact config (ibat_stat data) <=? 1000000) with true
    by (symmetry; apply Z.leb_le; lia).
  replace (full_scale_exact config (ibat_stat data) >=? -1120000) with true
    by (symmetry; apply Z.geb_le; lia).
  reflexivity.
Qed.

(** Witness for C1 (amended): the nPM1300 instance at full-scale discharge. *)
Lemma calc_current_in_range_witness :
  calc_full_scale_ua npm1300_config discharge_sample = -1120000
  /\ calc_current npm1300_config discharge_sample = Some (-1120000).
Proof.
  destruct (calc_current_in_range npm1300_config discharge_sample)
    as (E & Hc & _).
  - cbn; lia.
  - intros _. cbn. unfold is_int32, INT32_MIN, INT32_MAX. lia.
  - intros H. discriminate H.
  - vm_compute. split; discriminate.
  - split; [exact E | exact Hc].
Defined.

(** C1, counterexample.  The claim as stated covers every configuration.  At
    a discharge limit of 38347923 microamps the [int32_t] product with 112
    wraps to -80: the code's full scale is 0, every assertion passes and the
    conversion yields 0, while code * full_scale / 1023 is -42949673. *)
Lemma calc_current_wraps_counterexample :
  0 <= current discharge_sample <= 1023
  /\ calc_current overrange_config discharge_sample = Some 0
  /\ battery_current_exact overrange_config discharge_sample = -42949673
  /\ ~ (forall config data, 0 <= current data <= 1023 ->
          calc_current config data = Some (battery_current_exact config data)).
Proof.
  split; [cbn; lia |]. split; [reflexivity |]. split; [reflexivity |].
  intros H. specialize (H overrange_config discharge_sample).
  assert (Hc : 0 <= current discharge_sample <= 1023) by (cbn; lia).
  specialize (H Hc). vm_compute in H. discriminate H.
Qed.

(** ** Die temperature *)

(** Every code up to 541 survives the round trip through the driver's two
    conversions; 541 is the last code whose product with 3963000 fits in
    [int32_t]. *)
Lemma dietemp_roundtrip_upto_541 :
  forallb (fun k => dietemp_code_from_threshold (calc_dietemp (Z.of_nat k))
                    =? Z.of_nat k)
          (seq 0 542) = true.
Proof. vm_compute. reflexivity. Qed.

(** C6.  Over the integers the two conversions round-trip at 0, 512 and
    1023.  The driver's [int32_t] versions round-trip at 0 and 512; at 1023
    the product 1023 * 3963000 = 4054149000 does not fit in [int32_t]:
    [calc_dietemp] yields 442833 instead of -416159, and the threshold
    encoding of either value is 65475, not 1023. *)
Theorem dietemp_roundtrip_breaks_at_1023 :
  dietemp_code_exact (die_temperature_exact 0) = 0
  /\ dietemp_code_exact (die_temperature_exact 512) = 512
  /\ dietemp_code_exact (die_temperature_exact 1023) = 1023
  /\ dietemp_code_from_threshold (calc_dietemp 0) = 0
  /\ dietemp_code_from_threshold (calc_dietemp 512) = 512
  /\ die_temperature_exact 1023 = -416159
  /\ calc_dietemp 1023 = 442833
  /\ dietemp_code_from_threshold (calc_dietemp 1023) = 65475
  /\ dietemp_code_from_threshold (die_temperature_exact 1023) = 65475
  /\ ~ is_int32 (1023 * DIETEMP_FACTOR_MUL).
Proof.
  repeat split; try (vm_compute; reflexivity).
  unfold is_int32, INT32_MIN, INT32_MAX, DIETEMP_FACTOR_MUL. lia.
Qed.

(** ** Charging enable through [attr_set] *)

Ltac unfold_attr_set :=
  unfold npm13xx_charger_attr_set, bind, ret, mfd_npm13xx_reg_write;
  cbn [is_configuration negb bus trace].

(** C5 (amended).  On the desired-charging-current channel with the
    configuration attribute: when the integer part val1 of the value is 0,
    attr_set performs exactly one register write, the charging-disable write,
    and returns its result; when val1 is nonzero it performs the clear-error
    write first and, only if that returned 0, the enable write second; if the
    clear-error write returns an error the enable write is not issued and
    that error is returned. *)
Theorem attr_set_charging_sequence (B : Type) (mfd : mfd_npm13xx B)
    (val : sensor_value) (w : world B) :
  let run := npm13xx_charger_attr_set mfd
               SENSOR_CHAN_GAUGE_DESIRED_CHARGING_CURRENT
               SENSOR_ATTR_CONFIGURATION val w in
  let clr := reg_write mfd CHGR_BASE CHGR_OFFSET_ERR_CLR 1 (bus w) in
  (val1 val = 0 ->
     trace (snd run) = trace w ++ [OpWrite CHGR_BASE CHGR_OFFSET_EN_CLR 1]
     /\ fst run = fst (reg_write mfd CHGR_BASE CHGR_OFFSET_EN_CLR 1 (bus w)))
  /\ (val1 val <> 0 -> fst clr <> 0 ->
     trace (snd run) = trace w ++ [OpWrite CHGR_BASE CHGR_OFFSET_ERR_CLR 1]
     /\ fst run = fst clr)
  /\ (val1 val <> 0 -> fst clr = 0 ->
     trace (snd run) = trace w ++ [OpWrite CHGR_BASE CHGR_OFFSET_ERR_CLR 1;
                                   OpWrite CHGR_BASE CHGR_OFFSET_EN_SET 1]
     /\ fst run = fst (reg_write mfd CHGR_BASE CHGR_OFFSET_EN_SET 1 (snd clr))).
Proof.
  unfold_attr_set. change (to_uint8 1) with 1.
  destruct (Z.eqb_spec (val1 val) 0) as [E | E].
  - split; [intros _ | split; intros H; contradiction].
    destruct (reg_write mfd CHGR_BASE CHGR_OFFSET_EN_CLR 1 (bus w)) as [r s].
    split; reflexivity.
  - split; [intros H; contradiction |].
    destruct (reg_write mfd CHGR_BASE CHGR_OFFSET_ERR_CLR 1 (bus w)) as [r s].
    cbn [fst snd bus trace].
    destruct (Z.eqb_spec r 0) as [Er | Er]; cbn [negb fst snd bus trace].
    + split; [intros _ H; contradiction | intros _ _].
      destruct (reg_write mfd CHGR_BASE CHGR_OFFSET_EN_SET 1 s) as [r' s'].
      cbn [fst snd bus trace]. rewrite <- app_assoc. split; reflexivity.
    + split; [intros _ _ | intros _ H; contradiction].
      split; reflexivity.
Qed.

(** Witness for C5 (amended): 1 A on a transport that never fails, 1 A on a
    transport whose first call fails, and 0. *)
Lemma attr_set_charging_sequence_witness :
  trace (snd (npm13xx_charger_attr_set (mock_mfd never_fails mock_regs mock_burst)
                SENSOR_CHAN_GAUGE_DESIRED_CHARGING_CURRENT
                SENSOR_ATTR_CONFIGURATION {| val1 := 0; val2 := 0 |} world0))
    = [OpWrite CHGR_BASE CHGR_OFFSET_EN_CLR 1]
  /\ trace (snd (npm13xx_charger_attr_set (mock_mfd (fails_at 0) mock_regs mock_burst)
                SENSOR_CHAN_GAUGE_DESIRED_CHARGING_CURRENT
                SENSOR_ATTR_CONFIGURATION {| val1 := 1; val2 := 0 |} world0))
    = [OpWrite CHGR_BASE CHGR_OFFSET_ERR_CLR 1]
  /\ trace (snd (npm13xx_charger_attr_set (mock_mfd never_fails mock_regs mock_burst)
                SENSOR_CHAN_GAUGE_DESIRED_CHARGING_CURRENT
                SENSOR_ATTR_CONFIGURATION {| val1 := 1; val2 := 0 |} world0))
    = [OpWrite CHGR_BASE CHGR_OFFSET_ERR_CLR 1; OpWrite CHGR_BASE CHGR_OFFSET_EN_SET 1].
Proof.
  split; [| split].
  - apply (attr_set_charging_sequence nat (mock_mfd never_fails mock_regs mock_burst)
             {| val1 := 0; val2 := 0 |} world0). reflexivity.
  - apply (attr_set_charging_sequence nat (mock_mfd (fails_at 0) mock_regs mock_burst)
             {| val1 := 1; val2 := 0 |} world0); cbn; lia.
  - apply (attr_set_charging_sequence nat (mock_mfd never_fails mock_regs mock_burst)
             {| val1 := 1; val2 := 0 |} world0); cbn; lia.
Defined.

(** C5, counterexample.  The value 0.5 A (val1 = 0, val2 = 500000) is not
    zero, yet attr_set issues the single disable write and neither the
    clear-error nor the enable write. *)
Lemma attr_set_half_amp_counterexample :
  {| val1 := 0; val2 := 500000 |} <> {| val1 := 0; val2 := 0 |}
  /\ add32 (mul32 0 1000000) 500000 <> 0
  /\ npm13xx_charger_attr_set (mock_mfd never_fails mock_regs mock_burst)
       SENSOR_CHAN_GAUGE_DESIRED_CHARGING_CURRENT SENSOR_ATTR_CONFIGURATION
       {| val1 := 0; val2 := 500000 |} world0
     = (0, World 1%nat [OpWrite CHGR_BASE CHGR_OFFSET_EN_CLR 1]).
Proof.
  split; [intros H; discriminate H |].
  split; [vm_compute; intros H; discriminate H | reflexivity].
Qed.

(** C10.  attr_set on the desired-charging-current channel (configuration
    attribute) looks at val1 only: for every value with val1 = 0, whatever
    val2, it issues the single disable write, returns that write's result,
    and issues neither the clear-error nor the enable write. *)
Theorem attr_set_disable_ignores_val2 (B : Type) (mfd : mfd_npm13xx B)
    (val : sensor_value) (w : world B) :
  val1 val = 0 ->
  let run := npm13xx_charger_attr_set mfd
               SENSOR_CHAN_GAUGE_DESIRED_CHARGING_CURRENT
               SENSOR_ATTR_CONFIGURATION val in
  run w = (fst (reg_write mfd CHGR_BASE CHGR_OFFSET_EN_CLR 1 (bus w)),
           World (snd (reg_write mfd CHGR_BASE CHGR_OFFSET_EN_CLR 1 (bus w)))
                 (trace w ++ [OpWrite CHGR_BASE CHGR_OFFSET_EN_CLR 1]))
  /\ filter is_enable_path (trace (snd (run (World (bus w) [])))) = [].
Proof.
  intros E. unfold_attr_set. rewrite E. cbn [Z.eqb bus trace].
  change (to_uint8 1) with 1.
  destruct (reg_write mfd CHGR_BASE CHGR_OFFSET_EN_CLR 1 (bus w)) as [r s].
  split; reflexivity.
Qed.

(** Witness for C10: 0.5 A, val1 = 0 and val2 = 500000. *)
Lemma attr_set_disable_ignores_val2_witness :
  npm13xx_charger_attr_set (mock_mfd never_fails mock_regs mock_burst)
    SENSOR_CHAN_GAUGE_DESIRED_CHARGING_CURRENT SENSOR_ATTR_CONFIGURATION
    {| val1 := 0; val2 := 500000 |} world0
  = (0, World 1%nat [OpWrite CHGR_BASE CHGR_OFFSET_EN_CLR 1]).
Proof.
  apply (attr_set_disable_ignores_val2 nat
           (mock_mfd never_fails mock_regs mock_burst)
           {| val1 := 0; val2 := 500000 |} world0).
  reflexivity.
Defined.

(** ** Sample fetch and the live sample state *)

(** Closes the nine conjuncts once the stage at which the fetch stops is
    known. *)
Ltac stage_done :=
  repeat match goal with |- _ /\ _ => split end;
  intros; subst; try contradiction; try congruence; try reflexivity;
  repeat split; reflexivity.




(** ** Charge-current lookup *)

Lemma In_linear_range_indices (r : linear_range) (i : Z) :
  In i (linear_range_indices r) <-> valid_index r i.
Proof.
  unfold linear_range_indices, valid_index. rewrite in_map_iff. split.
  - intros (k & <- & Hk). apply in_seq in Hk. lia.
  - intros H. exists (Z.to_nat (i - lr_min_idx r)). split; [lia |].
    apply in_seq. lia.
Qed.

(** The lookup returns a step inside the window, or fails when the range
    has none there. *)
Lemma linear_range_get_win_index_spec (r : linear_range) (val_min val_max : Z) :
  match linear_range_get_win_index r val_min val_max with
  | (ret_val, Some i) =>
      ret_val = 0 /\ valid_index r i
      /\ val_min <= linear_range_value r i <= val_max
  | (ret_val, None) =>
      ret_val = - EINVAL
      /\ forall i, valid_index r i ->
           ~ (val_min <= linear_range_value r i <= val_max)
  end.
Proof.
  unfold linear_range_get_win_index.
  destruct (find _ (linear_range_indices r)) as [i |] eqn:F.
  - apply find_some in F. destruct F as [Hin Hf].
    apply In_linear_range_indices in Hin.
    apply andb_true_iff in Hf. destruct Hf as [H1 H2].
    apply Z.leb_le in H1. apply Z.leb_le in H2. auto.
  - split; [reflexivity |]. intros i Hi Hw.
    apply In_linear_range_indices in Hi.
    pose proof (find_none _ _ F i Hi) as Hf. cbv beta in Hf.
    apply andb_false_iff in Hf.
    destruct Hf as [Hf | Hf]; apply Z.leb_gt in Hf; lia.
Qed.

Lemma npm1300_current_range_ok : range_ok NPM1300_CHARGER_CURRENT_RANGE.
Proof. unfold range_ok, INT32_MIN; cbn. lia. Qed.

Lemma npm1304_current_range_ok : range_ok NPM1304_CHARGER_CURRENT_RANGE.
Proof. unfold range_ok, INT32_MIN; cbn. lia. Qed.

(** The lower end of the window as the driver passes it: the exact value
    unless the subtraction leaves [int32_t], in which case it lies above the
    requested current. *)
Lemma window_low (c s : Z) :
  is_int32 c -> 0 < s < 2 ^ 32 ->
  let low := to_int32 (to_uint32 (c - s + 1)) in
  (INT32_MIN <= c - s + 1 /\ low = c - s + 1)
  \/ (c - s + 1 < INT32_MIN /\ c < low).
Proof.
  unfold is_int32, INT32_MIN, INT32_MAX, to_int32, to_uint32.
  change (2 ^ 32) with 4294967296. change (2 ^ 31) with 2147483648.
  intros Hc Hs. cbv zeta.
  rewrite Zplus_mod_idemp_l.
  destruct (Z_le_gt_dec (-2147483648) (c - s + 1)) as [H | H].
  - left. split; [lia |]. rewrite Z.mod_small; lia.
  - right. split; [lia |].
    replace (c - s + 1 + 2147483648)
      with ((c - s + 1 + 2147483648 + 4294967296) + (-1) * 4294967296) by lia.
    rewrite Z.mod_add by lia. rewrite Z.mod_small; lia.
Qed.

(** The step a window of one step's width ending at [c] contains, when [c]
    is within reach of the range. *)
Lemma step_in_window (r : linear_range) (c : Z) :
  0 < lr_step r -> lr_min_idx r <= lr_max_idx r ->
  lr_min r <= c < linear_range_value r (lr_max_idx r) + lr_step r ->
  exists i, valid_index r i
    /\ c - lr_step r + 1 <= linear_range_value r i <= c.
Proof.
  unfold linear_range_value, valid_index. intros Hs Hidx [Hlo Hhi].
  set (s := lr_step r) in *. set (q := (c - lr_min r) / s).
  pose proof (Z.div_mod (c - lr_min r) s ltac:(lia)) as Hdm.
  pose proof (Z.mod_pos_bound (c - lr_min r) s Hs) as Hm.
  fold q in Hdm.
  assert (Hq0 : 0 <= q) by (apply Z.div_pos; lia).
  assert (Hq1 : q <= lr_max_idx r - lr_min_idx r) by nia.
  exists (lr_min_idx r + q).
  replace (lr_min_idx r + q - lr_min_idx r) with q by lia.
  split; [lia | nia].
Qed.

(** C3 (amended).  Init calls the charge-current lookup with the window
    [current_microamp - step + 1, current_microamp] over the variant's
    current range.  For every requested current from the lowest step up to
    less than one step above the highest step it returns 0 and the index of
    the highest step of the range that is at most the requested current,
    less than one step below it (rounding down, never up).  It fails with
    invalid-argument exactly when no step lies in the window, which is when
    the requested current is below the lowest step or at least one step
    above the highest. *)
Theorem charge_current_lookup_rounds_down (config : npm13xx_charger_config) :
  range_ok (current_range config) ->
  lr_min_idx (current_range config) <= lr_max_idx (current_range config) ->
  is_int32 (current_microamp config) ->
  let r := current_range config in
  let c := current_microamp config in
  let s := lr_step r in
  let top := linear_range_value r (lr_max_idx r) in
  let ret_val := fst (charge_current_lookup config) in
  let idx := snd (charge_current_lookup config) in
  (INT32_MIN <= c - s + 1 ->
     charge_current_lookup config = linear_range_get_win_index r (c - s + 1) c)
  /\ (lr_min r <= c < top + s ->
      ret_val = 0
      /\ exists i, idx = Some i /\ valid_index r i
           /\ c - s < linear_range_value r i <= c
           /\ forall j, valid_index r j -> linear_range_value r j <= c ->
                linear_range_value r j <= linear_range_value r i)
  /\ (c < lr_min r \/ top + s <= c ->
      charge_current_lookup config = (- EINVAL, None))
  /\ (ret_val = - EINVAL <->
      forall i, valid_index r i -> ~ (c - s + 1 <= linear_range_value r i <= c)).
Proof.
  intros [Hs Hmin] Hidx Hc. cbv zeta. unfold charge_current_lookup.
  set (r := current_range config) in *. set (c := current_microamp config) in *.
  set (s := lr_step r) in *.
  pose proof (window_low c s Hc Hs) as Hlow. cbv zeta in Hlow.
  set (low := to_int32 (to_uint32 (c - s + 1))) in *.
  pose proof (linear_range_get_win_index_spec r low c) as Hspec.
  assert (Hsame : INT32_MIN <= c - s + 1 -> low = c - s + 1).
  { destruct Hlow as [[_ E] | [Hw _]]; [auto | lia]. }
  assert (Hvalue : forall i, valid_index r i ->
            lr_min r <= linear_range_value r i
                     <= linear_range_value r (lr_max_idx r)).
  { unfold valid_index, linear_range_value. fold s. intros i Hi. nia. }
  split; [intros H; now rewrite (Hsame H) |].
  destruct (linear_range_get_win_index r low c) as [rv [i |]]; cbn [fst snd].
  - destruct Hspec as (-> & Hi & Hwin).
    assert (Elow : low = c - s + 1).
    { destruct Hlow as [[_ E] | [_ Hw]]; [exact E | lia]. }
    pose proof (Hvalue i Hi) as Hvi.
    split; [| split].
    + intros _. split; [reflexivity |]. exists i.
      split; [reflexivity |]. split; [exact Hi |]. split; [lia |].
      intros j Hj Hle. unfold linear_range_value in *. fold s in Hle, Hwin |- *.
      destruct (Z_le_gt_dec j i) as [Hji | Hji]; nia.
    + intros Hout. exfalso. lia.
    + split; [unfold EINVAL; lia |]. intros Hno. exfalso. apply (Hno i Hi). lia.
  - destruct Hspec as (-> & Hnone).
    assert (Hno : forall i, valid_index r i ->
                    ~ (c - s + 1 <= linear_range_value r i <= c)).
    { intros i Hi Hw. destruct Hlow as [[_ E] | [Hwrap _]].
      - apply (Hnone i Hi). lia.
      - pose proof (Hvalue i Hi). lia. }
    split; [| split].
    + intros Hreach. exfalso.
      destruct (step_in_window r c) as (i & Hi & Hw);
        [lia | exact Hidx | exact Hreach |].
      apply (Hno i Hi). exact Hw.
    + intros _. reflexivity.
    + split; [intros _; exact Hno | reflexivity].
Qed.

(** Witness for C3 (amended): 150 mA on the nPM1300 resolves, through the
    window [148001, 150000], to index 75, the step at 150 mA. *)
Lemma charge_current_lookup_rounds_down_witness :
  charge_current_lookup npm1300_config
    = linear_range_get_win_index NPM1300_CHARGER_CURRENT_RANGE 148001 150000
  /\ fst (charge_current_lookup npm1300_config) = 0.
Proof.
  destruct (charge_current_lookup_rounds_down npm1300_config
              npm1300_current_range_ok) as (Hcall & Hres & _ & _).
  - cbn. lia.
  - cbn. unfold is_int32, INT32_MIN, INT32_MAX. lia.
  - split.
    + apply Hcall. cbn. unfold INT32_MIN. lia.
    + apply Hres. cbn. lia.
Defined.

(** C3, counterexample.  A requested current of 1 A on the nPM1300 is above
    the lowest step (32 mA), and the highest step (index 400, 800 mA) is at
    most the request; yet the window [998001, 1000000] holds no step and the
    lookup fails with invalid-argument instead of resolving to index 400. *)
Lemma charge_current_lookup_overrange_counterexample :
  lr_min (current_range overcurrent_config) <= current_microamp overcurrent_config
  /\ valid_index (current_range overcurrent_config) 400
  /\ linear_range_value (current_range overcurrent_config) 400 = 800000
  /\ 800000 <= current_microamp overcurrent_config
  /\ charge_current_lookup overcurrent_config = (- EINVAL, None).
Proof.
  split; [cbn; lia |]. split; [unfold valid_index; cbn; lia |].
  split; [reflexivity |]. split; [cbn; lia |].
  vm_compute. reflexivity.
Qed.

(** ** Charge-current and discharge-limit registers *)

Lemma split_index_bytes (idx : Z) :
  0 <= idx <= 511 ->
  to_uint8 (idx / 2) = idx / 2 /\ to_uint8 (Z.land idx 1) = Z.land idx 1.
Proof.
  intros H. split; apply to_uint8_id; unfold is_uint8.
  - pose proof (Z.div_pos idx 2 ltac:(lia) ltac:(lia)).
    assert (idx / 2 < 256) by (apply Z.div_lt_upper_bound; lia). lia.
  - assert (E : Z.land idx 1 = idx mod 2).
    { change 1 with (Z.ones 1). now rewrite Z.land_ones by lia. }
    rewrite E. pose proof (Z.mod_pos_bound idx 2). lia.
Qed.

Lemma discharge_limit_entry (n : nat) :
  0 <= nth n npm1300_discharge_limits 0 <= 511.
Proof.
  unfold npm1300_discharge_limits.
  destruct n as [| [| [| n]]]; cbn; lia.
Qed.



(** ** Threshold registers *)

Section Thresholds.
Context {B : Type} (mfd : mfd_npm13xx B).
Variable calc_ntc_res : npm13xx_charger_config -> Z -> Z.

(** The NTC loop appends a prefix of the set slots' writes, in slot order,
    and all of them when it returns 0. *)
Lemma set_ntc_thresholds_from_trace (config : npm13xx_charger_config)
    (idxs : list Z) (w : world B) :
  let run := set_ntc_thresholds_from mfd calc_ntc_res config idxs w in
  exists added rest,
    trace (snd run) = trace w ++ added
    /\ flat_map (ntc_threshold_write calc_ntc_res config) idxs = added ++ rest
    /\ (fst run = 0 -> rest = []).
Proof.
  cbv zeta. revert w. induction idxs as [| idx idxs IH]; intros w.
  - exists [], []. cbn. rewrite app_nil_r. auto.
  - cbn [set_ntc_thresholds_from flat_map]. unfold ntc_threshold_write at 1.
    cbv zeta.
    destruct (nth (Z.to_nat idx) (temp_thresholds config) 0 <? INT32_MAX).
    + unfold bind, mfd_npm13xx_reg_write2. cbn [bus trace].
      match goal with |- context [reg_write2 ?m ?b ?o ?d1 ?d2 ?s] =>
        destruct (reg_write2 m b o d1 d2 s) as [r s'] end.
      destruct (Z.eqb_spec r 0) as [E | E]; cbn [negb].
      * match goal with |- context [set_ntc_thresholds_from _ _ _ _ ?w1] =>
          destruct (IH w1) as (added & rest & Ht & He & Hr) end.
        cbn [trace] in Ht.
        match type of Ht with _ = (_ ++ [?o]) ++ _ => set (op := o) in * end.
        exists (op :: added), rest.
        split; [rewrite Ht, <- app_assoc; reflexivity |].
        split; [cbn [app]; rewrite He; reflexivity | exact Hr].
      * match goal with |- context [trace w ++ [?o]] => set (op := o) end.
        exists [op], (flat_map (ntc_threshold_write calc_ntc_res config) idxs).
        unfold ret. cbn [fst snd trace app].
        split; [reflexivity |]. split; [reflexivity |]. intros; contradiction.
    + destruct (IH w) as (added & rest & Ht & He & Hr).
      exists added, rest. cbn [app]. auto.
Qed.

Lemma set_dietemp_thresholds_from_trace (config : npm13xx_charger_config)
    (idxs : list Z) (w : world B) :
  let run := set_dietemp_thresholds_from mfd config idxs w in
  exists added rest,
    trace (snd run) = trace w ++ added
    /\ flat_map (dietemp_threshold_write config) idxs = added ++ rest
    /\ (fst run = 0 -> rest = []).
Proof.
  cbv zeta. revert w. induction idxs as [| idx idxs IH]; intros w.
  - exists [], []. cbn. rewrite app_nil_r. auto.
  - cbn [set_dietemp_thresholds_from flat_map].
    unfold dietemp_threshold_write at 1. cbv zeta.
    destruct (nth (Z.to_nat idx) (dietemp_thresholds config) 0 <? INT32_MAX).
    + unfold bind, mfd_npm13xx_reg_write2. cbn [bus trace].
      match goal with |- context [reg_write2 ?m ?b ?o ?d1 ?d2 ?s] =>
        destruct (reg_write2 m b o d1 d2 s) as [r s'] end.
      destruct (Z.eqb_spec r 0) as [E | E]; cbn [negb].
      * match goal with |- context [set_dietemp_thresholds_from _ _ _ ?w1] =>
          destruct (IH w1) as (added & rest & Ht & He & Hr) end.
        cbn [trace] in Ht.
        match type of Ht with _ = (_ ++ [?o]) ++ _ => set (op := o) in * end.
        exists (op :: added), rest.
        split; [rewrite Ht, <- app_assoc; reflexivity |].
        split; [cbn [app]; rewrite He; reflexivity | exact Hr].
      * match goal with |- context [trace w ++ [?o]] => set (op := o) end.
        exists [op], (flat_map (dietemp_threshold_write config) idxs).
        unfold ret. cbn [fst snd trace app].
        split; [reflexivity |]. split; [reflexivity |]. intros; contradiction.
    + destruct (IH w) as (added & rest & Ht & He & Hr).
      exists added, rest. cbn [app]. auto.
Qed.

End Thresholds.

(** *** Trace growth *)

Section Growth.
Context {B : Type} (mfd : mfd_npm13xx B) (P : bus_op -> bool).

Lemma grows_ret (A : Type) (a : A) : grows P (@ret B A a).
Proof. intros w. exists []. cbn. now rewrite app_nil_r. Qed.

Lemma grows_bind (A C : Type) (m : M B A) (k : A -> M B C) :
  grows P m -> (forall a, grows P (k a)) -> grows P (bind m k).
Proof.
  intros Hm Hk w. unfold bind.
  destruct (Hm w) as (a1 & Ht1 & Hp1).
  destruct (m w) as [a w1]. cbn [snd] in Ht1.
  destruct (Hk a w1) as (a2 & Ht2 & Hp2).
  exists (a1 ++ a2). rewrite Ht2, Ht1, app_assoc. split; [reflexivity |].
  rewrite forallb_app, Hp1, Hp2. reflexivity.
Qed.

Lemma grows_write (base offset data : Z) :
  P (OpWrite base offset (to_uint8 data)) = true ->
  grows P (mfd_npm13xx_reg_write mfd base offset data).
Proof.
  intros Hp w. unfold mfd_npm13xx_reg_write.
  destruct (reg_write mfd base offset (to_uint8 data) (bus w)) as [r s].
  eexists [_]. cbn [snd trace forallb]. rewrite Hp. auto.
Qed.

Lemma grows_write2 (base offset data1 data2 : Z) :
  P (OpWrite2 base offset (to_uint8 data1) (to_uint8 data2)) = true ->
  grows P (mfd_npm13xx_reg_write2 mfd base offset data1 data2).
Proof.
  intros Hp w. unfold mfd_npm13xx_reg_write2.
  destruct (reg_write2 mfd base offset (to_uint8 data1) (to_uint8 data2) (bus w))
    as [r s].
  eexists [_]. cbn [snd trace forallb]. rewrite Hp. auto.
Qed.

End Growth.

(** Steps through a straight-line sequence of register writes. *)
Ltac grows_step :=
  match goal with
  | |- grows _ (ret _) => apply grows_ret
  | |- grows _ (bind _ _) => apply grows_bind; [| intro]
  | |- grows _ (mfd_npm13xx_reg_write _ _ _ _) => apply grows_write; reflexivity
  | |- grows _ (mfd_npm13xx_reg_write2 _ _ _ _ _) => apply grows_write2; reflexivity
  | |- grows _ (match ?e with _ => _ end) => destruct e
  end.

(** Nothing that init does after the threshold loops writes a threshold
    register. *)
Lemma init_charge_parameters_grows (B : Type) (mfd : mfd_npm13xx B)
    (config : npm13xx_charger_config) :
  grows outside_thresholds (init_charge_parameters mfd config).
Proof.
  unfold init_charge_parameters, init_set_current.
  repeat grows_step.
Qed.

Section InitThresholds.
Context {B : Type} (mfd : mfd_npm13xx B).
Variable calc_ntc_res : npm13xx_charger_config -> Z -> Z.

(** The trace of one initialization: operations outside the threshold
    registers, then a prefix of the NTC slot writes, then a prefix of the
    die-temperature slot writes, then operations outside again; the prefixes
    are complete when init returns 0. *)
Lemma init_trace_shape (config : npm13xx_charger_config) (b : B)
    (r : Z) (w' : world B) :
  npm13xx_charger_init mfd calc_ntc_res config (World b []) = (r, w') ->
  exists head ntc ntc_rest die die_rest tail,
    trace w' = head ++ ntc ++ die ++ tail
    /\ forallb outside_thresholds head = true
    /\ forallb outside_thresholds tail = true
    /\ flat_map (ntc_threshold_write calc_ntc_res config) [0; 1; 2; 3]
       = ntc ++ ntc_rest
    /\ flat_map (dietemp_threshold_write config) [0; 1] = die ++ die_rest
    /\ (r = 0 -> ntc_rest = [] /\ die_rest = []).
Proof.
  intros H. unfold npm13xx_charger_init in H. cbn [bus] in H.
  destruct (device_is_ready mfd b); cbn [negb] in H.
  2:{ injection H as <- <-.
      exists [], [], (flat_map (ntc_threshold_write calc_ntc_res config) [0; 1; 2; 3]),
        [], (flat_map (dietemp_threshold_write config) [0; 1]), [].
      cbn [trace app forallb]. repeat split; try reflexivity;
        unfold ENODEV in *; lia. }
  unfold bind at 1 in H. unfold mfd_npm13xx_reg_write at 1 in H.
  cbn [bus trace app] in H.
  destruct (reg_write mfd ADC_BASE ADC_OFFSET_NTCR_SEL
              (to_uint8 (thermistor_idx config)) b) as [r0 s0].
  set (op0 := OpWrite ADC_BASE ADC_OFFSET_NTCR_SEL
                (to_uint8 (thermistor_idx config))) in *.
  destruct (Z.eqb_spec r0 0) as [E0 | E0]; cbn [negb] in H.
  2:{ injection H as <- <-.
      exists [op0], [], (flat_map (ntc_threshold_write calc_ntc_res config) [0; 1; 2; 3]),
        [], (flat_map (dietemp_threshold_write config) [0; 1]), [].
      cbn [trace app]. repeat split; try reflexivity.
      all: intros; contradiction. }
  unfold bind at 1 in H. unfold set_ntc_thresholds in H.
  pose proof (set_ntc_thresholds_from_trace mfd calc_ntc_res config [0; 1; 2; 3]
                (World s0 [op0])) as Hn.
  cbv zeta in Hn. destruct Hn as (ntc & ntc_rest & Hnt & Hne & Hnr).
  destruct (set_ntc_thresholds_from mfd calc_ntc_res config [0; 1; 2; 3]
              (World s0 [op0])) as [r1 w1].
  cbn [fst snd trace] in Hnt, Hnr.
  destruct (Z.eqb_spec r1 0) as [E1 | E1]; cbn [negb] in H.
  2:{ injection H as <- <-.
      exists [op0], ntc, ntc_rest, [], (flat_map (dietemp_threshold_write config) [0; 1]), [].
      cbn [app]. rewrite Hnt, app_nil_r.
      repeat split; try reflexivity; try assumption.
      all: intros; contradiction. }
  unfold bind at 1 in H. unfold set_dietemp_thresholds in H.
  pose proof (set_dietemp_thresholds_from_trace mfd config [0; 1] w1) as Hd.
  cbv zeta in Hd. destruct Hd as (die & die_rest & Hdt & Hde & Hdr).
  destruct (set_dietemp_thresholds_from mfd config [0; 1] w1) as [r2 w2].
  cbn [fst snd trace] in Hdt, Hdr.
  destruct (Z.eqb_spec r2 0) as [E2 | E2]; cbn [negb] in H.
  2:{ injection H as <- <-.
      exists [op0], ntc, ntc_rest, die, die_rest, [].
      rewrite Hdt, Hnt, app_nil_r, <- app_assoc.
      repeat split; try reflexivity; try assumption.
      all: intros; contradiction. }
  destruct (init_charge_parameters_grows B mfd config w2) as (tail & Htt & Htp).
  rewrite H in Htt. cbn [snd] in Htt.
  exists [op0], ntc, ntc_rest, die, die_rest, tail.
  rewrite Htt, Hdt, Hnt, <- !app_assoc.
  repeat split; try reflexivity; try assumption; auto.
Qed.

End InitThresholds.

(** *** Which writes reach a threshold slot *)

Lemma outside_not_touching (op : bus_op) (offset : Z) :
  outside_thresholds op = true -> In offset threshold_offsets ->
  touches_slot offset op = false.
Proof.
  unfold outside_thresholds. intros Ho Hin.
  apply negb_true_iff in Ho.
  destruct (touches_slot offset op) eqn:Et; [| reflexivity].
  assert (Hex : existsb (fun o => touches_slot o op) threshold_offsets = true).
  { apply existsb_exists. exists offset. split; assumption. }
  unfold threshold_offsets in Hex. congruence.
Qed.

Lemma filter_outside (l : list bus_op) (offset : Z) :
  forallb outside_thresholds l = true -> In offset threshold_offsets ->
  filter (touches_slot offset) l = [].
Proof.
  intros Hl Hin. induction l as [| op l IH]; [reflexivity |].
  cbn [forallb] in Hl. apply andb_true_iff in Hl. destruct Hl as [Hop Hl].
  cbn [filter]. rewrite (outside_not_touching op offset Hop Hin). auto.
Qed.

Lemma filter_prefix_nil (f : bus_op -> bool) (l pre rest : list bus_op) :
  l = pre ++ rest -> filter f l = [] -> filter f pre = [].
Proof.
  intros -> H. rewrite filter_app in H. now apply app_eq_nil in H.
Qed.

Section SlotWrites.
Variable calc_ntc_res : npm13xx_charger_config -> Z -> Z.
Variable config : npm13xx_charger_config.

Lemma ntc_threshold_write_cases (idx : Z) :
  ntc_threshold_write calc_ntc_res config idx = []
  \/ exists msb lsb,
       ntc_threshold_write calc_ntc_res config idx
       = [OpWrite2 CHGR_BASE (CHGR_OFFSET_NTC_TEMPS + idx * 2) msb lsb].
Proof.
  unfold ntc_threshold_write. cbv zeta.
  destruct (_ <? INT32_MAX); [right; eauto | left; reflexivity].
Qed.

Lemma dietemp_threshold_write_cases (idx : Z) :
  dietemp_threshold_write config idx = []
  \/ exists msb lsb,
       dietemp_threshold_write config idx
       = [OpWrite2 CHGR_BASE (CHGR_OFFSET_DIE_TEMPS + idx * 2) msb lsb].
Proof.
  unfold dietemp_threshold_write. cbv zeta.
  destruct (_ <? INT32_MAX); [right; eauto | left; reflexivity].
Qed.

(** Among all threshold writes, the slot at [idx] is reached by its own
    write only. *)
Lemma slot_filter (idx : Z) :
  let ntc := flat_map (ntc_threshold_write calc_ntc_res config) [0; 1; 2; 3] in
  let die := flat_map (dietemp_threshold_write config) [0; 1] in
  (In idx [0; 1; 2; 3] ->
     filter (touches_slot (CHGR_OFFSET_NTC_TEMPS + idx * 2)) ntc
       = ntc_threshold_write calc_ntc_res config idx
     /\ filter (touches_slot (CHGR_OFFSET_NTC_TEMPS + idx * 2)) die = [])
  /\ (In idx [0; 1] ->
     filter (touches_slot (CHGR_OFFSET_DIE_TEMPS + idx * 2)) die
       = dietemp_threshold_write config idx
     /\ filter (touches_slot (CHGR_OFFSET_DIE_TEMPS + idx * 2)) ntc = []).
Proof.
  cbv zeta.
  assert (H : forall i, In i [0; 1; 2; 3] ->
    (filter (touches_slot (CHGR_OFFSET_NTC_TEMPS + i * 2))
       (flat_map (ntc_threshold_write calc_ntc_res config) [0; 1; 2; 3])
     = ntc_threshold_write calc_ntc_res config i
     /\ filter (touches_slot (CHGR_OFFSET_NTC_TEMPS + i * 2))
          (flat_map (dietemp_threshold_write config) [0; 1]) = [])
    /\ (i <= 1 ->
        filter (touches_slot (CHGR_OFFSET_DIE_TEMPS + i * 2))
          (flat_map (dietemp_threshold_write config) [0; 1])
        = dietemp_threshold_write config i
        /\ filter (touches_slot (CHGR_OFFSET_DIE_TEMPS + i * 2))
             (flat_map (ntc_threshold_write calc_ntc_res config) [0; 1; 2; 3]) = [])).
  { intros i Hi. cbn [In] in Hi. cbn [flat_map].
    destruct (ntc_threshold_write_cases 0) as [N0 | (m0 & l0 & N0)];
    destruct (ntc_threshold_write_cases 1) as [N1 | (m1 & l1 & N1)];
    destruct (ntc_threshold_write_cases 2) as [N2 | (m2 & l2 & N2)];
    destruct (ntc_threshold_write_cases 3) as [N3 | (m3 & l3 & N3)];
    destruct (dietemp_threshold_write_cases 0) as [D0 | (n0 & k0 & D0)];
    destruct (dietemp_threshold_write_cases 1) as [D1 | (n1 & k1 & D1)];
    destruct Hi as [<- | [<- | [<- | [<- | []]]]];
    rewrite ?N0, ?N1, ?N2, ?N3, ?D0, ?D1;
    (split; [split; reflexivity | intros Hle; try lia; split; reflexivity]). }
  split; intros Hi.
  - apply (H idx Hi).
  - assert (Hi' : In idx [0; 1; 2; 3]) by (cbn [In] in *; tauto).
    apply (H idx Hi'). cbn [In] in Hi. lia.
Qed.

End SlotWrites.

(** A prefix of a list retains a prefix of what a filter keeps: of a single
    kept element, none or that one. *)
Lemma filter_prefix_single (f : bus_op -> bool) (l pre rest : list bus_op)
    (op : bus_op) :
  l = pre ++ rest -> filter f l = [op] ->
  filter f pre = [] \/ filter f pre = [op].
Proof.
  intros -> H. rewrite filter_app in H.
  destruct (filter f pre) as [| x xs]; [left; reflexivity |].
  right. cbn [app] in H. injection H as -> H.
  apply app_eq_nil in H. destruct H as [-> _]. reflexivity.
Qed.

Section InitThresholdsReached.
Context {B : Type} (mfd : mfd_npm13xx B).
Variable calc_ntc_res : npm13xx_charger_config -> Z -> Z.
Hypothesis writes_ok : transport_writes_succeed mfd.

(** On a transport whose writes succeed, both threshold loops run to their
    end. *)
Lemma set_ntc_thresholds_from_returns_0 (config : npm13xx_charger_config)
    (idxs : list Z) (w : world B) :
  fst (set_ntc_thresholds_from mfd calc_ntc_res config idxs w) = 0.
Proof.
  revert w. induction idxs as [| idx idxs IH]; intros w; [reflexivity |].
  cbn [set_ntc_thresholds_from].
  destruct (nth (Z.to_nat idx) (temp_thresholds config) 0 <? INT32_MAX);
    [| apply IH].
  unfold bind, mfd_npm13xx_reg_write2. cbn [bus trace].
  match goal with |- context [reg_write2 ?m ?b ?o ?d1 ?d2 ?s] =>
    pose proof (proj2 writes_ok b o d1 d2 s) as Hw;
    destruct (reg_write2 m b o d1 d2 s) as [r s'] end.
  cbn [fst] in Hw. subst r. cbn [Z.eqb negb]. apply IH.
Qed.

Lemma set_dietemp_thresholds_from_returns_0 (config : npm13xx_charger_config)
    (idxs : list Z) (w : world B) :
  fst (set_dietemp_thresholds_from mfd config idxs w) = 0.
Proof.
  revert w. induction idxs as [| idx idxs IH]; intros w; [reflexivity |].
  cbn [set_dietemp_thresholds_from].
  destruct (nth (Z.to_nat idx) (dietemp_thresholds config) 0 <? INT32_MAX);
    [| apply IH].
  unfold bind, mfd_npm13xx_reg_write2. cbn [bus trace].
  match goal with |- context [reg_write2 ?m ?b ?o ?d1 ?d2 ?s] =>
    pose proof (proj2 writes_ok b o d1 d2 s) as Hw;
    destruct (reg_write2 m b o d1 d2 s) as [r s'] end.
  cbn [fst] in Hw. subst r. cbn [Z.eqb negb]. apply IH.
Qed.

(** With the parent ready and the writes succeeding, init gets through both
    threshold loops whatever happens afterwards: its trace is the
    thermistor selection, every set NTC slot, every set die-temperature
    slot, then operations outside the threshold registers. *)
Lemma init_trace_reaches_thresholds (config : npm13xx_charger_config) (b : B) :
  device_is_ready mfd b = true ->
  exists tail,
    trace (snd (npm13xx_charger_init mfd calc_ntc_res config (World b [])))
    = [OpWrite ADC_BASE ADC_OFFSET_NTCR_SEL (to_uint8 (thermistor_idx config))]
      ++ flat_map (ntc_threshold_write calc_ntc_res config) [0; 1; 2; 3]
      ++ flat_map (dietemp_threshold_write config) [0; 1]
      ++ tail
    /\ forallb outside_thresholds tail = true.
Proof.
  intros Hready.
  destruct (npm13xx_charger_init mfd calc_ntc_res config (World b []))
    as [r w'] eqn:H.
  cbn [snd]. unfold npm13xx_charger_init in H. cbn [bus] in H.
  rewrite Hready in H. cbn [negb] in H.
  unfold bind at 1 in H. unfold mfd_npm13xx_reg_write at 1 in H.
  cbn [bus trace app] in H.
  pose proof (proj1 writes_ok ADC_BASE ADC_OFFSET_NTCR_SEL
                (to_uint8 (thermistor_idx config)) b) as Hw0.
  destruct (reg_write mfd ADC_BASE ADC_OFFSET_NTCR_SEL
              (to_uint8 (thermistor_idx config)) b) as [r0 s0].
  cbn [fst] in Hw0. subst r0. cbn [Z.eqb negb] in H.
  set (op0 := OpWrite ADC_BASE ADC_OFFSET_NTCR_SEL
                (to_uint8 (thermistor_idx config))) in *.
  unfold bind at 1 in H. unfold set_ntc_thresholds in H.
  pose proof (set_ntc_thresholds_from_trace mfd calc_ntc_res config [0; 1; 2; 3]
                (World s0 [op0])) as Hn.
  cbv zeta in Hn. destruct Hn as (ntc & ntc_rest & Hnt & Hne & Hnr).
  pose proof (set_ntc_thresholds_from_returns_0 config [0; 1; 2; 3]
                (World s0 [op0])) as Hn0.
  destruct (set_ntc_thresholds_from mfd calc_ntc_res config [0; 1; 2; 3]
              (World s0 [op0])) as [r1 w1].
  cbn [fst snd trace] in Hnt, Hnr, Hn0. subst r1. cbn [Z.eqb negb] in H.
  rewrite (Hnr eq_refl), app_nil_r in Hne.
  unfold bind at 1 in H. unfold set_dietemp_thresholds in H.
  pose proof (set_dietemp_thresholds_from_trace mfd config [0; 1] w1) as Hd.
  cbv zeta in Hd. destruct Hd as (die & die_rest & Hdt & Hde & Hdr).
  pose proof (set_dietemp_thresholds_from_returns_0 config [0; 1] w1) as Hd0.
  destruct (set_dietemp_thresholds_from mfd config [0; 1] w1) as [r2 w2].
  cbn [fst snd trace] in Hdt, Hdr, Hd0. subst r2. cbn [Z.eqb negb] in H.
  rewrite (Hdr eq_refl), app_nil_r in Hde.
  destruct (init_charge_parameters_grows B mfd config w2) as (tail & Htt & Htp).
  rewrite H in Htt. cbn [snd] in Htt.
  exists tail. rewrite Htt, Hdt, Hnt, Hne, Hde, <- !app_assoc.
  split; [reflexivity | exact Htp].
Qed.

End InitThresholdsReached.


(** The mock transport that never fails is one whose writes succeed. *)
Lemma mock_writes_succeed (regs : Z -> Z -> Z) (burst : list Z) :
  transport_writes_succeed (mock_mfd never_fails regs burst).
Proof. split; intros; reflexivity. Qed.


(** * Further properties of the driver *)

(** ** Sample fetch: call order and field ranges *)

(** X1.  Whatever the transport does, a fetch issues its calls in the fixed
    order status, error reason, burst, temperature trigger, voltage trigger,
    VBUS status: the calls made are a non-empty initial part of that list,
    and all six when the fetch returns 0. *)
Theorem sample_fetch_call_order (B : Type) (mfd : mfd_npm13xx B)
    (data : npm13xx_charger_data) (w : world B) :
  let run := npm13xx_charger_sample_fetch mfd data w in
  exists added rest,
    trace (snd run) = trace w ++ added
    /\ sample_fetch_calls = added ++ rest
    /\ added <> []
    /\ (fst (fst run) = 0 -> rest = []).
Proof.
  cbv zeta. unfold_fetch. unfold sample_fetch_calls. change (to_uint8 1) with 1.
  next_call.
  2:{ eexists [_], _. cbn [app]. repeat split; try reflexivity;
        [discriminate | intros; contradiction]. }
  next_call.
  2:{ eexists [_; _], _. rewrite <- app_assoc. cbn [app].
      repeat split; try reflexivity; [discriminate | intros; contradiction]. }
  next_call.
  2:{ eexists [_; _; _], _. rewrite <- !app_assoc. cbn [app].
      repeat split; try reflexivity; [discriminate | intros; contradiction]. }
  next_call.
  2:{ eexists [_; _; _; _], _. rewrite <- !app_assoc. cbn [app].
      repeat split; try reflexivity; [discriminate | intros; contradiction]. }
  next_call.
  2:{ eexists [_; _; _; _; _], _. rewrite <- !app_assoc. cbn [app].
      repeat split; try reflexivity; [discriminate | intros; contradiction]. }
  next_call.
  - eexists [_; _; _; _; _; _], []. rewrite <- !app_assoc. cbn [app].
    repeat split; try reflexivity. discriminate.
  - eexists [_; _; _; _; _; _], []. rewrite <- !app_assoc. cbn [app].
    repeat split; try reflexivity. discriminate.
Qed.

Lemma adc_get_res_in_range (bs : list Z) (i j : nat) (lsb_shift : Z) :
  0 <= lsb_shift ->
  0 <= adc_get_res (nth i (map to_uint8 bs) 0) (nth j (map to_uint8 bs) 0) lsb_shift
    <= 1023.
Proof.
  intros Hs. apply adc_get_res_bytes; [apply nth_map_to_uint8 .. | exact Hs].
Qed.

(** The eight conjuncts of [sample_in_range]. *)
Ltac split_fields :=
  split; [| split; [| split; [| split; [| split; [| split; [| split]]]]]].

Lemma store_adc_results_in_range (d : npm13xx_charger_data) (bs : list Z) :
  is_uint8 (status d) -> is_uint8 (error d) -> is_uint8 (vbus_stat d) ->
  sample_in_range (store_adc_results d (adc_results_of_bytes (map to_uint8 bs))).
Proof.
  intros Hs He Hv. unfold sample_in_range.
  cbn [store_adc_results adc_results_of_bytes voltage temp dietemp current
       ibat_stat status error vbus_stat msb_vbat msb_ntc msb_die msb_ibat
       lsb_a lsb_b r_ibat_stat].
  split_fields; try assumption;
    try (apply adc_get_res_in_range;
         unfold ADC_LSB_VBAT_SHIFT, ADC_LSB_NTC_SHIFT, ADC_LSB_DIE_SHIFT,
           ADC_LSB_IBAT_SHIFT; lia);
    apply nth_map_to_uint8.
Qed.

(** X2.  The field ranges of the live sample state are an invariant of
    fetching: a state whose codes are 10-bit and whose status fields are
    bytes stays so across any fetch, failed or not; a fetch that returns 0
    leaves such a state whatever it started from. *)
Theorem sample_fetch_keeps_ranges (B : Type) (mfd : mfd_npm13xx B)
    (data : npm13xx_charger_data) (w : world B) :
  let run := npm13xx_charger_sample_fetch mfd data w in
  (sample_in_range data -> sample_in_range (snd (fst run)))
  /\ (fst (fst run) = 0 -> sample_in_range (snd (fst run))).
Proof.
  cbv zeta.
  assert (Hst : forall d v, sample_in_range d ->
            sample_in_range (set_status d (to_uint8 v))).
  { unfold sample_in_range. intros d v H. cbn. pose proof (to_uint8_is_uint8 v).
    tauto. }
  assert (Her : forall d v, sample_in_range d ->
            sample_in_range (set_error d (to_uint8 v))).
  { unfold sample_in_range. intros d v H. cbn. pose proof (to_uint8_is_uint8 v).
    tauto. }
  assert (Hvb : forall d v, sample_in_range d ->
            sample_in_range (set_vbus_stat d (to_uint8 v))).
  { unfold sample_in_range. intros d v H. cbn. pose proof (to_uint8_is_uint8 v).
    tauto. }
  assert (Hfull : forall v1 v2 bs,
            is_uint8 (vbus_stat data) ->
            sample_in_range
              (store_adc_results (set_error (set_status data (to_uint8 v1)) (to_uint8 v2))
                 (adc_results_of_bytes (map to_uint8 bs)))).
  { intros v1 v2 bs Hv. apply store_adc_results_in_range; cbn;
      try apply to_uint8_is_uint8. exact Hv. }
  unfold_fetch.
  next_call; [| split; [auto | intros; contradiction]].
  next_call; [| split; [auto | intros; contradiction]].
  next_call; [| split; [auto | intros; contradiction]].
  next_call;
    [| split; [intros H; apply Hfull; apply H | intros; contradiction]].
  next_call;
    [| split; [intros H; apply Hfull; apply H | intros; contradiction]].
  next_call.
  - assert (Hok : sample_in_range
             (set_vbus_stat
                (store_adc_results
                   (set_error (set_status data (to_uint8 v)) (to_uint8 v0))
                   (adc_results_of_bytes (map to_uint8 bs))) (to_uint8 v1))).
    { unfold sample_in_range.
      cbn [set_vbus_stat store_adc_results adc_results_of_bytes voltage temp
           dietemp current ibat_stat status error vbus_stat msb_vbat msb_ntc
           msb_die msb_ibat lsb_a lsb_b r_ibat_stat set_error set_status].
      split_fields;
        try (apply adc_get_res_in_range;
             unfold ADC_LSB_VBAT_SHIFT, ADC_LSB_NTC_SHIFT, ADC_LSB_DIE_SHIFT,
               ADC_LSB_IBAT_SHIFT; lia);
        try apply to_uint8_is_uint8; apply nth_map_to_uint8. }
    split; intros _; exact Hok.
  - split; [intros H; apply Hfull; apply H | intros; contradiction].
Qed.

(** Witness for X2: the zero state of a fresh instance, on a transport whose
    second call fails. *)
Lemma sample_fetch_keeps_ranges_witness :
  sample_in_range (snd (fst (npm13xx_charger_sample_fetch
                               (mock_mfd (fails_at 1) mock_regs mock_burst)
                               charger_data_zero world0))).
Proof.
  apply (proj1 (sample_fetch_keeps_ranges nat
                  (mock_mfd (fails_at 1) mock_regs mock_burst)
                  charger_data_zero world0)).
  cbv [sample_in_range is_uint8 charger_data_zero voltage current temp dietemp
       status error ibat_stat vbus_stat]. lia.
Defined.

(** ** Channel read-out *)

Section ChannelGetProperties.
Variable sensor_value_from_milli : Z -> sensor_value.
Variable sensor_value_from_micro : Z -> sensor_value.
Variable calc_temp : npm13xx_charger_config -> Z -> sensor_value.

(** X3.  channel_get returns 0 or -ENOTSUP and nothing else.  It returns
    -ENOTSUP, with the caller's value untouched, exactly for the gauge
    temperature of an instance without thermistor (thermistor_idx = 0) and
    for channels outside its nine; every other channel returns 0.  Only the
    average-current channel can trip an assertion: it returns 0 with the
    converted current when the three assertions of [calc_current] hold, and
    does not return when one fails. *)
Theorem channel_get_not_supported (config : npm13xx_charger_config)
    (data : npm13xx_charger_data) (chan : sensor_channel) (valp : sensor_value) :
  let result :=
    npm13xx_charger_channel_get sensor_value_from_milli
      sensor_value_from_micro calc_temp config data chan valp in
  let unsupported :=
    (chan = SENSOR_CHAN_GAUGE_TEMP /\ thermistor_idx config = 0)
    \/ chan = SENSOR_CHAN_CURRENT
    \/ (exists n, chan = SENSOR_CHAN_OTHER n) in
  (unsupported -> result = Some (- ENOTSUP, valp))
  /\ (~ unsupported -> chan <> SENSOR_CHAN_GAUGE_AVG_CURRENT ->
      exists v, result = Some (0, v))
  /\ (chan = SENSOR_CHAN_GAUGE_AVG_CURRENT ->
      calc_current_asserts config data = true ->
      result = Some (0, sensor_value_from_micro (calc_current_ua config data)))
  /\ (chan = SENSOR_CHAN_GAUGE_AVG_CURRENT ->
      calc_current_asserts config data = false -> result = None)
  /\ (result = None ->
      chan = SENSOR_CHAN_GAUGE_AVG_CURRENT
      /\ calc_current_asserts config data = false)
  /\ (forall r v, result = Some (r, v) ->
      (r = 0 /\ ~ unsupported) \/ (r = - ENOTSUP /\ v = valp /\ unsupported)).
Proof.
  cbv zeta. unfold npm13xx_charger_channel_get.
  split; [| split; [| split; [| split; [| split]]]].
  - intros [[-> Hi] | [-> | [n ->]]]; [rewrite Hi |..]; reflexivity.
  - intros Hn Hc. destruct chan; try (eexists; reflexivity).
    + destruct (Z.eqb_spec (thermistor_idx config) 0) as [E | E];
        [exfalso; apply Hn; left; split; [reflexivity | exact E]
        | eexists; reflexivity].
    + contradiction.
    + exfalso. apply Hn. right. left. reflexivity.
    + exfalso. apply Hn. right. right. eexists. reflexivity.
  - intros -> Ha. unfold calc_current. rewrite Ha. reflexivity.
  - intros -> Ha. unfold calc_current. rewrite Ha. reflexivity.
  - destruct chan; try discriminate.
    + destruct (thermistor_idx config =? 0); discriminate.
    + unfold calc_current.
      destruct (calc_current_asserts config data); [discriminate | auto].
  - intros r v H.
    assert (Hsup : forall c, c <> SENSOR_CHAN_GAUGE_TEMP ->
              c <> SENSOR_CHAN_CURRENT -> (forall n, c <> SENSOR_CHAN_OTHER n) ->
              ~ ((c = SENSOR_CHAN_GAUGE_TEMP /\ thermistor_idx config = 0)
                 \/ c = SENSOR_CHAN_CURRENT
                 \/ (exists n, c = SENSOR_CHAN_OTHER n))).
    { intros c H1 H2 H3 [[Hc _] | [Hc | [n Hc]]];
        [exact (H1 Hc) | exact (H2 Hc) | exact (H3 n Hc)]. }
    destruct chan;
      try (injection H as <- <-; left; split;
           [reflexivity | apply Hsup; intros; discriminate]).
    + destruct (Z.eqb_spec (thermistor_idx config) 0) as [E | E];
        injection H as <- <-.
      * right. split; [reflexivity |]. split; [reflexivity |]. left. auto.
      * left. split; [reflexivity |].
        intros [[_ Hc] | [Hc | [n Hc]]]; [contradiction | discriminate ..].
    + unfold calc_current in H.
      destruct (calc_current_asserts config data); [| discriminate H].
      injection H as <- <-. left. split; [reflexivity |].
      apply Hsup; intros; discriminate.
    + injection H as <- <-. right. split; [reflexivity |]. split; [reflexivity |].
      right. left. reflexivity.
    + injection H as <- <-. right. split; [reflexivity |]. split; [reflexivity |].
      right. right. eexists. reflexivity.
Qed.

(** X4.  Gauge voltage: for a 10-bit code the millivolt value handed to
    [sensor_value_from_milli] is code * 5000 / 1024 without any wrap, lies
    between 0 and 4995, and never decreases when the code grows. *)
Theorem channel_get_voltage (config : npm13xx_charger_config)
    (data data2 : npm13xx_charger_data) (valp : sensor_value) :
  0 <= voltage data <= 1023 ->
  0 <= voltage data2 <= 1023 ->
  let mv (d : npm13xx_charger_data) := voltage d * 5000 / 1024 in
  npm13xx_charger_channel_get sensor_value_from_milli
      sensor_value_from_micro calc_temp config data
      SENSOR_CHAN_GAUGE_VOLTAGE valp
    = Some (0, sensor_value_from_milli (mv data))
  /\ 0 <= mv data <= 4995
  /\ (voltage data <= voltage data2 -> mv data <= mv data2).
Proof.
  intros H1 H2. cbv zeta. unfold npm13xx_charger_channel_get.
  assert (Hp : is_int32 (voltage data * 5000)).
  { unfold is_int32, INT32_MIN, INT32_MAX. lia. }
  rewrite (mul32_exact _ _ Hp).
  assert (Hq : Z.quot (voltage data * 5000) 1024 = voltage data * 5000 / 1024).
  { apply Z.quot_div_nonneg; lia. }
  assert (Hb : 0 <= voltage data * 5000 / 1024 <= 4995).
  { split; [apply Z.div_pos; lia |].
    assert (voltage data * 5000 / 1024 < 4996)
      by (apply Z.div_lt_upper_bound; lia). lia. }
  rewrite div32_exact by
    (rewrite Hq; unfold is_int32, INT32_MIN, INT32_MAX; lia).
  rewrite Hq. split; [reflexivity |]. split; [exact Hb |].
  intros Hle. apply Z.div_le_mono; lia.
Qed.

End ChannelGetProperties.

(** Witness for X3: the current channel is not one channel_get serves; the
    average current of a full-scale discharge sample is returned with 0. *)
Lemma channel_get_not_supported_witness :
  npm13xx_charger_channel_get mock_from_milli mock_from_micro mock_calc_temp
    npm1300_config charger_data_zero SENSOR_CHAN_CURRENT {| val1 := 7; val2 := 9 |}
  = Some (- ENOTSUP, {| val1 := 7; val2 := 9 |})
  /\ npm13xx_charger_channel_get mock_from_milli mock_from_micro mock_calc_temp
       npm1300_config discharge_sample SENSOR_CHAN_GAUGE_AVG_CURRENT
       {| val1 := 7; val2 := 9 |}
     = Some (0, mock_from_micro
                  (calc_current_ua npm1300_config discharge_sample)).
Proof.
  split.
  - apply (proj1 (channel_get_not_supported mock_from_milli mock_from_micro
                    mock_calc_temp npm1300_config charger_data_zero
                    SENSOR_CHAN_CURRENT {| val1 := 7; val2 := 9 |})).
    right. left. reflexivity.
  - destruct (channel_get_not_supported mock_from_milli mock_from_micro
                mock_calc_temp npm1300_config discharge_sample
                SENSOR_CHAN_GAUGE_AVG_CURRENT {| val1 := 7; val2 := 9 |})
      as (_ & _ & Havg & _).
    apply Havg; reflexivity.
Defined.

(** Witness for X4: code 802 reads as 3916 mV. *)
Lemma channel_get_voltage_witness :
  npm13xx_charger_channel_get mock_from_milli mock_from_micro mock_calc_temp
    npm1300_config voltage_sample SENSOR_CHAN_GAUGE_VOLTAGE {| val1 := 0; val2 := 0 |}
  = Some (0, mock_from_milli (802 * 5000 / 1024)).
Proof.
  apply (channel_get_voltage mock_from_milli mock_from_micro mock_calc_temp
           npm1300_config voltage_sample voltage_sample {| val1 := 0; val2 := 0 |});
    cbn; lia.
Defined.

(** ** Die temperature conversions *)

Lemma forallb_seq_upto (f : nat -> bool) (n : nat) (k : Z) :
  forallb f (seq 0 n) = true -> 0 <= k < Z.of_nat n -> f (Z.to_nat k) = true.
Proof.
  intros H Hk. rewrite forallb_forall in H. apply H. apply in_seq. lia.
Qed.

(** X5.  Every die-temperature code from 0 to 541 survives the round trip
    through the read-out conversion and the threshold encoding of the
    driver. *)
Theorem dietemp_roundtrip_below_542 (code : Z) :
  0 <= code <= 541 ->
  dietemp_code_from_threshold (calc_dietemp code) = code.
Proof.
  intros H.
  pose proof (forallb_seq_upto _ 542 code dietemp_roundtrip_upto_541) as Hk.
  cbv beta in Hk. rewrite Z2Nat.id in Hk by lia.
  apply Z.eqb_eq. apply Hk. lia.
Qed.

Lemma dietemp_roundtrip_below_542_witness :
  dietemp_code_from_threshold (calc_dietemp 300) = 300.
Proof. apply (dietemp_roundtrip_below_542 300). lia. Defined.

(** X6.  Up to code 541 the read-out conversion computes
    394670 - code * 3963000 / 5000 exactly; the reading lies between
    -34126 and 394670 millidegrees and strictly falls as the code grows. *)
Theorem calc_dietemp_exact_below_542 (code code2 : Z) :
  0 <= code <= 541 -> 0 <= code2 <= 541 ->
  calc_dietemp code = 394670 - code * 3963000 / 5000
  /\ -34126 <= calc_dietemp code <= 394670
  /\ (code < code2 -> calc_dietemp code2 < calc_dietemp code).
Proof.
  assert (Hex : forall c, 0 <= c <= 541 ->
            calc_dietemp c = 394670 - c * 3963000 / 5000
            /\ 0 <= c * 3963000 / 5000 <= 428796).
  { intros c Hc. unfold calc_dietemp, DIETEMP_OFFSET_MDEGC, DIETEMP_FACTOR_MUL,
      DIETEMP_FACTOR_DIV.
    assert (Hp : is_int32 (c * 3963000))
      by (unfold is_int32, INT32_MIN, INT32_MAX; lia).
    rewrite (mul32_exact _ _ Hp).
    assert (Hq : Z.quot (c * 3963000) 5000 = c * 3963000 / 5000)
      by (apply Z.quot_div_nonneg; lia).
    assert (Hb : 0 <= c * 3963000 / 5000 <= 428796).
    { split; [apply Z.div_pos; lia |].
      assert (c * 3963000 / 5000 < 428797)
        by (apply Z.div_lt_upper_bound; lia). lia. }
    rewrite div32_exact
      by (rewrite Hq; unfold is_int32, INT32_MIN, INT32_MAX; lia).
    rewrite Hq. unfold sub32. rewrite to_int32_id
      by (unfold is_int32, INT32_MIN, INT32_MAX; lia).
    split; [reflexivity | exact Hb]. }
  intros H1 H2. destruct (Hex code H1) as [E1 B1].
  destruct (Hex code2 H2) as [E2 B2].
  split; [exact E1 |]. split; [lia |].
  intros Hlt. rewrite E1, E2.
  assert (Hstep : code * 3963000 / 5000 < code2 * 3963000 / 5000).
  { assert (Hle : (code * 3963000 + 1 * 5000) / 5000 <= code2 * 3963000 / 5000)
      by (apply Z.div_le_mono; lia).
    rewrite Z.div_add in Hle by lia. lia. }
  lia.
Qed.

Lemma calc_dietemp_exact_below_542_witness :
  calc_dietemp 100 = 394670 - 100 * 3963000 / 5000
  /\ calc_dietemp 101 < calc_dietemp 100.
Proof.
  destruct (calc_dietemp_exact_below_542 100 101) as (E & _ & Hlt); [lia | lia |].
  split; [exact E | apply Hlt; lia].
Defined.

(** X7.  From code 542 up to the largest code 1023 the [int32_t] product
    wraps: the reading is not 394670 - code * 3963000 / 5000 and lies above
    394670 millidegrees, the reading of code 0. *)
Theorem calc_dietemp_wraps_from_542 (code : Z) :
  542 <= code <= 1023 ->
  calc_dietemp code <> die_temperature_exact code
  /\ 394670 < calc_dietemp code.
Proof.
  intros H.
  assert (Hall : forallb (fun k => negb (calc_dietemp (Z.of_nat k + 542)
                                         =? die_temperature_exact (Z.of_nat k + 542))
                                   && (394670 <? calc_dietemp (Z.of_nat k + 542)))
                         (seq 0 482) = true) by (vm_compute; reflexivity).
  pose proof (forallb_seq_upto _ 482 (code - 542) Hall) as Hk.
  cbv beta in Hk. rewrite Z2Nat.id in Hk by lia.
  replace (code - 542 + 542) with code in Hk by lia.
  specialize (Hk ltac:(lia)). apply andb_true_iff in Hk. destruct Hk as [Hne Hgt].
  apply negb_true_iff, Z.eqb_neq in Hne. apply Z.ltb_lt in Hgt. auto.
Qed.

Lemma calc_dietemp_wraps_from_542_witness :
  calc_dietemp 600 <> die_temperature_exact 600 /\ 394670 < calc_dietemp 600.
Proof. apply (calc_dietemp_wraps_from_542 600). lia. Defined.

(** X8.  Threshold encoding: for a die-temperature threshold between
    -34430 and 394670 millidegrees nothing wraps; the code is
    (394670 - threshold) * 5000 / 3963000 rounded to the nearest integer
    (off by at most half a step of 3963000), and lies between 0 and 541. *)
Theorem dietemp_code_from_threshold_nearest (threshold : Z) :
  -34430 <= threshold <= 394670 ->
  let n := (394670 - threshold) * 5000 in
  let code := dietemp_code_from_threshold threshold in
  code = (n + 1981500) / 3963000
  /\ 0 <= code <= 541
  /\ 2 * Z.abs (code * 3963000 - n) <= 3963000.
Proof.
  intros H. cbv zeta.
  assert (E : dietemp_code_from_threshold threshold
              = ((394670 - threshold) * 5000 + 1981500) / 3963000).
  { unfold dietemp_code_from_threshold, DIV_ROUND_CLOSEST, DIETEMP_OFFSET_MDEGC,
      DIETEMP_FACTOR_DIV, DIETEMP_FACTOR_MUL.
    unfold sub32. rewrite to_int32_id
      by (unfold is_int32, INT32_MIN, INT32_MAX; lia).
    rewrite mul32_exact by (unfold is_int32, INT32_MIN, INT32_MAX; lia).
    replace ((394670 - threshold) * 5000 <? 0) with false
      by (symmetry; apply Z.ltb_ge; lia).
    cbn [Z.ltb Z.compare xorb].
    change (div32 3963000 2) with 1981500.
    unfold add32. rewrite to_int32_id
      by (unfold is_int32, INT32_MIN, INT32_MAX; lia).
    assert (Hq : Z.quot ((394670 - threshold) * 5000 + 1981500) 3963000
                 = ((394670 - threshold) * 5000 + 1981500) / 3963000)
      by (apply Z.quot_div_nonneg; lia).
    assert (Hb : 0 <= ((394670 - threshold) * 5000 + 1981500) / 3963000 < 542).
    { split; [apply Z.div_pos; lia | apply Z.div_lt_upper_bound; lia]. }
    rewrite div32_exact
      by (rewrite Hq; unfold is_int32, INT32_MIN, INT32_MAX; lia).
    rewrite Hq. apply to_uint16_id. unfold is_uint16. lia. }
  rewrite E.
  set (n := (394670 - threshold) * 5000) in *.
  pose proof (Z.div_mod (n + 1981500) 3963000 ltac:(lia)) as Hdm.
  pose proof (Z.mod_pos_bound (n + 1981500) 3963000 ltac:(lia)) as Hm.
  assert (Hb : 0 <= (n + 1981500) / 3963000 < 542).
  { split; [apply Z.div_pos; lia | apply Z.div_lt_upper_bound; lia]. }
  split; [reflexivity |]. split; [lia |]. lia.
Qed.

Lemma dietemp_code_from_threshold_nearest_witness :
  dietemp_code_from_threshold 90000 = ((394670 - 90000) * 5000 + 1981500) / 3963000.
Proof. apply (dietemp_code_from_threshold_nearest 90000). lia. Defined.

(** ** Register pairs and the decoder *)

(** X9.  The MSB+LSB split that the threshold writers put on the bus
    (code >> 2, code & 3) is the inverse of the ADC decoder: decoding the
    pair with shift 0 gives back every 10-bit code. *)
Theorem split_then_decode (code : Z) :
  0 <= code <= 1023 ->
  adc_get_res (to_uint8 (Z.shiftr code DIETEMP_MSB_SHIFT))
              (to_uint8 (Z.land code DIETEMP_LSB_MASK)) 0 = code
  /\ to_uint8 (Z.shiftr code DIETEMP_MSB_SHIFT) = Z.shiftr code 2
  /\ to_uint8 (Z.land code DIETEMP_LSB_MASK) = Z.land code 3.
Proof.
  intros H.
  assert (Hall : forallb (fun k =>
            (adc_get_res (to_uint8 (Z.shiftr (Z.of_nat k) DIETEMP_MSB_SHIFT))
                         (to_uint8 (Z.land (Z.of_nat k) DIETEMP_LSB_MASK)) 0
             =? Z.of_nat k)
            && (to_uint8 (Z.shiftr (Z.of_nat k) DIETEMP_MSB_SHIFT)
                =? Z.shiftr (Z.of_nat k) 2)
            && (to_uint8 (Z.land (Z.of_nat k) DIETEMP_LSB_MASK)
                =? Z.land (Z.of_nat k) 3)) (seq 0 1024) = true)
    by (vm_compute; reflexivity).
  pose proof (forallb_seq_upto _ 1024 code Hall ltac:(lia)) as Hk.
  cbv beta in Hk. rewrite Z2Nat.id in Hk by lia.
  apply andb_true_iff in Hk. destruct Hk as [Hk H3].
  apply andb_true_iff in Hk. destruct Hk as [H1 H2].
  apply Z.eqb_eq in H1, H2, H3. auto.
Qed.

Lemma split_then_decode_witness :
  adc_get_res (to_uint8 (Z.shiftr 509 DIETEMP_MSB_SHIFT))
              (to_uint8 (Z.land 509 DIETEMP_LSB_MASK)) 0 = 509.
Proof. apply (split_then_decode 509). lia. Defined.

(** X10.  NTC threshold code: with a thermistor resistance above zero and a
    threshold resistance below 2^22 ohms the [uint32_t] arithmetic does not
    wrap; the code is 1024 * res / (res + thermistor_ohms) and fits in ten
    bits. *)
Theorem ntc_code_fits_ten_bits
    (calc_ntc_res : npm13xx_charger_config -> Z -> Z)
    (config : npm13xx_charger_config) (threshold : Z) :
  0 <= calc_ntc_res config threshold < 2 ^ 22 ->
  0 < thermistor_ohms config < 2 ^ 31 ->
  let res := calc_ntc_res config threshold in
  ntc_code calc_ntc_res config threshold
    = 1024 * res / (res + thermistor_ohms config)
  /\ 0 <= ntc_code calc_ntc_res config threshold <= 1023.
Proof.
  change (2 ^ 22) with 4194304. change (2 ^ 31) with 2147483648.
  intros Hr Ho. cbv zeta. unfold ntc_code, to_uint32.
  change (2 ^ 32) with 4294967296.
  set (res := calc_ntc_res config threshold) in *.
  rewrite (Z.mod_small res) by lia.
  rewrite (Z.mod_small (1024 * res)) by lia.
  rewrite (Z.mod_small (res + thermistor_ohms config)) by lia.
  assert (Hb : 0 <= 1024 * res / (res + thermistor_ohms config) < 1024).
  { split; [apply Z.div_pos; lia | apply Z.div_lt_upper_bound; lia]. }
  rewrite to_uint16_id by (unfold is_uint16; lia).
  split; [reflexivity | lia].
Qed.

Lemma ntc_code_fits_ten_bits_witness :
  0 <= ntc_code (fun _ _ => 4000) npm1300_config 45000 <= 1023.
Proof.
  apply (ntc_code_fits_ten_bits (fun _ _ => 4000) npm1300_config 45000);
    cbn; lia.
Defined.

(** ** Battery current: status selection and scaling *)

(** X11.  An ibat status that is neither discharge nor one of the three
    charging states reads as a current of exactly 0, whatever the
    configuration and the code; the assertions then only need the code to
    be 10-bit. *)
Theorem calc_current_unknown_status (config : npm13xx_charger_config)
    (data : npm13xx_charger_data) :
  ibat_stat data <> IBAT_STAT_DISCHARGE ->
  ibat_stat data <> IBAT_STAT_CHARGE_TRICKLE ->
  ibat_stat data <> IBAT_STAT_CHARGE_COOL ->
  ibat_stat data <> IBAT_STAT_CHARGE_NORMAL ->
  calc_full_scale_ua config data = 0
  /\ calc_current_ua config data = 0
  /\ (current data <= 1023 -> calc_current config data = Some 0)
  /\ (1023 < current data -> calc_current config data = None).
Proof.
  intros H1 H2 H3 H4.
  assert (E : calc_full_scale_ua config data = 0).
  { unfold calc_full_scale_ua.
    destruct (Z.eqb_spec (ibat_stat data) IBAT_STAT_DISCHARGE); [contradiction |].
    destruct (Z.eqb_spec (ibat_stat data) IBAT_STAT_CHARGE_TRICKLE); [contradiction |].
    destruct (Z.eqb_spec (ibat_stat data) IBAT_STAT_CHARGE_COOL); [contradiction |].
    destruct (Z.eqb_spec (ibat_stat data) IBAT_STAT_CHARGE_NORMAL); [contradiction |].
    reflexivity. }
  assert (Eua : calc_current_ua config data = 0).
  { unfold calc_current_ua. rewrite E. unfold mul32. rewrite Z.mul_0_r.
    reflexivity. }
  split; [exact E |]. split; [exact Eua |].
  unfold calc_current, calc_current_asserts. rewrite E, Eua.
  split; intros Hc.
  - replace (current data <=? 1023) with true by (symmetry; apply Z.leb_le; lia).
    reflexivity.
  - replace (current data <=? 1023) with false by (symmetry; apply Z.leb_gt; lia).
    reflexivity.
Qed.

Lemma calc_current_unknown_status_witness :
  calc_current_ua overrange_config charger_data_zero = 0
  /\ calc_current overrange_config charger_data_zero = Some 0.
Proof.
  destruct (calc_current_unknown_status overrange_config charger_data_zero)
    as (_ & E & Hs & _); try (cbn; discriminate).
  split; [exact E | apply Hs; cbn; lia].
Defined.

(** A 10-bit code scales a value towards zero, keeping its sign. *)
Lemma scaled_quot_bounds (code fs : Z) :
  0 <= code <= 1023 ->
  (0 <= fs /\ 0 <= Z.quot (code * fs) 1023 <= fs)
  \/ (fs < 0 /\ fs <= Z.quot (code * fs) 1023 <= 0).
Proof.
  intros Hc. destruct (Z_le_gt_dec 0 fs) as [Hp | Hn].
  - left. split; [exact Hp |].
    rewrite Z.quot_div_nonneg by nia.
    split; [apply Z.div_pos; nia | apply Z.div_le_upper_bound; nia].
  - right. split; [lia |].
    replace (code * fs) with (- (code * - fs)) by lia.
    rewrite Z.quot_opp_l by lia.
    rewrite Z.quot_div_nonneg by nia.
    assert (0 <= code * - fs / 1023) by (apply Z.div_pos; nia).
    assert (code * - fs / 1023 <= - fs) by (apply Z.div_le_upper_bound; nia).
    lia.
Qed.

(** X12.  Scaling: whenever the three assertions of [calc_current] hold,
    the reading is code * full_scale / 1023 without wrap, for the full
    scale the switch computed.  It has the sign of the full scale, never
    exceeds it in magnitude, is 0 at code 0 and is the full scale itself at
    code 1023. *)
Theorem calc_current_scaling (config : npm13xx_charger_config)
    (data : npm13xx_charger_data) :
  0 <= current data ->
  calc_current_asserts config data = true ->
  let fs := calc_full_scale_ua config data in
  calc_current config data = Some (Z.quot (current data * fs) 1023)
  /\ Z.abs (calc_current_ua config data) <= Z.abs fs
  /\ 0 <= calc_current_ua config data * fs
  /\ (current data = 0 -> calc_current_ua config data = 0)
  /\ (current data = 1023 -> calc_current_ua config data = fs).
Proof.
  intros H0 Ha. cbv zeta.
  unfold calc_current. rewrite Ha. unfold calc_current_asserts in Ha.
  apply andb_true_iff in Ha. destruct Ha as [Ha H3].
  apply andb_true_iff in Ha. destruct Ha as [H1 H2].
  apply Z.leb_le in H1, H2. apply Z.geb_le in H3.
  set (fs := calc_full_scale_ua config data) in *.
  assert (E : calc_current_ua config data = Z.quot (current data * fs) 1023).
  { unfold calc_current_ua. fold fs. apply scale_by_code_exact; lia. }
  rewrite E.
  pose proof (scaled_quot_bounds (current data) fs ltac:(lia)) as Hq.
  split; [reflexivity |].
  split; [| split; [| split]].
  - lia.
  - nia.
  - intros ->. rewrite Z.mul_0_l. reflexivity.
  - intros ->. rewrite Z.mul_comm. apply Z.quot_mul. lia.
Qed.

Lemma calc_current_scaling_witness :
  calc_current npm1300_config discharge_sample
  = Some (Z.quot (1023 * calc_full_scale_ua npm1300_config discharge_sample) 1023).
Proof.
  apply (calc_current_scaling npm1300_config discharge_sample).
  - cbn. lia.
  - reflexivity.
Defined.

(** X13.  Direction: with the assertions holding and the limit products
    inside [int32_t], a discharging sample never reads as a positive
    current (discharge limit and factors non-negative), and a charging
    sample never reads as a negative one (charge limit non-negative). *)
Theorem calc_current_direction (config : npm13xx_charger_config)
    (data : npm13xx_charger_data) :
  0 <= current data ->
  calc_current_asserts config data = true ->
  (ibat_stat data = IBAT_STAT_DISCHARGE ->
     0 <= dischg_limit_microamp config <= INT32_MAX ->
     0 <= fst (full_scale_discharge_factors config) ->
     0 < snd (full_scale_discharge_factors config) ->
     is_int32 (dischg_limit_microamp config
               * fst (full_scale_discharge_factors config)) ->
     calc_full_scale_ua config data <= 0 /\ calc_current_ua config data <= 0)
  /\ (is_charging (ibat_stat data) = true ->
     0 <= current_microamp config ->
     is_int32 (current_microamp config * 125) ->
     0 <= calc_full_scale_ua config data /\ 0 <= calc_current_ua config data).
Proof.
  intros H0 Ha.
  assert (Hscale : calc_current_ua config data
                   = Z.quot (current data * calc_full_scale_ua config data) 1023
                   /\ current data <= 1023).
  { unfold calc_current_asserts in Ha.
    apply andb_true_iff in Ha. destruct Ha as [Ha H3].
    apply andb_true_iff in Ha. destruct Ha as [H1 H2].
    apply Z.leb_le in H1, H2. apply Z.geb_le in H3.
    split; [| exact H1]. unfold calc_current_ua.
    apply scale_by_code_exact; lia. }
  destruct Hscale as [E Hc]. rewrite E.
  pose proof (scaled_quot_bounds (current data) (calc_full_scale_ua config data)
                ltac:(lia)) as Hq.
  split.
  - intros Hst Hd Hf0 Hf1 Hp.
    assert (Hfs : calc_full_scale_ua config data <= 0).
    { unfold calc_full_scale_ua. rewrite Hst. cbn [Z.eqb IBAT_STAT_DISCHARGE Pos.eqb].
      unfold is_int32, INT32_MIN, INT32_MAX in Hp, Hd.
      set (d := dischg_limit_microamp config) in *.
      set (f0 := fst (full_scale_discharge_factors config)) in *.
      set (f1 := snd (full_scale_discharge_factors config)) in *.
      unfold neg32. rewrite to_int32_id
        by (unfold is_int32, INT32_MIN, INT32_MAX; lia).
      rewrite mul32_exact by (unfold is_int32, INT32_MIN, INT32_MAX; nia).
      assert (Hquot : - (d * f0) <= Z.quot (- d * f0) f1 <= 0).
      { replace (- d * f0) with (- (d * f0)) by lia.
        rewrite Z.quot_opp_l by lia.
        rewrite Z.quot_div_nonneg by nia.
        assert (0 <= d * f0 / f1) by (apply Z.div_pos; nia).
        assert (d * f0 / f1 <= d * f0)
          by (apply Z.div_le_upper_bound; nia).
        lia. }
      rewrite div32_exact by (unfold is_int32, INT32_MIN, INT32_MAX; lia).
      lia. }
    split; [exact Hfs | lia].
  - intros Hst Hc0 Hp.
    assert (Hfs : 0 <= calc_full_scale_ua config data).
    { unfold calc_full_scale_ua, is_charging in *.
      unfold IBAT_STAT_DISCHARGE, IBAT_STAT_CHARGE_TRICKLE, IBAT_STAT_CHARGE_COOL,
        IBAT_STAT_CHARGE_NORMAL, full_scale_charge_factors. cbn [fst snd].
      destruct (Z.eqb_spec (ibat_stat data) 4) as [E4 | _].
      { rewrite E4 in Hst. discriminate Hst. }
      rewrite Hst.
      rewrite mul32_exact by exact Hp.
      unfold is_int32, INT32_MIN, INT32_MAX in Hp.
      assert (Hquot : 0 <= Z.quot (current_microamp config * 125) 100
                      <= current_microamp config * 125).
      { rewrite Z.quot_div_nonneg by lia.
        split; [apply Z.div_pos; lia | apply Z.div_le_upper_bound; lia]. }
      rewrite div32_exact by (unfold is_int32, INT32_MIN, INT32_MAX; lia).
      lia. }
    split; [exact Hfs | lia].
Qed.

Lemma calc_current_direction_witness :
  calc_current_ua npm1300_config discharge_sample <= 0.
Proof.
  destruct (calc_current_direction npm1300_config discharge_sample) as [Hd _].
  - cbn. lia.
  - reflexivity.
  - apply Hd.
    + reflexivity.
    + cbn. unfold INT32_MAX. lia.
    + cbn. lia.
    + cbn. lia.
    + cbn. unfold is_int32, INT32_MIN, INT32_MAX. lia.
Defined.

(** ** [attr_set]: refusals and the VBUS current limit *)

(** X14.  attr_set does nothing but return -ENOTSUP, without any transport
    call, for every attribute other than configuration (the upper threshold
    included, on both channels) and for every channel other than the
    desired charging current and the current channel. *)
Theorem attr_set_not_supported (B : Type) (mfd : mfd_npm13xx B)
    (chan : sensor_channel) (attr : sensor_attribute) (val : sensor_value)
    (w : world B) :
  attr <> SENSOR_ATTR_CONFIGURATION
  \/ (chan <> SENSOR_CHAN_GAUGE_DESIRED_CHARGING_CURRENT
      /\ chan <> SENSOR_CHAN_CURRENT) ->
  npm13xx_charger_attr_set mfd chan attr val w = (- ENOTSUP, w).
Proof.
  intros [Ha | [H1 H2]]; unfold npm13xx_charger_attr_set.
  - destruct attr; [contradiction | reflexivity | reflexivity].
  - destruct (is_configuration attr); cbn [negb]; [| reflexivity].
    destruct chan; try reflexivity; contradiction.
Qed.

Lemma attr_set_not_supported_witness :
  npm13xx_charger_attr_set (mock_mfd never_fails mock_regs mock_burst)
    SENSOR_CHAN_CURRENT SENSOR_ATTR_UPPER_THRESH {| val1 := 0; val2 := 500000 |}
    world0
  = (- ENOTSUP, world0).
Proof.
  apply (attr_set_not_supported nat (mock_mfd never_fails mock_regs mock_burst)).
  left. discriminate.
Defined.

(** The exact-match lookup in the VBUS range: index k for k * 100 mA,
    k from 1 to 15, and invalid-argument for anything else. *)
Lemma vbus_limit_lookup (c : Z) :
  (exists k, 1 <= k <= 15 /\ c = 100000 * k
     /\ linear_range_get_win_index vbus_current_range c c = (0, Some k))
  \/ ((forall k, 1 <= k <= 15 -> c <> 100000 * k)
      /\ linear_range_get_win_index vbus_current_range c c = (- EINVAL, None)).
Proof.
  pose proof (linear_range_get_win_index_spec vbus_current_range c c) as H.
  destruct (linear_range_get_win_index vbus_current_range c c) as [r [i |]].
  - destruct H as (-> & Hi & Hw). left. exists i.
    unfold valid_index, linear_range_value, vbus_current_range in *.
    cbn [lr_min lr_step lr_min_idx lr_max_idx] in Hi, Hw.
    split; [lia |]. split; [lia | reflexivity].
  - destruct H as (-> & Hn). right. split; [| reflexivity].
    intros k Hk ->. apply (Hn k);
      unfold valid_index, linear_range_value, vbus_current_range;
      cbn [lr_min lr_step lr_min_idx lr_max_idx]; lia.
Qed.

(** X15.  VBUS current limit through attr_set (current channel,
    configuration attribute), the range lookup being the exact match of the
    specification.  A value of k * 100 mA, k from 1 to 15, writes k to the
    limit register and then 1 to the update register; the update write is
    issued only after the limit write returned 0.  Any other value returns
    -EINVAL without a transport call. *)
Theorem attr_set_vbus_limit (B : Type) (mfd : mfd_npm13xx B)
    (val : sensor_value) (w : world B) :
  let microamp := add32 (mul32 (val1 val) 1000000) (val2 val) in
  let run := npm13xx_charger_attr_set mfd SENSOR_CHAN_CURRENT
               SENSOR_ATTR_CONFIGURATION val w in
  (forall k, 1 <= k <= 15 -> microamp = 100000 * k ->
     let first := reg_write mfd VBUS_BASE VBUS_OFFSET_ILIM k (bus w) in
     (fst first <> 0 ->
        run = (fst first,
               World (snd first) (trace w ++ [OpWrite VBUS_BASE VBUS_OFFSET_ILIM k])))
     /\ (fst first = 0 ->
        trace (snd run)
          = trace w ++ [OpWrite VBUS_BASE VBUS_OFFSET_ILIM k;
                        OpWrite VBUS_BASE VBUS_OFFSET_ILIMUPDATE 1]
        /\ fst run
           = fst (reg_write mfd VBUS_BASE VBUS_OFFSET_ILIMUPDATE 1 (snd first))))
  /\ ((forall k, 1 <= k <= 15 -> microamp <> 100000 * k) ->
      run = (- EINVAL, w)).
Proof.
  cbv zeta. unfold npm13xx_charger_attr_set. cbn [is_configuration negb].
  set (c := add32 (mul32 (val1 val) 1000000) (val2 val)).
  destruct (vbus_limit_lookup c) as [(k0 & Hk0 & Ec & El) | [Hn El]]; rewrite El.
  - split; [| intros Hno; exfalso; apply (Hno k0 Hk0 Ec)].
    intros k Hk Ek. assert (k = k0) by lia. subst k0.
    change (0 =? - EINVAL) with false. cbv iota.
    unfold bind, ret, mfd_npm13xx_reg_write. cbn [bus trace idx_of].
    rewrite (to_uint16_id k) by (unfold is_uint16; lia).
    rewrite (to_uint8_id k) by (unfold is_uint8; lia).
    change (to_uint8 1) with 1.
    destruct (reg_write mfd VBUS_BASE VBUS_OFFSET_ILIM k (bus w)) as [r s].
    cbn [fst snd].
    destruct (Z.eqb_spec r 0) as [E | E]; cbn [negb bus trace].
    + split; [intros; contradiction | intros _].
      destruct (reg_write mfd VBUS_BASE VBUS_OFFSET_ILIMUPDATE 1 s) as [r' s'].
      cbn [fst snd trace]. rewrite <- app_assoc. split; reflexivity.
    + split; [intros _; reflexivity | intros; contradiction].
  - split; [intros k Hk Ek; exfalso; apply (Hn k Hk Ek) |].
    intros _. rewrite Z.eqb_refl. reflexivity.
Qed.

Lemma attr_set_vbus_limit_witness :
  trace (snd (npm13xx_charger_attr_set (mock_mfd never_fails mock_regs mock_burst)
                SENSOR_CHAN_CURRENT SENSOR_ATTR_CONFIGURATION
                {| val1 := 0; val2 := 500000 |} world0))
  = [OpWrite VBUS_BASE VBUS_OFFSET_ILIM 5;
     OpWrite VBUS_BASE VBUS_OFFSET_ILIMUPDATE 1].
Proof.
  destruct (attr_set_vbus_limit nat (mock_mfd never_fails mock_regs mock_burst)
              {| val1 := 0; val2 := 500000 |} world0) as [Hok _].
  destruct (Hok 5) as [_ Hw]; [lia | reflexivity |].
  apply Hw. reflexivity.
Defined.

(** ** [attr_get] *)

Section AttrGetProperties.
Context {B : Type} (mfd : mfd_npm13xx B).
Variable sensor_value_from_micro : Z -> sensor_value.
Variable charger_attribute :
  sensor_attribute -> option sensor_attribute_npm13xx_charger.

Ltac unfold_attr_get :=
  unfold npm13xx_charger_attr_get, bind, ret, mfd_npm13xx_reg_read;
  cbn [bus trace].

(** X16.  A non-zero result of attr_get leaves the caller's value
    untouched, on every channel and attribute and whatever the transport
    returns; and attr_get makes at most one transport call, a register
    read. *)
Theorem attr_get_failure_keeps_value (chan : sensor_channel)
    (attr : sensor_attribute) (val : sensor_value) (w : world B) :
  let run := npm13xx_charger_attr_get mfd sensor_value_from_micro
               charger_attribute chan attr val w in
  (fst (fst run) <> 0 -> snd (fst run) = val)
  /\ (snd run = w
      \/ exists base offset b',
           snd run = World b' (trace w ++ [OpRead base offset])).
Proof.
  cbv zeta. unfold_attr_get.
  destruct chan; try (split; [reflexivity | left; reflexivity]).
  - destruct (is_configuration attr); cbn [negb];
      [| split; [reflexivity | left; reflexivity]].
    destruct (reg_read mfd CHGR_BASE CHGR_OFFSET_EN_SET (bus w)) as [[r v] s].
    cbn [fst snd]. split; [| right; do 3 eexists; reflexivity].
    destruct (Z.eqb_spec r 0); [intros; contradiction | reflexivity].
  - destruct (reg_read mfd VBUS_BASE VBUS_OFFSET_STATUS (bus w)) as [[r v] s].
    split; [| destruct (r <? 0); [| destruct (charger_attribute attr)];
              right; do 3 eexists; reflexivity].
    destruct (r <? 0); [reflexivity |].
    destruct (charger_attribute attr); cbn [fst snd];
      [intros H; exfalso; apply H; reflexivity | reflexivity].
  - destruct (is_upper_thresh attr); cbn [negb];
      [| split; [reflexivity | left; reflexivity]].
    destruct (reg_read mfd VBUS_BASE VBUS_OFFSET_DETECT (bus w)) as [[r v] s].
    split.
    + destruct (r <? 0); [reflexivity |].
      destruct (to_uint8 v =? 0); cbn [fst snd];
        [intros H; exfalso; apply H; reflexivity |].
      destruct (negb (Z.land (to_uint8 v) DETECT_HI_MASK =? 0)); cbn [fst snd];
        intros H; exfalso; apply H; reflexivity.
    + destruct (r <? 0); [right; do 3 eexists; reflexivity |].
      destruct (to_uint8 v =? 0); [right; do 3 eexists; reflexivity |].
      destruct (negb (Z.land (to_uint8 v) DETECT_HI_MASK =? 0)); right; do 3 eexists; reflexivity.
Qed.

(** X17.  attr_get refuses with -ENOTSUP and without any transport call:
    the desired charging current with an attribute other than
    configuration, the current channel with an attribute other than upper
    threshold, and every channel other than these two and the VBUS status.
    On the VBUS status channel an attribute that is none of the six driver
    attributes is refused only after the status register has been read,
    and only if that read did not return a negative value. *)
Theorem attr_get_not_supported (chan : sensor_channel)
    (attr : sensor_attribute) (val : sensor_value) (w : world B) :
  let attr_get := npm13xx_charger_attr_get mfd sensor_value_from_micro
                    charger_attribute in
  ((chan = SENSOR_CHAN_GAUGE_DESIRED_CHARGING_CURRENT
      /\ attr <> SENSOR_ATTR_CONFIGURATION)
   \/ (chan = SENSOR_CHAN_CURRENT /\ attr <> SENSOR_ATTR_UPPER_THRESH)
   \/ (chan <> SENSOR_CHAN_GAUGE_DESIRED_CHARGING_CURRENT
       /\ chan <> SENSOR_CHAN_CURRENT
       /\ chan <> SENSOR_CHAN_NPM13XX_CHARGER_VBUS_STATUS) ->
   attr_get chan attr val w = ((- ENOTSUP, val), w))
  /\ (charger_attribute attr = None ->
      let rd := reg_read mfd VBUS_BASE VBUS_OFFSET_STATUS (bus w) in
      0 <= fst (fst rd) ->
      attr_get SENSOR_CHAN_NPM13XX_CHARGER_VBUS_STATUS attr val w
      = ((- ENOTSUP, val),
         World (snd rd) (trace w ++ [OpRead VBUS_BASE VBUS_OFFSET_STATUS]))).
Proof.
  cbv zeta. split.
  - intros [[-> Ha] | [[-> Ha] | (H1 & H2 & H3)]]; unfold_attr_get.
    + destruct attr; [contradiction | reflexivity | reflexivity].
    + destruct attr; [reflexivity | contradiction | reflexivity].
    + destruct chan; try reflexivity; contradiction.
  - intros Hnone Hr. unfold_attr_get.
    destruct (reg_read mfd VBUS_BASE VBUS_OFFSET_STATUS (bus w)) as [[r v] s].
    cbn [fst snd] in Hr |- *.
    replace (r <? 0) with false by (symmetry; apply Z.ltb_ge; lia).
    rewrite Hnone. reflexivity.
Qed.

(** X18.  Cable detection (current channel, upper threshold): one read of
    the detect register.  A negative result is returned with the value
    untouched.  After a read that returned 0 the result is 0 and the
    microamp value handed to [sensor_value_from_micro] is 0 for the byte 0,
    1500000 when bit 1 or bit 3 of the byte is set, and 500000 otherwise. *)
Theorem attr_get_cable_detect (val : sensor_value) (w : world B) :
  let rd := reg_read mfd VBUS_BASE VBUS_OFFSET_DETECT (bus w) in
  let r := fst (fst rd) in
  let data := to_uint8 (snd (fst rd)) in
  let run := npm13xx_charger_attr_get mfd sensor_value_from_micro
               charger_attribute SENSOR_CHAN_CURRENT SENSOR_ATTR_UPPER_THRESH
               val w in
  snd run = World (snd rd) (trace w ++ [OpRead VBUS_BASE VBUS_OFFSET_DETECT])
  /\ (r < 0 -> fst run = (r, val))
  /\ (r = 0 ->
      fst run
      = (0, sensor_value_from_micro
              (if data =? 0 then 0
               else if Z.testbit data 1 || Z.testbit data 3 then 1500000
               else 500000))).
Proof.
  cbv zeta. unfold_attr_get. cbn [is_upper_thresh negb].
  destruct (reg_read mfd VBUS_BASE VBUS_OFFSET_DETECT (bus w)) as [[r v] s].
  cbn [fst snd].
  assert (Hbits : forall d, is_uint8 d ->
            negb (Z.land d DETECT_HI_MASK =? 0) = Z.testbit d 1 || Z.testbit d 3).
  { intros d Hd.
    assert (Hall : forallb (fun k =>
              Bool.eqb (negb (Z.land (Z.of_nat k) DETECT_HI_MASK =? 0))
                       (Z.testbit (Z.of_nat k) 1 || Z.testbit (Z.of_nat k) 3))
              (seq 0 256) = true) by (vm_compute; reflexivity).
    pose proof (forallb_seq_upto _ 256 d Hall) as Hk. cbv beta in Hk.
    unfold is_uint8 in Hd. rewrite Z2Nat.id in Hk by lia.
    apply Bool.eqb_prop. apply Hk. lia. }
  rewrite (Hbits _ (to_uint8_is_uint8 v)).
  split; [| split].
  - destruct (r <? 0); [reflexivity |].
    destruct (to_uint8 v =? 0); [reflexivity |].
    destruct (Z.testbit (to_uint8 v) 1 || Z.testbit (to_uint8 v) 3); reflexivity.
  - intros Hr. replace (r <? 0) with true by (symmetry; apply Z.ltb_lt; lia).
    reflexivity.
  - intros ->. cbn [Z.ltb Z.compare].
    destruct (to_uint8 v =? 0); [reflexivity |].
    destruct (Z.testbit (to_uint8 v) 1 || Z.testbit (to_uint8 v) 3); reflexivity.
Qed.

(** X19.  VBUS status flags: for each of the six driver attributes, after a
    status read that returned 0 the result is 0, val2 is 0 and val1 is 1 or
    0 according to one bit of the status byte: present bit 0, current
    limited bit 1, overvoltage protection bit 2, undervoltage bit 3,
    suspended bit 4, bus-out bit 5.  A negative read result is returned
    with the value untouched. *)
Theorem attr_get_vbus_status_flag (attr : sensor_attribute)
    (a : sensor_attribute_npm13xx_charger) (val : sensor_value) (w : world B) :
  charger_attribute attr = Some a ->
  let rd := reg_read mfd VBUS_BASE VBUS_OFFSET_STATUS (bus w) in
  let r := fst (fst rd) in
  let data := to_uint8 (snd (fst rd)) in
  let run := npm13xx_charger_attr_get mfd sensor_value_from_micro
               charger_attribute SENSOR_CHAN_NPM13XX_CHARGER_VBUS_STATUS
               attr val w in
  snd run = World (snd rd) (trace w ++ [OpRead VBUS_BASE VBUS_OFFSET_STATUS])
  /\ (r < 0 -> fst run = (r, val))
  /\ (r = 0 ->
      fst run = (0, {| val1 := Z.b2z (Z.testbit data (vbus_status_bit a));
                       val2 := 0 |})).
Proof.
  intros Ha. cbv zeta. unfold_attr_get. rewrite Ha.
  destruct (reg_read mfd VBUS_BASE VBUS_OFFSET_STATUS (bus w)) as [[r v] s].
  cbn [fst snd].
  assert (Hbit : (if negb (Z.land (to_uint8 v) (vbus_status_mask a) =? 0)
                  then 1 else 0)
                 = Z.b2z (Z.testbit (to_uint8 v) (vbus_status_bit a))).
  { assert (Hall : forall a', forallb (fun k =>
              (if negb (Z.land (Z.of_nat k) (vbus_status_mask a') =? 0)
               then 1 else 0)
              =? Z.b2z (Z.testbit (Z.of_nat k) (vbus_status_bit a')))
              (seq 0 256) = true)
      by (intros a'; destruct a'; vm_compute; reflexivity).
    pose proof (forallb_seq_upto _ 256 (to_uint8 v) (Hall a)) as Hk.
    cbv beta in Hk. pose proof (to_uint8_is_uint8 v) as Hv.
    unfold is_uint8 in Hv. rewrite Z2Nat.id in Hk by lia.
    apply Z.eqb_eq. apply Hk. lia. }
  rewrite Hbit.
  split; [destruct (r <? 0); reflexivity |]. split.
  - intros Hr. replace (r <? 0) with true by (symmetry; apply Z.ltb_lt; lia).
    reflexivity.
  - intros ->. reflexivity.
Qed.

End AttrGetProperties.

(** Witness for X16: a failing read of the charge-enable register. *)
Lemma attr_get_failure_keeps_value_witness :
  snd (fst (npm13xx_charger_attr_get (mock_mfd (fails_at 0) mock_regs mock_burst)
              mock_from_micro mock_charger_attribute
              SENSOR_CHAN_GAUGE_DESIRED_CHARGING_CURRENT SENSOR_ATTR_CONFIGURATION
              {| val1 := 7; val2 := 9 |} world0))
  = {| val1 := 7; val2 := 9 |}.
Proof.
  apply (proj1 (attr_get_failure_keeps_value
                  (mock_mfd (fails_at 0) mock_regs mock_burst)
                  mock_from_micro mock_charger_attribute
                  SENSOR_CHAN_GAUGE_DESIRED_CHARGING_CURRENT
                  SENSOR_ATTR_CONFIGURATION {| val1 := 7; val2 := 9 |} world0)).
  cbn. unfold EIO. lia.
Defined.

(** Witness for X17: the configuration attribute on the VBUS status channel
    costs a register read before it is refused. *)
Lemma attr_get_not_supported_witness :
  npm13xx_charger_attr_get (mock_mfd never_fails mock_regs mock_burst)
    mock_from_micro mock_charger_attribute
    SENSOR_CHAN_NPM13XX_CHARGER_VBUS_STATUS SENSOR_ATTR_CONFIGURATION
    {| val1 := 7; val2 := 9 |} world0
  = ((- ENOTSUP, {| val1 := 7; val2 := 9 |}),
     World 1%nat [OpRead VBUS_BASE VBUS_OFFSET_STATUS]).
Proof.
  apply (proj2 (attr_get_not_supported
                  (mock_mfd never_fails mock_regs mock_burst)
                  mock_from_micro mock_charger_attribute
                  SENSOR_CHAN_NPM13XX_CHARGER_VBUS_STATUS SENSOR_ATTR_CONFIGURATION
                  {| val1 := 7; val2 := 9 |} world0)).
  - reflexivity.
  - cbn. lia.
Defined.

(** Witness for X18: the detect byte 0x08 has bit 3 set. *)
Lemma attr_get_cable_detect_witness :
  fst (npm13xx_charger_attr_get (mock_mfd never_fails mock_regs mock_burst)
         mock_from_micro mock_charger_attribute
         SENSOR_CHAN_CURRENT SENSOR_ATTR_UPPER_THRESH
         {| val1 := 0; val2 := 0 |} world0)
  = (0, mock_from_micro 1500000).
Proof.
  apply (attr_get_cable_detect (mock_mfd never_fails mock_regs mock_burst)
           mock_from_micro mock_charger_attribute {| val1 := 0; val2 := 0 |} world0).
  reflexivity.
Defined.

(** Witness for X19: the status byte 0x08 has the undervoltage bit set. *)
Lemma attr_get_vbus_status_flag_witness :
  fst (npm13xx_charger_attr_get (mock_mfd never_fails mock_regs mock_burst)
         mock_from_micro mock_charger_attribute
         SENSOR_CHAN_NPM13XX_CHARGER_VBUS_STATUS (SENSOR_ATTR_OTHER 67)
         {| val1 := 0; val2 := 0 |} world0)
  = (0, {| val1 := 1; val2 := 0 |}).
Proof.
  apply (attr_get_vbus_status_flag (mock_mfd never_fails mock_regs mock_burst)
           mock_from_micro mock_charger_attribute (SENSOR_ATTR_OTHER 67)
           SENSOR_ATTR_NPM13XX_CHARGER_VBUS_UNDERVLT
           {| val1 := 0; val2 := 0 |} world0).
  - reflexivity.
  - reflexivity.
Defined.

(** ** Initialization: order of the register writes *)

Section PrefixRuns.
Context {B : Type} (mfd : mfd_npm13xx B).
Local Open Scope drv_scope.

Lemma runs_prefix_ret_error (calls : list bus_op) (r : Z) :
  r <> 0 -> runs_prefix_of calls (@ret B Z r).
Proof.
  intros Hr w. exists [], calls. cbn. rewrite app_nil_r.
  repeat split. intros; contradiction.
Qed.

Lemma runs_prefix_ret_ok : runs_prefix_of [] (@ret B Z 0).
Proof. intros w. exists [], []. cbn. rewrite app_nil_r. auto. Qed.

Lemma runs_prefix_write (base offset data : Z) :
  runs_prefix_of [OpWrite base offset (to_uint8 data)]
    (mfd_npm13xx_reg_write mfd base offset data).
Proof.
  intros w. unfold mfd_npm13xx_reg_write.
  destruct (reg_write mfd base offset (to_uint8 data) (bus w)) as [r s].
  eexists [_], []. cbn [fst snd trace app]. auto.
Qed.

Lemma runs_prefix_write2 (base offset data1 data2 : Z) :
  runs_prefix_of [OpWrite2 base offset (to_uint8 data1) (to_uint8 data2)]
    (mfd_npm13xx_reg_write2 mfd base offset data1 data2).
Proof.
  intros w. unfold mfd_npm13xx_reg_write2.
  destruct (reg_write2 mfd base offset (to_uint8 data1) (to_uint8 data2) (bus w))
    as [r s].
  eexists [_], []. cbn [fst snd trace app]. auto.
Qed.

(** One step of the fail-fast chain: run [m], stop on a non-zero result,
    otherwise go on with [k]. *)
Lemma runs_prefix_then (calls1 calls2 : list bus_op) (m k : M B Z) :
  runs_prefix_of calls1 m -> runs_prefix_of calls2 k ->
  runs_prefix_of (calls1 ++ calls2)
    (r <- m ;; if negb (r =? 0) then ret r else k).
Proof.
  intros Hm Hk w. unfold bind.
  destruct (Hm w) as (a1 & r1 & Ht1 & Hc1 & Hz1).
  destruct (m w) as [r w1]. cbn [fst snd] in Ht1, Hz1.
  destruct (Z.eqb_spec r 0) as [E | E]; cbn [negb].
  - destruct (Hk w1) as (a2 & r2 & Ht2 & Hc2 & Hz2).
    rewrite (Hz1 E), app_nil_r in Hc1. subst calls1.
    exists (a1 ++ a2), r2. rewrite Ht2, Ht1, Hc2, !app_assoc. auto.
  - exists a1, (r1 ++ calls2). unfold ret. cbn [fst snd].
    rewrite Ht1, Hc1, app_assoc. repeat split. intros; contradiction.
Qed.

Lemma runs_prefix_set_current (config : npm13xx_charger_config) (idx : Z) :
  runs_prefix_of (init_set_current_calls config idx)
    (init_set_current mfd config idx).
Proof.
  unfold init_set_current_calls, init_set_current.
  destruct (dischg_limit_idx config =? UINT8_MAX).
  - apply runs_prefix_write.
  - apply (runs_prefix_then [_] [_]);
      [apply runs_prefix_write2 | apply runs_prefix_write2].
Qed.

(** A failed lookup ends init with -EINVAL before the next write. *)
Ltac lookup_step :=
  match goal with
  | |- runs_prefix_of _ (let '(_, _) := ?e in _) =>
      let r := fresh "r" in let i := fresh "i" in
      destruct e as [r i]; cbn [snd];
      destruct (Z.eqb_spec r (- EINVAL)) as [-> | _];
      [apply runs_prefix_ret_error; unfold EINVAL; lia |]
  end.

Ltac write_step :=
  match goal with
  | |- runs_prefix_of (?c :: ?rest) _ =>
      apply (runs_prefix_then [c] rest); [apply runs_prefix_write |]
  end.

Lemma runs_prefix_parameters (config : npm13xx_charger_config) :
  runs_prefix_of (init_parameter_calls config ++ init_enable_calls config)
    (init_charge_parameters mfd config).
Proof.
  unfold init_parameter_calls, init_enable_calls, init_charge_parameters.
  cbn [app]. rewrite <- !app_assoc. cbn [app].
  lookup_step. write_step.
  lookup_step. write_step.
  lookup_step.
  apply runs_prefix_then; [apply runs_prefix_set_current |].
  cbn [app].
  lookup_step. write_step.
  write_step. write_step. write_step. write_step.
  apply (runs_prefix_then [_]); [apply runs_prefix_write2 |].
  write_step.
  rewrite <- ?app_assoc.
  match goal with |- runs_prefix_of (?a ++ ?b) _ =>
    apply (runs_prefix_then a b) end.
  { destruct (vbatlow_charge_enable config);
      [apply runs_prefix_write | apply runs_prefix_ret_ok]. }
  cbn [app]. write_step.
  rewrite <- (app_nil_r (if charging_enable config then _ else _)).
  match goal with |- runs_prefix_of (?a ++ ?b) _ =>
    apply (runs_prefix_then a b) end; [| apply runs_prefix_ret_ok].
  destruct (charging_enable config);
    [apply runs_prefix_write | apply runs_prefix_ret_ok].
Qed.

End PrefixRuns.

Section InitOrder.
Context {B : Type} (mfd : mfd_npm13xx B).
Variable calc_ntc_res : npm13xx_charger_config -> Z -> Z.

Lemma runs_prefix_init_body (config : npm13xx_charger_config) :
  runs_prefix_of
    (flat_map (ntc_threshold_write calc_ntc_res config) [0; 1; 2; 3]
     ++ flat_map (dietemp_threshold_write config) [0; 1]
     ++ init_parameter_calls config ++ init_enable_calls config)
    (bind (set_ntc_thresholds mfd calc_ntc_res config) (fun r =>
       if negb (r =? 0) then ret r else
       bind (set_dietemp_thresholds mfd config) (fun r =>
         if negb (r =? 0) then ret r else init_charge_parameters mfd config))).
Proof.
  apply runs_prefix_then.
  { intros w. apply set_ntc_thresholds_from_trace. }
  apply runs_prefix_then.
  { intros w. apply set_dietemp_thresholds_from_trace. }
  apply runs_prefix_parameters.
Qed.

(** The calls of init against the list [init_calls]. *)
Lemma init_runs_prefix_of_calls (config : npm13xx_charger_config) (w : world B) :
  let run := npm13xx_charger_init mfd calc_ntc_res config w in
  (device_is_ready mfd (bus w) = false -> run = (- ENODEV, w))
  /\ (device_is_ready mfd (bus w) = true ->
      exists added rest,
        trace (snd run)
          = trace w ++ OpWrite ADC_BASE ADC_OFFSET_NTCR_SEL
                         (to_uint8 (thermistor_idx config)) :: added
        /\ init_calls calc_ntc_res config
           = OpWrite ADC_BASE ADC_OFFSET_NTCR_SEL
               (to_uint8 (thermistor_idx config)) :: added ++ rest
        /\ (fst run = 0 -> rest = [])).
Proof.
  cbv zeta.
  split; intros Hready.
  { unfold npm13xx_charger_init. rewrite Hready. reflexivity. }
  destruct (npm13xx_charger_init mfd calc_ntc_res config w) as [r w'] eqn:Hrun.
  cbn [fst snd].
  unfold npm13xx_charger_init in Hrun. rewrite Hready in Hrun. cbn [negb] in Hrun.
  unfold bind at 1 in Hrun. unfold mfd_npm13xx_reg_write at 1 in Hrun.
  cbn [bus trace] in Hrun.
  destruct (reg_write mfd ADC_BASE ADC_OFFSET_NTCR_SEL
              (to_uint8 (thermistor_idx config)) (bus w)) as [r0 s0].
  unfold init_calls, init_setup_calls. cbn [app]. rewrite <- !app_assoc.
  destruct (Z.eqb_spec r0 0) as [E0 | E0]; cbn [negb] in Hrun.
  - match type of Hrun with ?m (World s0 ?t) = _ =>
      destruct (runs_prefix_init_body config (World s0 t))
        as (added & rest & Ht & Hc & Hz) end.
    rewrite Hrun in Ht, Hz. cbn [fst snd trace] in Ht, Hz.
    exists added, rest.
    rewrite Ht, Hc, <- app_assoc. cbn [app].
    split; [reflexivity | split; [reflexivity | exact Hz]].
  - unfold ret in Hrun. injection Hrun as <- <-.
    eexists [], _. cbn [trace app].
    split; [reflexivity | split; [reflexivity | intros; contradiction]].
Qed.

(** X20.  Order of initialization.  If the parent device is not ready, init
    returns -ENODEV and makes no transport call.  Otherwise it starts with
    the thermistor selection and goes through its writes in one fixed
    order: the set NTC thresholds, the set die-temperature thresholds, the
    two termination voltages, the charge current (and discharge limit), the
    VBUS start-up limit, trickle and termination-current selection, the
    three measurement writes, the automatic temperature measurement, the
    low-battery enable if configured, the disable mask and, last, the
    charging enable if configured.  The calls made are an initial part of
    that list, never out of order and never skipping one, and the whole
    list when init returns 0. *)
Theorem init_call_order (config : npm13xx_charger_config) (b : B) :
  let run := npm13xx_charger_init mfd calc_ntc_res config (World b []) in
  (device_is_ready mfd b = false -> run = (- ENODEV, World b []))
  /\ (device_is_ready mfd b = true ->
      exists rest,
        init_calls calc_ntc_res config = trace (snd run) ++ rest
        /\ trace (snd run) <> []
        /\ (fst run = 0 -> trace (snd run) = init_calls calc_ntc_res config)).
Proof.
  cbv zeta.
  destruct (init_runs_prefix_of_calls config (World b [])) as [Hnot Hrdy].
  cbn [bus] in Hnot, Hrdy.
  split; [exact Hnot |]. intros Hready.
  destruct (Hrdy Hready) as (added & rest & Ht & Hc & Hz).
  cbn [trace app] in Ht. exists rest. rewrite Ht.
  split; [exact Hc |]. split; [discriminate |].
  intros Hr. rewrite Hc, (Hz Hr), app_nil_r. reflexivity.
Qed.

(** Before the charging enable, init writes the enable register nowhere. *)
Lemma init_setup_has_no_enable (config : npm13xx_charger_config) :
  forallb (fun op => negb (is_enable_write op))
          (init_setup_calls calc_ntc_res config) = true.
Proof.
  unfold init_setup_calls, init_parameter_calls, init_set_current_calls.
  cbn [flat_map].
  destruct (ntc_threshold_write_cases calc_ntc_res config 0) as [N0 | (m0 & l0 & N0)];
  destruct (ntc_threshold_write_cases calc_ntc_res config 1) as [N1 | (m1 & l1 & N1)];
  destruct (ntc_threshold_write_cases calc_ntc_res config 2) as [N2 | (m2 & l2 & N2)];
  destruct (ntc_threshold_write_cases calc_ntc_res config 3) as [N3 | (m3 & l3 & N3)];
  destruct (dietemp_threshold_write_cases config 0) as [D0 | (n0 & k0 & D0)];
  destruct (dietemp_threshold_write_cases config 1) as [D1 | (n1 & k1 & D1)];
  rewrite N0, N1, N2, N3, D0, D1;
  destruct (dischg_limit_idx config =? UINT8_MAX);
  destruct (vbatlow_charge_enable config); reflexivity.
Qed.


End InitOrder.

(** Witness for X20: the nPM1300 instance on a transport that never fails
    runs all of its sixteen writes. *)
Lemma init_call_order_witness :
  trace (snd (npm13xx_charger_init (mock_mfd never_fails mock_regs mock_burst)
                (fun _ _ => 4000) npm1300_config world0))
  = init_calls (fun _ _ => 4000) npm1300_config.
Proof.
  destruct (init_call_order (mock_mfd never_fails mock_regs mock_burst)
              (fun _ _ => 4000) npm1300_config 0%nat) as [_ Hrdy].
  destruct (Hrdy eq_refl) as (rest & _ & _ & Hz).
  apply Hz. reflexivity.
Defined.


(** ** Fetch, then read out *)

(** X22.  End to end: when all six transport calls of a fetch succeed, the
    fetch returns 0 and channel_get then reports, from the cache alone, the
    status, error-reason and VBUS status bytes the transport delivered
    (val2 = 0), and hands the decoded die-temperature code to the read-out
    conversion. *)
Theorem fetch_then_channel_get (B : Type) (mfd : mfd_npm13xx B)
    (sensor_value_from_milli sensor_value_from_micro : Z -> sensor_value)
    (calc_temp : npm13xx_charger_config -> Z -> sensor_value)
    (config : npm13xx_charger_config) (data : npm13xx_charger_data)
    (w : world B) (st er vb : Z) (bs : list Z) (b1 b2 b3 b4 b5 b6 : B)
    (valp : sensor_value) :
  reg_read mfd CHGR_BASE CHGR_OFFSET_CHG_STAT (bus w) = ((0, st), b1) ->
  reg_read mfd CHGR_BASE CHGR_OFFSET_ERR_REASON b1 = ((0, er), b2) ->
  reg_read_burst mfd ADC_BASE ADC_OFFSET_RESULTS 11 b2 = ((0, bs), b3) ->
  reg_write2 mfd ADC_BASE ADC_OFFSET_TASK_TEMP 1 1 b3 = (0, b4) ->
  reg_write mfd ADC_BASE ADC_OFFSET_TASK_VBAT 1 b4 = (0, b5) ->
  reg_read mfd VBUS_BASE VBUS_OFFSET_STATUS b5 = ((0, vb), b6) ->
  is_uint8 st -> is_uint8 er -> is_uint8 vb -> Forall is_uint8 bs ->
  let run := npm13xx_charger_sample_fetch mfd data w in
  let get := npm13xx_charger_channel_get sensor_value_from_milli
               sensor_value_from_micro calc_temp config (snd (fst run)) in
  fst (fst run) = 0
  /\ get SENSOR_CHAN_NPM13XX_CHARGER_STATUS valp
     = Some (0, {| val1 := st; val2 := 0 |})
  /\ get SENSOR_CHAN_NPM13XX_CHARGER_ERROR valp
     = Some (0, {| val1 := er; val2 := 0 |})
  /\ get SENSOR_CHAN_NPM13XX_CHARGER_VBUS_STATUS valp
     = Some (0, {| val1 := vb; val2 := 0 |})
  /\ get SENSOR_CHAN_DIE_TEMP valp
     = Some (0, sensor_value_from_milli
                  (calc_dietemp
                     (Z.lor (Z.shiftl (nth 3 bs 0) 2)
                            (Z.land (Z.shiftr (nth 5 bs 0) 4) 3)))).
Proof.
  intros H1 H2 H3 H4 H5 H6 Hst Her Hvb Hbs. cbv zeta.
  unfold_fetch. change (to_uint8 1) with 1.
  rewrite H1. cbn [bus trace Z.eqb negb]. rewrite H2.
  cbn [bus trace Z.eqb negb]. rewrite H3. cbn [bus trace Z.eqb negb].
  rewrite H4. cbn [bus trace Z.eqb negb]. rewrite H5.
  cbn [bus trace Z.eqb negb]. rewrite H6. cbn [bus trace Z.eqb negb fst snd].
  rewrite (map_to_uint8_id bs Hbs), (to_uint8_id st Hst), (to_uint8_id er Her),
    (to_uint8_id vb Hvb).
  unfold npm13xx_charger_channel_get.
  cbn [set_vbus_stat store_adc_results adc_results_of_bytes set_error set_status
       status error vbus_stat dietemp msb_die lsb_a].
  repeat split.
  destruct (adc_get_res_bytes (nth 3 bs 0) (nth 5 bs 0) ADC_LSB_DIE_SHIFT)
    as [E _]; [apply nth_is_uint8; exact Hbs .. | unfold ADC_LSB_DIE_SHIFT; lia |].
  rewrite E. reflexivity.
Qed.

Lemma fetch_then_channel_get_witness :
  npm13xx_charger_channel_get mock_from_milli mock_from_micro mock_calc_temp
    npm1300_config
    (snd (fst (npm13xx_charger_sample_fetch
                 (mock_mfd never_fails mock_regs mock_burst)
                 charger_data_zero world0)))
    SENSOR_CHAN_NPM13XX_CHARGER_STATUS {| val1 := 0; val2 := 0 |}
  = Some (0, {| val1 := 0x08; val2 := 0 |}).
Proof.
  apply (fetch_then_channel_get nat (mock_mfd never_fails mock_regs mock_burst)
           mock_from_milli mock_from_micro mock_calc_temp npm1300_config
           charger_data_zero world0 0x08 0x08 0x08 mock_burst
           1%nat 2%nat 3%nat 4%nat 5%nat 6%nat {| val1 := 0; val2 := 0 |});
    try reflexivity; try (unfold is_uint8; lia).
  unfold mock_burst, is_uint8. repeat constructor; lia.
Defined.
